(** * The Star Wars blog data model (src/models.py), embedded in Rocq

    The source is a Flask-SQLAlchemy schema: seven mapped classes with
    their column declarations, their relationships and a [serialize]
    method each.  This development transcribes

    - the declarations ([mapped_column], [ForeignKey], [relationship])
      as data, module by module, with the keyword arguments the source
      gives and nothing else;
    - the mapped objects as records whose attributes may be [None];
    - the persisted state as a record of tables (lists of rows, in
      insertion order), read in the order in which the store reads
      them;
    - the [serialize] methods as functions into Python values;
    - what [session.add], attribute updates and [session.delete]
      followed by [session.commit] do to the tables, driven by the
      declarations: NOT NULL, PRIMARY KEY, UNIQUE and FOREIGN KEY checks,
      column defaults, and the unit of work's treatment of one-to-many
      relationships on delete.

    Scope of the model.  The store is SQLite, the database the comments
    of the source name ([sqlite:///mydatabase.db]), reached through
    Python's [sqlite3] driver.  An [Integer] column holds 64-bit signed
    integers and the driver refuses to bind any other.  Strings are
    sequences of characters, and the length of [String(n)] is recorded
    but not enforced, as in SQLite.  A [DateTime] column holds the
    calendar fields of a [datetime] and no offset from UTC.  SQLite
    enforces foreign keys only when asked to ([PRAGMA foreign_keys]), so
    that setting is a field of [Backend] and every statement holds for
    both values of it.  Primary keys generated by the store follow
    SQLite's rule: the largest key plus one, and a key drawn at random
    once the largest key is taken.  Primary keys of persisted rows are
    not reassigned.  A relationship attribute of an object is the
    collection the mapper loads for it from the store, in the order in
    which the store returns the rows; objects that are pending in a
    session and not yet flushed are not modelled. *)

From stdpp Require Import base option strings list gmap sets pretty sorting.
From Stdlib Require Import ZArith.
From Stdlib Require Import Ascii.

Local Open Scope Z_scope.

(** ** Python values *)

(** What a [serialize] method can put in its dictionary. *)
#[warnings="-register-all"]
Inductive value : Type :=
  | VNone
  | VBool (b : bool)
  | VInt (n : Z)
  | VStr (s : string)
  | VList (l : list value)
  | VDict (d : gmap string value).

(** [{k1: v1, ..., kn: vn}]: the entries are stored from left to right, so
    a later entry would overwrite an earlier one with the same key. *)
Definition dict (entries : list (string * value)) : gmap string value :=
  foldl (λ d kv, <[kv.1 := kv.2]> d) ∅ entries.

(** Attribute values that may be [None], as Python values. *)
Definition of_int (o : option Z) : value := from_option VInt VNone o.
Definition of_str (o : option string) : value := from_option VStr VNone o.
Definition of_bool (o : option bool) : value := from_option VBool VNone o.

(** A value that holds no collection: [None], a boolean, a number or a
    string. *)
Definition is_scalar (v : value) : bool :=
  match v with
  | VNone | VBool _ | VInt _ | VStr _ => true
  | VList _ | VDict _ => false
  end.

(** ** [datetime.datetime] *)

(** A [datetime]: the calendar fields and the offset from UTC of its
    [tzinfo] in microseconds, [None] for a naive value. *)
Record datetime : Type := mk_datetime {
  year : Z;
  month : Z;
  day : Z;
  hour : Z;
  minute : Z;
  second : Z;
  microsecond : Z;
  utcoffset : option Z;
}.

(** ["%0<width>d" % n]. *)
Definition zero_pad (width : nat) (digits : string) : string :=
  String.concat "" (replicate (width - String.length digits)%nat "0")
  +:+ digits.

Definition format_d (width : nat) (n : Z) : string :=
  if decide (n < 0)
  then "-" +:+ zero_pad (width - 1) (pretty (Z.abs n))
  else zero_pad width (pretty n).

(** The offset part of [isoformat()]: [+HH:MM], followed by [:SS] and
    [.ffffff] only when they are not zero. *)
Definition format_offset (off : option Z) : string :=
  match off with
  | None => ""
  | Some off =>
      let sign := if decide (off < 0) then "-" else "+" in
      let off := Z.abs off in
      let hh := off `div` 3600000000 in
      let mm := (off `mod` 3600000000) `div` 60000000 in
      let ss := (off `mod` 3600000000) `mod` 60000000 in
      sign +:+ format_d 2 hh +:+ ":" +:+ format_d 2 mm
      +:+ (if decide (ss = 0) then ""
           else ":" +:+ format_d 2 (ss `div` 1000000)
                +:+ (if decide (ss `mod` 1000000 = 0) then ""
                     else "." +:+ format_d 6 (ss `mod` 1000000)))
  end.

(** [datetime.isoformat()] with its default arguments ([sep='T'],
    [timespec='auto']): [YYYY-MM-DDTHH:MM:SS], then [.ffffff] when the
    microsecond is not zero, then the offset of an aware value. *)
Definition isoformat (d : datetime) : string :=
  format_d 4 (year d) +:+ "-" +:+ format_d 2 (month d) +:+ "-"
  +:+ format_d 2 (day d) +:+ "T"
  +:+ format_d 2 (hour d) +:+ ":" +:+ format_d 2 (minute d) +:+ ":"
  +:+ format_d 2 (second d)
  +:+ (if decide (microsecond d = 0) then ""
       else "." +:+ format_d 6 (microsecond d))
  +:+ format_offset (utcoffset d).

(** ** Errors *)

(** The constraint a statement violated, with the table or the column
    ([table.column]) it belongs to. *)
Inductive constraint : Type :=
  | NotNull (column : string)
  | PrimaryKey (table : string)
  | Unique (column : string)
  | ForeignKeyViolation (column : string).

Inductive error : Type :=
  | IntegrityError (c : constraint)
      (* the store rejected a statement: a constraint violation *)
  | OverflowError
      (* the driver refused an integer that does not fit in 64 bits *)
  | OperationalError
      (* the store found no unused key: database or disk is full *)
  | AttributeError
      (* an attribute of [None] was read *)
  | UnmappedInstanceError
      (* [session.delete] or an update of an object that is not persisted *)
  | AssertionError.
      (* the unit of work refused to blank out a primary key column *)

Inductive result (A : Type) : Type :=
  | Ok (a : A)
  | Err (e : error).
Arguments Ok {A} a.
Arguments Err {A} e.

#[global] Instance result_ret : MRet result := λ A a, Ok a.
#[global] Instance result_bind : MBind result := λ A B f m,
  match m with
  | Ok a => f a
  | Err e => Err e
  end.
#[global] Instance result_fmap : FMap result := λ A B f m,
  match m with
  | Ok a => Ok (f a)
  | Err e => Err e
  end.

(** ** The declarations of SQLAlchemy *)

Module sqlalchemy.

Inductive column_type : Type :=
  | String (length : nat)
  | Integer
  | DateTime (timezone : bool)
  | Boolean.

(** [func.now()], the only SQL function of the source. *)
Inductive sql_function : Type := func_now.

(** The arguments [mapped_column] takes after the type. *)
Inductive column_arg : Type :=
  | ForeignKey (target : string)
  | primary_key (b : bool)
  | unique (b : bool)
  | nullable (b : bool)
  | default (v : value)
  | server_default (f : sql_function).

(** [mapped_column(type, ...)]. *)
Record MappedColumn : Type := mapped_column {
  type_ : column_type;
  arguments : list column_arg;
}.

(** The Python type of the annotation [Mapped[...]] of an attribute. *)
Inductive python_type : Type :=
  | py_int
  | py_str
  | py_bool
  | py_datetime
  | Optional (t : python_type).

(** [name: Mapped[annotation] = mapped_column(...)]. *)
Record Column : Type := Mapped {
  annotation : python_type;
  declaration : MappedColumn;
}.

Definition args (c : Column) : list column_arg := arguments (declaration c).

Definition is_primary_key (c : Column) : bool :=
  existsb (λ a, match a with primary_key b => b | _ => false end) (args c).

Definition is_unique (c : Column) : bool :=
  existsb (λ a, match a with unique b => b | _ => false end) (args c).

Definition is_optional (t : python_type) : bool :=
  match t with Optional _ => true | _ => false end.

(** A column is nullable when [nullable=] says so.  When the declaration
    says nothing, a column of the primary key is not nullable, and
    another column is nullable when its annotation is [Optional]. *)
Definition is_nullable (c : Column) : bool :=
  match head (omap (λ a, match a with nullable b => Some b | _ => None end)
                   (args c)) with
  | Some b => b
  | None => negb (is_primary_key c) && is_optional (annotation c)
  end.

Definition foreign_key_of (c : Column) : option string :=
  head (omap (λ a, match a with ForeignKey target => Some target | _ => None end)
             (args c)).

Definition default_of (c : Column) : option value :=
  head (omap (λ a, match a with default v => Some v | _ => None end)
             (args c)).

Definition server_default_of (c : Column) : option sql_function :=
  head (omap (λ a, match a with server_default f => Some f | _ => None end)
             (args c)).

(** The store generates the value of an integer primary key column
    that has no foreign key. *)
Definition autoincrement (c : Column) : bool :=
  is_primary_key c
  && match type_ (declaration c) with Integer => true | _ => false end
  && bool_decide (foreign_key_of c = None).

(** The options of a [cascade] string. *)
Inductive cascade_option : Type :=
  | save_update | merge | refresh_expire | expunge | delete
  | delete_orphan | all.

(** [relationship(argument, back_populates=..., cascade=...)];
    [cascade] is [None] where the source does not give it. *)
Record Relationship : Type := relationship {
  argument : string;
  back_populates : string;
  cascade : option (list cascade_option);
}.

(** The cascade of a relationship that gives none is
    ["save-update, merge"]; ["all"] stands for every option but
    ["delete-orphan"]. *)
Definition cascades (r : Relationship) : list cascade_option :=
  from_option id [save_update; merge] (cascade r).

Definition cascade_delete (r : Relationship) : bool :=
  existsb (λ o, match o with delete | all => true | _ => false end)
          (cascades r).

End sqlalchemy.

(** ** The mapped classes

    One module per class of the source.  [columns] and [relationships]
    hold the declarations as the source writes them; the record [t] is an
    instance of the class, every attribute of which may be [None]. *)

Module User.
Definition tablename : string := "users".

Module columns.
Import sqlalchemy.
Definition id :=
  Mapped py_int (mapped_column Integer [primary_key true]).
Definition email :=
  Mapped py_str (mapped_column (String 120) [unique true; nullable false]).
Definition password :=
  Mapped py_str (mapped_column (String 200) [nullable false]).
Definition first_name :=
  Mapped py_str (mapped_column (String 80) [nullable true]).
Definition last_name :=
  Mapped py_str (mapped_column (String 80) [nullable true]).
Definition subscription_date :=
  Mapped py_datetime (mapped_column (DateTime true) [server_default func_now]).
Definition is_active :=
  Mapped py_bool (mapped_column Boolean [default (VBool true); nullable false]).
End columns.

Module relationships.
Import sqlalchemy.
Definition favorite_planets :=
  relationship "FavoritePlanet" "user" (Some [all; delete_orphan]).
Definition favorite_people :=
  relationship "FavoritePerson" "user" (Some [all; delete_orphan]).
Definition favorite_vehicles :=
  relationship "FavoriteVehicle" "user" (Some [all; delete_orphan]).
End relationships.

Record t : Type := mk {
  id : option Z;
  email : option string;
  password : option string;
  first_name : option string;
  last_name : option string;
  subscription_date : option datetime;
  is_active : option bool;
}.
End User.

Module Planet.
Definition tablename : string := "planets".

Module columns.
Import sqlalchemy.
Definition id :=
  Mapped py_int (mapped_column Integer [primary_key true]).
Definition name :=
  Mapped py_str (mapped_column (String 100) [unique true; nullable false]).
Definition diameter :=
  Mapped py_str (mapped_column (String 40) [nullable true]).
Definition rotation_period :=
  Mapped py_str (mapped_column (String 40) [nullable true]).
Definition orbital_period :=
  Mapped py_str (mapped_column (String 40) [nullable true]).
Definition gravity :=
  Mapped py_str (mapped_column (String 40) [nullable true]).
Definition population :=
  Mapped py_str (mapped_column (String 40) [nullable true]).
Definition climate :=
  Mapped py_str (mapped_column (String 100) [nullable true]).
Definition terrain :=
  Mapped py_str (mapped_column (String 100) [nullable true]).
Definition surface_water :=
  Mapped py_str (mapped_column (String 40) [nullable true]).
End columns.

Module relationships.
Import sqlalchemy.
Definition favorited_by :=
  relationship "FavoritePlanet" "planet" (Some [all; delete_orphan]).
Definition residents := relationship "Person" "homeworld" None.
End relationships.

Record t : Type := mk {
  id : option Z;
  name : option string;
  diameter : option string;
  rotation_period : option string;
  orbital_period : option string;
  gravity : option string;
  population : option string;
  climate : option string;
  terrain : option string;
  surface_water : option string;
}.
End Planet.

Module Person.
Definition tablename : string := "people".

Module columns.
Import sqlalchemy.
Definition id :=
  Mapped py_int (mapped_column Integer [primary_key true]).
Definition name :=
  Mapped py_str (mapped_column (String 100) [nullable false]).
Definition height :=
  Mapped py_str (mapped_column (String 20) [nullable true]).
Definition mass :=
  Mapped py_str (mapped_column (String 20) [nullable true]).
Definition hair_color :=
  Mapped py_str (mapped_column (String 50) [nullable true]).
Definition skin_color :=
  Mapped py_str (mapped_column (String 50) [nullable true]).
Definition eye_color :=
  Mapped py_str (mapped_column (String 50) [nullable true]).
Definition birth_year :=
  Mapped py_str (mapped_column (String 20) [nullable true]).
Definition gender :=
  Mapped py_str (mapped_column (String 20) [nullable true]).
Definition homeworld_id :=
  Mapped py_int
    (mapped_column Integer [ForeignKey "planets.id"; nullable true]).
End columns.

Module relationships.
Import sqlalchemy.
Definition homeworld := relationship "Planet" "residents" None.
Definition favorited_by :=
  relationship "FavoritePerson" "person" (Some [all; delete_orphan]).
End relationships.

Record t : Type := mk {
  id : option Z;
  name : option string;
  height : option string;
  mass : option string;
  hair_color : option string;
  skin_color : option string;
  eye_color : option string;
  birth_year : option string;
  gender : option string;
  homeworld_id : option Z;
}.
End Person.

Module Vehicle.
Definition tablename : string := "vehicles".

Module columns.
Import sqlalchemy.
Definition id :=
  Mapped py_int (mapped_column Integer [primary_key true]).
Definition name :=
  Mapped py_str (mapped_column (String 100) [unique true; nullable false]).
Definition model :=
  Mapped py_str (mapped_column (String 100) [nullable false]).
Definition manufacturer :=
  Mapped py_str (mapped_column (String 200) [nullable false]).
Definition cost_in_credits :=
  Mapped py_str (mapped_column (String 40) [nullable true]).
Definition length :=
  Mapped py_str (mapped_column (String 20) [nullable true]).
Definition max_atmosphering_speed :=
  Mapped py_str (mapped_column (String 40) [nullable true]).
Definition crew :=
  Mapped py_str (mapped_column (String 40) [nullable true]).
Definition passengers :=
  Mapped py_str (mapped_column (String 40) [nullable true]).
Definition cargo_capacity :=
  Mapped py_str (mapped_column (String 40) [nullable true]).
Definition consumables :=
  Mapped py_str (mapped_column (String 40) [nullable true]).
Definition vehicle_class :=
  Mapped py_str (mapped_column (String 80) [nullable true]).
End columns.

Module relationships.
Import sqlalchemy.
Definition favorited_by :=
  relationship "FavoriteVehicle" "vehicle" (Some [all; delete_orphan]).
End relationships.

Record t : Type := mk {
  id : option Z;
  name : option string;
  model : option string;
  manufacturer : option string;
  cost_in_credits : option string;
  length : option string;
  max_atmosphering_speed : option string;
  crew : option string;
  passengers : option string;
  cargo_capacity : option string;
  consumables : option string;
  vehicle_class : option string;
}.
End Vehicle.

Module FavoritePlanet.
Definition tablename : string := "favorite_planets".

Module columns.
Import sqlalchemy.
Definition user_id :=
  Mapped py_int
    (mapped_column Integer [ForeignKey "users.id"; primary_key true]).
Definition planet_id :=
  Mapped py_int
    (mapped_column Integer [ForeignKey "planets.id"; primary_key true]).
End columns.

Module relationships.
Import sqlalchemy.
Definition user := relationship "User" "favorite_planets" None.
Definition planet := relationship "Planet" "favorited_by" None.
End relationships.

Record t : Type := mk {
  user_id : option Z;
  planet_id : option Z;
}.
End FavoritePlanet.

Module FavoritePerson.
Definition tablename : string := "favorite_people".

Module columns.
Import sqlalchemy.
Definition user_id :=
  Mapped py_int
    (mapped_column Integer [ForeignKey "users.id"; primary_key true]).
Definition person_id :=
  Mapped py_int
    (mapped_column Integer [ForeignKey "people.id"; primary_key true]).
End columns.

Module relationships.
Import sqlalchemy.
Definition user := relationship "User" "favorite_people" None.
Definition person := relationship "Person" "favorited_by" None.
End relationships.

Record t : Type := mk {
  user_id : option Z;
  person_id : option Z;
}.
End FavoritePerson.

Module FavoriteVehicle.
Definition tablename : string := "favorite_vehicles".

Module columns.
Import sqlalchemy.
Definition user_id :=
  Mapped py_int
    (mapped_column Integer [ForeignKey "users.id"; primary_key true]).
Definition vehicle_id :=
  Mapped py_int
    (mapped_column Integer [ForeignKey "vehicles.id"; primary_key true]).
End columns.

Module relationships.
Import sqlalchemy.
Definition user := relationship "User" "favorite_vehicles" None.
Definition vehicle := relationship "Vehicle" "favorited_by" None.
End relationships.

Record t : Type := mk {
  user_id : option Z;
  vehicle_id : option Z;
}.
End FavoriteVehicle.

#[global] Instance FavoritePlanet_eq_dec : EqDecision FavoritePlanet.t.
Proof. solve_decision. Defined.
#[global] Instance FavoritePerson_eq_dec : EqDecision FavoritePerson.t.
Proof. solve_decision. Defined.
#[global] Instance FavoriteVehicle_eq_dec : EqDecision FavoriteVehicle.t.
Proof. solve_decision. Defined.

(** ** The store *)

(** The persisted state: one list of rows per table, named as the
    table. *)
Record Store : Type := mk_Store {
  users : list User.t;
  planets : list Planet.t;
  people : list Person.t;
  vehicles : list Vehicle.t;
  favorite_planets : list FavoritePlanet.t;
  favorite_people : list FavoritePerson.t;
  favorite_vehicles : list FavoriteVehicle.t;
}.

(** The store after [db.create_all()]. *)
Definition empty_store : Store := mk_Store [] [] [] [] [] [] [].

(** What differs between stores and the declarations do not say:
    whether foreign keys are enforced ([PRAGMA foreign_keys]), and the
    key the store draws at random, given the keys in use, when it has to
    (see [next_key]). *)
Record Backend : Type := mk_Backend {
  enforces_foreign_keys : bool;
  random_rowid : list Z → Z;
}.

(** ** Relationships *)

(** The join condition of a relationship: the foreign key of the child
    equals the key of the parent.  SQL's [=] is never true of NULL. *)
Definition joins (fk key : option Z) : Prop := is_Some key ∧ fk = key.

#[global] Instance joins_dec fk key : Decision (joins fk key).
Proof. unfold joins. apply _. Defined.

(** The rows of the child table that join the parent with key [key], in
    the order of [rows]. *)
Definition one_to_many {C : Type} (fk : C → option Z) (key : option Z)
    (rows : list C) : list C :=
  filter (λ c, joins (fk c) key) rows.

(** The order of the keys in the store: NULL first, then the integers. *)
Definition key_le (a b : option Z) : Prop :=
  match a, b with
  | None, _ => True
  | Some _, None => False
  | Some x, Some y => x ≤ y
  end.

#[global] Instance key_le_dec a b : Decision (key_le a b).
Proof. destruct a, b; simpl; apply _. Defined.

(** [x] at its place among rows that are in the order of [key]: before
    the first row whose key is not smaller. *)
Fixpoint insert_by {C : Type} (key : C → option Z) (x : C) (rows : list C) :
    list C :=
  match rows with
  | [] => [x]
  | y :: rows' =>
      if decide (key_le (key x) (key y)) then x :: rows
      else y :: insert_by key x rows'
  end.

(** The order of the rows by their keys. *)
Definition key_order {C : Type} (key : C → option Z) (x y : C) : Prop :=
  key_le (key x) (key y).

(** The rows in the order of [key]; rows with the same key stay in the
    order they have in [rows]. *)
Definition by_key {C : Type} (key : C → option Z) (rows : list C) : list C :=
  foldr (insert_by key) [] rows.

(** The order in which a collection is loaded is the order in which the
    store reads the rows, as no relationship of the source gives an
    [order_by].  The table of an entity is stored by its integer primary
    key, and a scan of it returns the rows in the order of [id].  An
    association table is stored in the order of insertion and has an
    index on its primary key [(user_id, ..._id)]: the rows of one user
    are found through the index and come in the order of the second
    column, the rows of one planet, person or vehicle are found by a
    scan and come in the order of insertion. *)

(** [User.favorite_planets], [User.favorite_people] and
    [User.favorite_vehicles] join on the [user_id] of the association
    (its foreign key to [users.id]). *)
Definition User_favorite_planets (s : Store) (self : User.t) :
    list FavoritePlanet.t :=
  by_key FavoritePlanet.planet_id
    (one_to_many FavoritePlanet.user_id (User.id self) (favorite_planets s)).

Definition User_favorite_people (s : Store) (self : User.t) :
    list FavoritePerson.t :=
  by_key FavoritePerson.person_id
    (one_to_many FavoritePerson.user_id (User.id self) (favorite_people s)).

Definition User_favorite_vehicles (s : Store) (self : User.t) :
    list FavoriteVehicle.t :=
  by_key FavoriteVehicle.vehicle_id
    (one_to_many FavoriteVehicle.user_id (User.id self)
       (favorite_vehicles s)).

(** [Planet.residents] joins on [Person.homeworld_id] (the foreign key to
    [planets.id]), [Planet.favorited_by] on [FavoritePlanet.planet_id]. *)
Definition Planet_residents (s : Store) (self : Planet.t) : list Person.t :=
  by_key Person.id
    (one_to_many Person.homeworld_id (Planet.id self) (people s)).

Definition Planet_favorited_by (s : Store) (self : Planet.t) :
    list FavoritePlanet.t :=
  one_to_many FavoritePlanet.planet_id (Planet.id self) (favorite_planets s).

Definition Person_favorited_by (s : Store) (self : Person.t) :
    list FavoritePerson.t :=
  one_to_many FavoritePerson.person_id (Person.id self) (favorite_people s).

Definition Vehicle_favorited_by (s : Store) (self : Vehicle.t) :
    list FavoriteVehicle.t :=
  one_to_many FavoriteVehicle.vehicle_id (Vehicle.id self)
    (favorite_vehicles s).

(** ** [serialize]

    A method reads the attributes of [self]; a relationship attribute is
    loaded from the store [s] the object belongs to. *)

(** Python's truth value of an attribute that holds a [datetime] or
    [None]: a [datetime] is always true. *)
Definition truthy {A : Type} (o : option A) : bool :=
  match o with Some _ => true | None => false end.

(** [o.isoformat()]: reading the attribute of [None] raises. *)
Definition call_isoformat (o : option datetime) : result string :=
  match o with
  | Some d => Ok (isoformat d)
  | None => Err AttributeError
  end.

Definition User_serialize (s : Store) (self : User.t) :
    result (gmap string value) :=
  subscription_date ←
    (if truthy (User.subscription_date self)
     then VStr <$> call_isoformat (User.subscription_date self)
     else Ok VNone);
  Ok (dict [
    ("id", of_int (User.id self));
    ("email", of_str (User.email self));
    ("first_name", of_str (User.first_name self));
    ("last_name", of_str (User.last_name self));
    ("subscription_date", subscription_date);
    ("is_active", of_bool (User.is_active self));
    ("favorite_planet_ids",
      VList ((λ fav, of_int (FavoritePlanet.planet_id fav))
               <$> User_favorite_planets s self));
    ("favorite_person_ids",
      VList ((λ fav, of_int (FavoritePerson.person_id fav))
               <$> User_favorite_people s self));
    ("favorite_vehicle_ids",
      VList ((λ fav, of_int (FavoriteVehicle.vehicle_id fav))
               <$> User_favorite_vehicles s self))
  ]).

Definition Planet_serialize (s : Store) (self : Planet.t) :
    result (gmap string value) :=
  Ok (dict [
    ("id", of_int (Planet.id self));
    ("name", of_str (Planet.name self));
    ("diameter", of_str (Planet.diameter self));
    ("rotation_period", of_str (Planet.rotation_period self));
    ("orbital_period", of_str (Planet.orbital_period self));
    ("gravity", of_str (Planet.gravity self));
    ("population", of_str (Planet.population self));
    ("climate", of_str (Planet.climate self));
    ("terrain", of_str (Planet.terrain self));
    ("surface_water", of_str (Planet.surface_water self));
    ("resident_ids",
      VList ((λ resident, of_int (Person.id resident))
               <$> Planet_residents s self))
  ]).

Definition Person_serialize (s : Store) (self : Person.t) :
    result (gmap string value) :=
  Ok (dict [
    ("id", of_int (Person.id self));
    ("name", of_str (Person.name self));
    ("height", of_str (Person.height self));
    ("mass", of_str (Person.mass self));
    ("hair_color", of_str (Person.hair_color self));
    ("skin_color", of_str (Person.skin_color self));
    ("eye_color", of_str (Person.eye_color self));
    ("birth_year", of_str (Person.birth_year self));
    ("gender", of_str (Person.gender self));
    ("homeworld_id", of_int (Person.homeworld_id self))
  ]).

Definition Vehicle_serialize (s : Store) (self : Vehicle.t) :
    result (gmap string value) :=
  Ok (dict [
    ("id", of_int (Vehicle.id self));
    ("name", of_str (Vehicle.name self));
    ("model", of_str (Vehicle.model self));
    ("manufacturer", of_str (Vehicle.manufacturer self));
    ("cost_in_credits", of_str (Vehicle.cost_in_credits self));
    ("length", of_str (Vehicle.length self));
    ("max_atmosphering_speed", of_str (Vehicle.max_atmosphering_speed self));
    ("crew", of_str (Vehicle.crew self));
    ("passengers", of_str (Vehicle.passengers self));
    ("cargo_capacity", of_str (Vehicle.cargo_capacity self));
    ("consumables", of_str (Vehicle.consumables self));
    ("vehicle_class", of_str (Vehicle.vehicle_class self))
  ]).

Definition FavoritePlanet_serialize (s : Store) (self : FavoritePlanet.t) :
    result (gmap string value) :=
  Ok (dict [
    ("user_id", of_int (FavoritePlanet.user_id self));
    ("planet_id", of_int (FavoritePlanet.planet_id self))
  ]).

Definition FavoritePerson_serialize (s : Store) (self : FavoritePerson.t) :
    result (gmap string value) :=
  Ok (dict [
    ("user_id", of_int (FavoritePerson.user_id self));
    ("person_id", of_int (FavoritePerson.person_id self))
  ]).

Definition FavoriteVehicle_serialize (s : Store) (self : FavoriteVehicle.t) :
    result (gmap string value) :=
  Ok (dict [
    ("user_id", of_int (FavoriteVehicle.user_id self));
    ("vehicle_id", of_int (FavoriteVehicle.vehicle_id self))
  ]).

(** ** Constraints of the store *)

#[global] Instance datetime_eq_dec : EqDecision datetime.
Proof. solve_decision. Defined.

(** NOT NULL: a column that is not nullable refuses [None]. *)
Definition check_not_null {A : Type} (c : sqlalchemy.Column) (name : string)
    (v : option A) : result () :=
  if negb (sqlalchemy.is_nullable c) && negb (truthy v)
  then Err (IntegrityError (NotNull name))
  else Ok ().

(** UNIQUE: a unique column refuses a value that another row of [rows]
    holds; NULL is never a duplicate. *)
Definition check_unique {A R : Type} `{EqDecision A} (c : sqlalchemy.Column)
    (name : string) (get : R → option A) (rows : list R) (v : option A) :
    result () :=
  if sqlalchemy.is_unique c && bool_decide (is_Some v ∧ v ∈ get <$> rows)
  then Err (IntegrityError (Unique name))
  else Ok ().

(** PRIMARY KEY: the key of a new row is the key of no row of the
    table. *)
Definition check_primary_key {K : Type} `{EqDecision K} (table : string)
    (key : K) (keys : list K) : result () :=
  if bool_decide (key ∈ keys)
  then Err (IntegrityError (PrimaryKey table))
  else Ok ().

(** The keys a [ForeignKey] target names. *)
Definition referenced (s : Store) (target : string) : list (option Z) :=
  if decide (target = "users.id") then User.id <$> users s
  else if decide (target = "planets.id") then Planet.id <$> planets s
  else if decide (target = "people.id") then Person.id <$> people s
  else if decide (target = "vehicles.id") then Vehicle.id <$> vehicles s
  else [].

(** FOREIGN KEY, where the backend enforces it: a value that is not NULL
    is a key of the referenced table. *)
Definition check_foreign_key (be : Backend) (c : sqlalchemy.Column)
    (name : string) (v : option Z) (s : Store) : result () :=
  match sqlalchemy.foreign_key_of c with
  | Some target =>
      if enforces_foreign_keys be
         && bool_decide (is_Some v ∧ v ∉ referenced s target)
      then Err (IntegrityError (ForeignKeyViolation name))
      else Ok ()
  | None => Ok ()
  end.

(** FOREIGN KEY on DELETE, where the backend enforces it: no row still
    holds the key of the row to delete. *)
Definition check_unreferenced (be : Backend) (name : string)
    (fks : list (option Z)) (key : option Z) : result () :=
  if enforces_foreign_keys be && bool_decide (is_Some key ∧ key ∈ fks)
  then Err (IntegrityError (ForeignKeyViolation name))
  else Ok ().

(** The checks every column goes through: NOT NULL and UNIQUE, as its
    declaration asks. *)
Definition check_column {A R : Type} `{EqDecision A}
    (c : sqlalchemy.Column) (name : string) (get : R → option A)
    (rows : list R) (v : option A) : result () :=
  check_not_null c name v;;
  check_unique c name get rows v.

(** ** The values of a statement *)

(** The integers of an [Integer] column: 64 bits, signed. *)
Definition int64 (n : Z) : Prop := - 2 ^ 63 ≤ n < 2 ^ 63.

#[global] Instance int64_dec n : Decision (int64 n).
Proof. unfold int64. apply _. Defined.

(** A value the driver binds to an [Integer] column: [None] or an
    integer of 64 bits. *)
Definition binds (v : option Z) : Prop := ∀ n, v = Some n → int64 n.

(** The driver binds the values of a statement before the store sees
    it, and refuses an integer outside 64 bits. *)
Definition check_integer (v : option Z) : result () :=
  match v with
  | Some n => if decide (int64 n) then Ok () else Err OverflowError
  | None => Ok ()
  end.

(** What a [DateTime] column keeps of a [datetime]: the calendar
    fields.  The offset of an aware value is dropped, and the value read
    back is naive. *)
Definition naive (d : datetime) : datetime :=
  {| year := year d; month := month d; day := day d;
     hour := hour d; minute := minute d; second := second d;
     microsecond := microsecond d; utcoffset := None |}.

(** [CURRENT_TIMESTAMP] for the clock [now]: to the second, no offset. *)
Definition current_timestamp (now : datetime) : datetime :=
  {| year := year now; month := month now; day := day now;
     hour := hour now; minute := minute now; second := second now;
     microsecond := 0; utcoffset := None |}.

(** ** Values the store or the mapper supplies on INSERT *)

(** The largest key of a table. *)
Definition max_rowid : Z := 2 ^ 63 - 1.

(** The key SQLite generates: 1 in an empty table, else one more than
    the largest key of the table.  When the largest key is [max_rowid],
    the store draws keys between 1 and [2 ^ 62] at random until it finds
    one that is not in use, and gives up after some attempts; what it
    finds is [random_rowid]. *)
Definition next_key (be : Backend) (keys : list (option Z)) : result Z :=
  match omap id keys with
  | [] => Ok 1
  | k :: ks =>
      let largest := foldr Z.max k ks in
      if decide (largest < max_rowid) then Ok (1 + largest)
      else
        let r := random_rowid be (k :: ks) in
        if decide (1 ≤ r ≤ 2 ^ 62 ∧ Some r ∉ keys) then Ok r
        else Err OperationalError
  end.

(** The mapper leaves an attribute that is [None] out of the INSERT; an
    autoincrement key column is then filled by the store. *)
Definition generated_key (be : Backend) (c : sqlalchemy.Column)
    (keys : list (option Z)) (v : option Z) : result (option Z) :=
  match v with
  | Some _ => Ok v
  | None =>
      if sqlalchemy.autoincrement c then Some <$> next_key be keys
      else Ok None
  end.

(** [server_default=func.now()]: the store writes its clock where the
    INSERT gives no value. *)
Definition with_server_default (c : sqlalchemy.Column) (now : datetime)
    (v : option datetime) : option datetime :=
  match v, sqlalchemy.server_default_of c with
  | None, Some sqlalchemy.func_now => Some (current_timestamp now)
  | _, _ => v
  end.

(** [default=...] of a Boolean column. *)
Definition with_default_bool (c : sqlalchemy.Column) (v : option bool) :
    option bool :=
  match v, sqlalchemy.default_of c with
  | None, Some (VBool b) => Some b
  | _, _ => v
  end.

(** ** Transactions *)

(** The statements of one transaction: they fail, or give a result and
    the store they leave. *)
Definition Tx (A : Type) : Type := Store → result (A * Store).

(** [session.commit()]: the statements take effect together; when one
    fails the transaction is rolled back and the error surfaces. *)
Definition commit {A : Type} (tx : Tx A) (s : Store) : result A * Store :=
  match tx s with
  | Ok (a, s') => (Ok a, s')
  | Err e => (Err e, s)
  end.

(** ** [session.add(obj)] *)

Definition add_user (be : Backend) (now : datetime) (u : User.t) :
    Tx User.t := λ s,
  check_integer (User.id u);;
  key ← generated_key be User.columns.id (User.id <$> users s) (User.id u);
  let row := {|
    User.id := key;
    User.email := User.email u;
    User.password := User.password u;
    User.first_name := User.first_name u;
    User.last_name := User.last_name u;
    User.subscription_date :=
      naive <$> with_server_default User.columns.subscription_date now
                  (User.subscription_date u);
    User.is_active :=
      with_default_bool User.columns.is_active (User.is_active u);
  |} in
  check_not_null User.columns.id "users.id" (User.id row);;
  check_primary_key "users" (User.id row) (User.id <$> users s);;
  check_column User.columns.email "users.email"
    User.email (users s) (User.email row);;
  check_column User.columns.password "users.password"
    User.password (users s) (User.password row);;
  check_column User.columns.first_name "users.first_name"
    User.first_name (users s) (User.first_name row);;
  check_column User.columns.last_name "users.last_name"
    User.last_name (users s) (User.last_name row);;
  check_column User.columns.subscription_date "users.subscription_date"
    User.subscription_date (users s) (User.subscription_date row);;
  check_column User.columns.is_active "users.is_active"
    User.is_active (users s) (User.is_active row);;
  Ok (row, mk_Store (users s ++ [row]) (planets s) (people s) (vehicles s)
             (favorite_planets s) (favorite_people s) (favorite_vehicles s)).

Definition add_planet (be : Backend) (p : Planet.t) : Tx Planet.t := λ s,
  check_integer (Planet.id p);;
  key ← generated_key be Planet.columns.id (Planet.id <$> planets s)
          (Planet.id p);
  let row := {|
    Planet.id := key;
    Planet.name := Planet.name p;
    Planet.diameter := Planet.diameter p;
    Planet.rotation_period := Planet.rotation_period p;
    Planet.orbital_period := Planet.orbital_period p;
    Planet.gravity := Planet.gravity p;
    Planet.population := Planet.population p;
    Planet.climate := Planet.climate p;
    Planet.terrain := Planet.terrain p;
    Planet.surface_water := Planet.surface_water p;
  |} in
  check_not_null Planet.columns.id "planets.id" (Planet.id row);;
  check_primary_key "planets" (Planet.id row) (Planet.id <$> planets s);;
  check_column Planet.columns.name "planets.name"
    Planet.name (planets s) (Planet.name row);;
  check_column Planet.columns.diameter "planets.diameter"
    Planet.diameter (planets s) (Planet.diameter row);;
  check_column Planet.columns.rotation_period "planets.rotation_period"
    Planet.rotation_period (planets s) (Planet.rotation_period row);;
  check_column Planet.columns.orbital_period "planets.orbital_period"
    Planet.orbital_period (planets s) (Planet.orbital_period row);;
  check_column Planet.columns.gravity "planets.gravity"
    Planet.gravity (planets s) (Planet.gravity row);;
  check_column Planet.columns.population "planets.population"
    Planet.population (planets s) (Planet.population row);;
  check_column Planet.columns.climate "planets.climate"
    Planet.climate (planets s) (Planet.climate row);;
  check_column Planet.columns.terrain "planets.terrain"
    Planet.terrain (planets s) (Planet.terrain row);;
  check_column Planet.columns.surface_water "planets.surface_water"
    Planet.surface_water (planets s) (Planet.surface_water row);;
  Ok (row, mk_Store (users s) (planets s ++ [row]) (people s) (vehicles s)
             (favorite_planets s) (favorite_people s) (favorite_vehicles s)).

Definition add_person (be : Backend) (p : Person.t) : Tx Person.t := λ s,
  check_integer (Person.id p);;
  check_integer (Person.homeworld_id p);;
  key ← generated_key be Person.columns.id (Person.id <$> people s)
          (Person.id p);
  let row := {|
    Person.id := key;
    Person.name := Person.name p;
    Person.height := Person.height p;
    Person.mass := Person.mass p;
    Person.hair_color := Person.hair_color p;
    Person.skin_color := Person.skin_color p;
    Person.eye_color := Person.eye_color p;
    Person.birth_year := Person.birth_year p;
    Person.gender := Person.gender p;
    Person.homeworld_id := Person.homeworld_id p;
  |} in
  check_not_null Person.columns.id "people.id" (Person.id row);;
  check_primary_key "people" (Person.id row) (Person.id <$> people s);;
  check_column Person.columns.name "people.name"
    Person.name (people s) (Person.name row);;
  check_column Person.columns.height "people.height"
    Person.height (people s) (Person.height row);;
  check_column Person.columns.mass "people.mass"
    Person.mass (people s) (Person.mass row);;
  check_column Person.columns.hair_color "people.hair_color"
    Person.hair_color (people s) (Person.hair_color row);;
  check_column Person.columns.skin_color "people.skin_color"
    Person.skin_color (people s) (Person.skin_color row);;
  check_column Person.columns.eye_color "people.eye_color"
    Person.eye_color (people s) (Person.eye_color row);;
  check_column Person.columns.birth_year "people.birth_year"
    Person.birth_year (people s) (Person.birth_year row);;
  check_column Person.columns.gender "people.gender"
    Person.gender (people s) (Person.gender row);;
  check_column Person.columns.homeworld_id "people.homeworld_id"
    Person.homeworld_id (people s) (Person.homeworld_id row);;
  check_foreign_key be Person.columns.homeworld_id "people.homeworld_id"
    (Person.homeworld_id row) s;;
  Ok (row, mk_Store (users s) (planets s) (people s ++ [row]) (vehicles s)
             (favorite_planets s) (favorite_people s) (favorite_vehicles s)).

Definition add_vehicle (be : Backend) (v : Vehicle.t) : Tx Vehicle.t := λ s,
  check_integer (Vehicle.id v);;
  key ← generated_key be Vehicle.columns.id (Vehicle.id <$> vehicles s)
          (Vehicle.id v);
  let row := {|
    Vehicle.id := key;
    Vehicle.name := Vehicle.name v;
    Vehicle.model := Vehicle.model v;
    Vehicle.manufacturer := Vehicle.manufacturer v;
    Vehicle.cost_in_credits := Vehicle.cost_in_credits v;
    Vehicle.length := Vehicle.length v;
    Vehicle.max_atmosphering_speed := Vehicle.max_atmosphering_speed v;
    Vehicle.crew := Vehicle.crew v;
    Vehicle.passengers := Vehicle.passengers v;
    Vehicle.cargo_capacity := Vehicle.cargo_capacity v;
    Vehicle.consumables := Vehicle.consumables v;
    Vehicle.vehicle_class := Vehicle.vehicle_class v;
  |} in
  check_not_null Vehicle.columns.id "vehicles.id" (Vehicle.id row);;
  check_primary_key "vehicles" (Vehicle.id row) (Vehicle.id <$> vehicles s);;
  check_column Vehicle.columns.name "vehicles.name"
    Vehicle.name (vehicles s) (Vehicle.name row);;
  check_column Vehicle.columns.model "vehicles.model"
    Vehicle.model (vehicles s) (Vehicle.model row);;
  check_column Vehicle.columns.manufacturer "vehicles.manufacturer"
    Vehicle.manufacturer (vehicles s) (Vehicle.manufacturer row);;
  check_column Vehicle.columns.cost_in_credits "vehicles.cost_in_credits"
    Vehicle.cost_in_credits (vehicles s) (Vehicle.cost_in_credits row);;
  check_column Vehicle.columns.length "vehicles.length"
    Vehicle.length (vehicles s) (Vehicle.length row);;
  check_column Vehicle.columns.max_atmosphering_speed
    "vehicles.max_atmosphering_speed"
    Vehicle.max_atmosphering_speed (vehicles s)
    (Vehicle.max_atmosphering_speed row);;
  check_column Vehicle.columns.crew "vehicles.crew"
    Vehicle.crew (vehicles s) (Vehicle.crew row);;
  check_column Vehicle.columns.passengers "vehicles.passengers"
    Vehicle.passengers (vehicles s) (Vehicle.passengers row);;
  check_column Vehicle.columns.cargo_capacity "vehicles.cargo_capacity"
    Vehicle.cargo_capacity (vehicles s) (Vehicle.cargo_capacity row);;
  check_column Vehicle.columns.consumables "vehicles.consumables"
    Vehicle.consumables (vehicles s) (Vehicle.consumables row);;
  check_column Vehicle.columns.vehicle_class "vehicles.vehicle_class"
    Vehicle.vehicle_class (vehicles s) (Vehicle.vehicle_class row);;
  Ok (row, mk_Store (users s) (planets s) (people s) (vehicles s ++ [row])
             (favorite_planets s) (favorite_people s) (favorite_vehicles s)).

(** The association classes: both columns form the primary key and
    neither is generated (each has a foreign key). *)
Definition add_favorite_planet (be : Backend) (f : FavoritePlanet.t) :
    Tx FavoritePlanet.t := λ s,
  check_integer (FavoritePlanet.user_id f);;
  check_integer (FavoritePlanet.planet_id f);;
  user_id ←
    generated_key be FavoritePlanet.columns.user_id
      (FavoritePlanet.user_id <$> favorite_planets s)
      (FavoritePlanet.user_id f);
  planet_id ←
    generated_key be FavoritePlanet.columns.planet_id
      (FavoritePlanet.planet_id <$> favorite_planets s)
      (FavoritePlanet.planet_id f);
  let row := {|
    FavoritePlanet.user_id := user_id;
    FavoritePlanet.planet_id := planet_id;
  |} in
  check_column FavoritePlanet.columns.user_id "favorite_planets.user_id"
    FavoritePlanet.user_id (favorite_planets s) (FavoritePlanet.user_id row);;
  check_column FavoritePlanet.columns.planet_id "favorite_planets.planet_id"
    FavoritePlanet.planet_id (favorite_planets s)
    (FavoritePlanet.planet_id row);;
  check_primary_key "favorite_planets" row (favorite_planets s);;
  check_foreign_key be FavoritePlanet.columns.user_id
    "favorite_planets.user_id" (FavoritePlanet.user_id row) s;;
  check_foreign_key be FavoritePlanet.columns.planet_id
    "favorite_planets.planet_id" (FavoritePlanet.planet_id row) s;;
  Ok (row, mk_Store (users s) (planets s) (people s) (vehicles s)
             (favorite_planets s ++ [row]) (favorite_people s)
             (favorite_vehicles s)).

Definition add_favorite_person (be : Backend) (f : FavoritePerson.t) :
    Tx FavoritePerson.t := λ s,
  check_integer (FavoritePerson.user_id f);;
  check_integer (FavoritePerson.person_id f);;
  user_id ←
    generated_key be FavoritePerson.columns.user_id
      (FavoritePerson.user_id <$> favorite_people s) (FavoritePerson.user_id f);
  person_id ←
    generated_key be FavoritePerson.columns.person_id
      (FavoritePerson.person_id <$> favorite_people s)
      (FavoritePerson.person_id f);
  let row := {|
    FavoritePerson.user_id := user_id;
    FavoritePerson.person_id := person_id;
  |} in
  check_column FavoritePerson.columns.user_id "favorite_people.user_id"
    FavoritePerson.user_id (favorite_people s) (FavoritePerson.user_id row);;
  check_column FavoritePerson.columns.person_id "favorite_people.person_id"
    FavoritePerson.person_id (favorite_people s)
    (FavoritePerson.person_id row);;
  check_primary_key "favorite_people" row (favorite_people s);;
  check_foreign_key be FavoritePerson.columns.user_id
    "favorite_people.user_id" (FavoritePerson.user_id row) s;;
  check_foreign_key be FavoritePerson.columns.person_id
    "favorite_people.person_id" (FavoritePerson.person_id row) s;;
  Ok (row, mk_Store (users s) (planets s) (people s) (vehicles s)
             (favorite_planets s) (favorite_people s ++ [row])
             (favorite_vehicles s)).

Definition add_favorite_vehicle (be : Backend) (f : FavoriteVehicle.t) :
    Tx FavoriteVehicle.t := λ s,
  check_integer (FavoriteVehicle.user_id f);;
  check_integer (FavoriteVehicle.vehicle_id f);;
  user_id ←
    generated_key be FavoriteVehicle.columns.user_id
      (FavoriteVehicle.user_id <$> favorite_vehicles s)
      (FavoriteVehicle.user_id f);
  vehicle_id ←
    generated_key be FavoriteVehicle.columns.vehicle_id
      (FavoriteVehicle.vehicle_id <$> favorite_vehicles s)
      (FavoriteVehicle.vehicle_id f);
  let row := {|
    FavoriteVehicle.user_id := user_id;
    FavoriteVehicle.vehicle_id := vehicle_id;
  |} in
  check_column FavoriteVehicle.columns.user_id "favorite_vehicles.user_id"
    FavoriteVehicle.user_id (favorite_vehicles s)
    (FavoriteVehicle.user_id row);;
  check_column FavoriteVehicle.columns.vehicle_id
    "favorite_vehicles.vehicle_id"
    FavoriteVehicle.vehicle_id (favorite_vehicles s)
    (FavoriteVehicle.vehicle_id row);;
  check_primary_key "favorite_vehicles" row (favorite_vehicles s);;
  check_foreign_key be FavoriteVehicle.columns.user_id
    "favorite_vehicles.user_id" (FavoriteVehicle.user_id row) s;;
  check_foreign_key be FavoriteVehicle.columns.vehicle_id
    "favorite_vehicles.vehicle_id" (FavoriteVehicle.vehicle_id row) s;;
  Ok (row, mk_Store (users s) (planets s) (people s) (vehicles s)
             (favorite_planets s) (favorite_people s)
             (favorite_vehicles s ++ [row])).

(** ** [session.delete(obj)] *)

(** What the unit of work does with the children of a one-to-many
    relationship [rel] when the parent with key [key] is deleted.  With
    the delete cascade the children are deleted.  Without it they are
    kept and their foreign key is set to NULL, which fails on a column
    of the primary key or a column that is not nullable. *)
Definition on_parent_delete {C : Type} (rel : sqlalchemy.Relationship)
    (fk_column : sqlalchemy.Column) (name : string) (fk : C → option Z)
    (set_null : C → C) (key : option Z) (rows : list C) : result (list C) :=
  if sqlalchemy.cascade_delete rel
  then Ok (filter (λ c, ¬ joins (fk c) key) rows)
  else
    match one_to_many fk key rows with
    | [] => Ok rows
    | _ :: _ =>
        if sqlalchemy.is_primary_key fk_column then Err AssertionError
        else if sqlalchemy.is_nullable fk_column
        then Ok ((λ c, if decide (joins (fk c) key) then set_null c else c)
                   <$> rows)
        else Err (IntegrityError (NotNull name))
    end.

Definition FavoritePlanet_set_user_id (v : option Z) (f : FavoritePlanet.t) :
    FavoritePlanet.t :=
  {| FavoritePlanet.user_id := v;
     FavoritePlanet.planet_id := FavoritePlanet.planet_id f |}.

Definition FavoritePlanet_set_planet_id (v : option Z) (f : FavoritePlanet.t) :
    FavoritePlanet.t :=
  {| FavoritePlanet.user_id := FavoritePlanet.user_id f;
     FavoritePlanet.planet_id := v |}.

Definition FavoritePerson_set_user_id (v : option Z) (f : FavoritePerson.t) :
    FavoritePerson.t :=
  {| FavoritePerson.user_id := v;
     FavoritePerson.person_id := FavoritePerson.person_id f |}.

Definition FavoritePerson_set_person_id (v : option Z) (f : FavoritePerson.t) :
    FavoritePerson.t :=
  {| FavoritePerson.user_id := FavoritePerson.user_id f;
     FavoritePerson.person_id := v |}.

Definition FavoriteVehicle_set_user_id (v : option Z)
    (f : FavoriteVehicle.t) : FavoriteVehicle.t :=
  {| FavoriteVehicle.user_id := v;
     FavoriteVehicle.vehicle_id := FavoriteVehicle.vehicle_id f |}.

Definition FavoriteVehicle_set_vehicle_id (v : option Z)
    (f : FavoriteVehicle.t) : FavoriteVehicle.t :=
  {| FavoriteVehicle.user_id := FavoriteVehicle.user_id f;
     FavoriteVehicle.vehicle_id := v |}.

Definition Person_set_homeworld_id (v : option Z) (p : Person.t) : Person.t :=
  {| Person.id := Person.id p;
     Person.name := Person.name p;
     Person.height := Person.height p;
     Person.mass := Person.mass p;
     Person.hair_color := Person.hair_color p;
     Person.skin_color := Person.skin_color p;
     Person.eye_color := Person.eye_color p;
     Person.birth_year := Person.birth_year p;
     Person.gender := Person.gender p;
     Person.homeworld_id := v |}.

(** The object to delete is the persisted row with the given key. *)
Definition delete_user (be : Backend) (uid : Z) : Tx () := λ s,
  if bool_decide (Some uid ∈ User.id <$> users s) then
    favorite_planets' ←
      on_parent_delete User.relationships.favorite_planets
        FavoritePlanet.columns.user_id "favorite_planets.user_id"
        FavoritePlanet.user_id (FavoritePlanet_set_user_id None)
        (Some uid) (favorite_planets s);
    favorite_people' ←
      on_parent_delete User.relationships.favorite_people
        FavoritePerson.columns.user_id "favorite_people.user_id"
        FavoritePerson.user_id (FavoritePerson_set_user_id None)
        (Some uid) (favorite_people s);
    favorite_vehicles' ←
      on_parent_delete User.relationships.favorite_vehicles
        FavoriteVehicle.columns.user_id "favorite_vehicles.user_id"
        FavoriteVehicle.user_id (FavoriteVehicle_set_user_id None)
        (Some uid) (favorite_vehicles s);
    check_unreferenced be "favorite_planets.user_id"
      (FavoritePlanet.user_id <$> favorite_planets') (Some uid);;
    check_unreferenced be "favorite_people.user_id"
      (FavoritePerson.user_id <$> favorite_people') (Some uid);;
    check_unreferenced be "favorite_vehicles.user_id"
      (FavoriteVehicle.user_id <$> favorite_vehicles') (Some uid);;
    Ok ((), mk_Store (filter (λ u, User.id u ≠ Some uid) (users s))
              (planets s) (people s) (vehicles s)
              favorite_planets' favorite_people' favorite_vehicles')
  else Err UnmappedInstanceError.

Definition delete_planet (be : Backend) (pid : Z) : Tx () := λ s,
  if bool_decide (Some pid ∈ Planet.id <$> planets s) then
    favorite_planets' ←
      on_parent_delete Planet.relationships.favorited_by
        FavoritePlanet.columns.planet_id "favorite_planets.planet_id"
        FavoritePlanet.planet_id (FavoritePlanet_set_planet_id None)
        (Some pid) (favorite_planets s);
    people' ←
      on_parent_delete Planet.relationships.residents
        Person.columns.homeworld_id "people.homeworld_id"
        Person.homeworld_id (Person_set_homeworld_id None)
        (Some pid) (people s);
    check_unreferenced be "favorite_planets.planet_id"
      (FavoritePlanet.planet_id <$> favorite_planets') (Some pid);;
    check_unreferenced be "people.homeworld_id"
      (Person.homeworld_id <$> people') (Some pid);;
    Ok ((), mk_Store (users s)
              (filter (λ p, Planet.id p ≠ Some pid) (planets s))
              people' (vehicles s)
              favorite_planets' (favorite_people s) (favorite_vehicles s))
  else Err UnmappedInstanceError.

Definition delete_person (be : Backend) (pid : Z) : Tx () := λ s,
  if bool_decide (Some pid ∈ Person.id <$> people s) then
    favorite_people' ←
      on_parent_delete Person.relationships.favorited_by
        FavoritePerson.columns.person_id "favorite_people.person_id"
        FavoritePerson.person_id (FavoritePerson_set_person_id None)
        (Some pid) (favorite_people s);
    check_unreferenced be "favorite_people.person_id"
      (FavoritePerson.person_id <$> favorite_people') (Some pid);;
    Ok ((), mk_Store (users s) (planets s)
              (filter (λ p, Person.id p ≠ Some pid) (people s)) (vehicles s)
              (favorite_planets s) favorite_people' (favorite_vehicles s))
  else Err UnmappedInstanceError.

Definition delete_vehicle (be : Backend) (vid : Z) : Tx () := λ s,
  if bool_decide (Some vid ∈ Vehicle.id <$> vehicles s) then
    favorite_vehicles' ←
      on_parent_delete Vehicle.relationships.favorited_by
        FavoriteVehicle.columns.vehicle_id "favorite_vehicles.vehicle_id"
        FavoriteVehicle.vehicle_id (FavoriteVehicle_set_vehicle_id None)
        (Some vid) (favorite_vehicles s);
    check_unreferenced be "favorite_vehicles.vehicle_id"
      (FavoriteVehicle.vehicle_id <$> favorite_vehicles') (Some vid);;
    Ok ((), mk_Store (users s) (planets s) (people s)
              (filter (λ v, Vehicle.id v ≠ Some vid) (vehicles s))
              (favorite_planets s) (favorite_people s) favorite_vehicles')
  else Err UnmappedInstanceError.

(** An association has no one-to-many relationship: only its row goes. *)
Definition delete_favorite_planet (be : Backend) (f : FavoritePlanet.t) :
    Tx () := λ s,
  if bool_decide (f ∈ favorite_planets s)
  then Ok ((), mk_Store (users s) (planets s) (people s) (vehicles s)
                 (filter (λ r, r ≠ f) (favorite_planets s))
                 (favorite_people s) (favorite_vehicles s))
  else Err UnmappedInstanceError.

Definition delete_favorite_person (be : Backend) (f : FavoritePerson.t) :
    Tx () := λ s,
  if bool_decide (f ∈ favorite_people s)
  then Ok ((), mk_Store (users s) (planets s) (people s) (vehicles s)
                 (favorite_planets s)
                 (filter (λ r, r ≠ f) (favorite_people s))
                 (favorite_vehicles s))
  else Err UnmappedInstanceError.

Definition delete_favorite_vehicle (be : Backend) (f : FavoriteVehicle.t) :
    Tx () := λ s,
  if bool_decide (f ∈ favorite_vehicles s)
  then Ok ((), mk_Store (users s) (planets s) (people s) (vehicles s)
                 (favorite_planets s) (favorite_people s)
                 (filter (λ r, r ≠ f) (favorite_vehicles s)))
  else Err UnmappedInstanceError.

(** ** Attribute updates

    The persisted object with the given key takes the attribute values
    of [new], its primary key apart, and the UPDATE is checked against
    the other rows.  No default applies to an UPDATE: [None] is written
    as NULL.  The key is the key of a row of the store; the other
    integers of the statement are bound as in an INSERT. *)

Definition update_user (be : Backend) (uid : Z) (new : User.t) : Tx () := λ s,
  if bool_decide (Some uid ∈ User.id <$> users s) then
    let others := filter (λ u, User.id u ≠ Some uid) (users s) in
    let row := {|
      User.id := Some uid;
      User.email := User.email new;
      User.password := User.password new;
      User.first_name := User.first_name new;
      User.last_name := User.last_name new;
      User.subscription_date := naive <$> User.subscription_date new;
      User.is_active := User.is_active new;
    |} in
    check_column User.columns.email "users.email"
      User.email others (User.email row);;
    check_column User.columns.password "users.password"
      User.password others (User.password row);;
    check_column User.columns.first_name "users.first_name"
      User.first_name others (User.first_name row);;
    check_column User.columns.last_name "users.last_name"
      User.last_name others (User.last_name row);;
    check_column User.columns.subscription_date "users.subscription_date"
      User.subscription_date others (User.subscription_date row);;
    check_column User.columns.is_active "users.is_active"
      User.is_active others (User.is_active row);;
    Ok ((), mk_Store
              ((λ u, if decide (User.id u = Some uid) then row else u)
                 <$> users s)
              (planets s) (people s) (vehicles s)
              (favorite_planets s) (favorite_people s) (favorite_vehicles s))
  else Err UnmappedInstanceError.

Definition update_planet (be : Backend) (pid : Z) (new : Planet.t) :
    Tx () := λ s,
  if bool_decide (Some pid ∈ Planet.id <$> planets s) then
    let others := filter (λ p, Planet.id p ≠ Some pid) (planets s) in
    let row := {|
      Planet.id := Some pid;
      Planet.name := Planet.name new;
      Planet.diameter := Planet.diameter new;
      Planet.rotation_period := Planet.rotation_period new;
      Planet.orbital_period := Planet.orbital_period new;
      Planet.gravity := Planet.gravity new;
      Planet.population := Planet.population new;
      Planet.climate := Planet.climate new;
      Planet.terrain := Planet.terrain new;
      Planet.surface_water := Planet.surface_water new;
    |} in
    check_column Planet.columns.name "planets.name"
      Planet.name others (Planet.name row);;
    check_column Planet.columns.diameter "planets.diameter"
      Planet.diameter others (Planet.diameter row);;
    check_column Planet.columns.rotation_period "planets.rotation_period"
      Planet.rotation_period others (Planet.rotation_period row);;
    check_column Planet.columns.orbital_period "planets.orbital_period"
      Planet.orbital_period others (Planet.orbital_period row);;
    check_column Planet.columns.gravity "planets.gravity"
      Planet.gravity others (Planet.gravity row);;
    check_column Planet.columns.population "planets.population"
      Planet.population others (Planet.population row);;
    check_column Planet.columns.climate "planets.climate"
      Planet.climate others (Planet.climate row);;
    check_column Planet.columns.terrain "planets.terrain"
      Planet.terrain others (Planet.terrain row);;
    check_column Planet.columns.surface_water "planets.surface_water"
      Planet.surface_water others (Planet.surface_water row);;
    Ok ((), mk_Store (users s)
              ((λ p, if decide (Planet.id p = Some pid) then row else p)
                 <$> planets s)
              (people s) (vehicles s)
              (favorite_planets s) (favorite_people s) (favorite_vehicles s))
  else Err UnmappedInstanceError.

Definition update_person (be : Backend) (pid : Z) (new : Person.t) :
    Tx () := λ s,
  if bool_decide (Some pid ∈ Person.id <$> people s) then
    let others := filter (λ p, Person.id p ≠ Some pid) (people s) in
    let row := {|
      Person.id := Some pid;
      Person.name := Person.name new;
      Person.height := Person.height new;
      Person.mass := Person.mass new;
      Person.hair_color := Person.hair_color new;
      Person.skin_color := Person.skin_color new;
      Person.eye_color := Person.eye_color new;
      Person.birth_year := Person.birth_year new;
      Person.gender := Person.gender new;
      Person.homeworld_id := Person.homeworld_id new;
    |} in
    check_integer (Person.homeworld_id new);;
    check_column Person.columns.name "people.name"
      Person.name others (Person.name row);;
    check_column Person.columns.height "people.height"
      Person.height others (Person.height row);;
    check_column Person.columns.mass "people.mass"
      Person.mass others (Person.mass row);;
    check_column Person.columns.hair_color "people.hair_color"
      Person.hair_color others (Person.hair_color row);;
    check_column Person.columns.skin_color "people.skin_color"
      Person.skin_color others (Person.skin_color row);;
    check_column Person.columns.eye_color "people.eye_color"
      Person.eye_color others (Person.eye_color row);;
    check_column Person.columns.birth_year "people.birth_year"
      Person.birth_year others (Person.birth_year row);;
    check_column Person.columns.gender "people.gender"
      Person.gender others (Person.gender row);;
    check_column Person.columns.homeworld_id "people.homeworld_id"
      Person.homeworld_id others (Person.homeworld_id row);;
    check_foreign_key be Person.columns.homeworld_id "people.homeworld_id"
      (Person.homeworld_id row) s;;
    Ok ((), mk_Store (users s) (planets s)
              ((λ p, if decide (Person.id p = Some pid) then row else p)
                 <$> people s)
              (vehicles s)
              (favorite_planets s) (favorite_people s) (favorite_vehicles s))
  else Err UnmappedInstanceError.

Definition update_vehicle (be : Backend) (vid : Z) (new : Vehicle.t) :
    Tx () := λ s,
  if bool_decide (Some vid ∈ Vehicle.id <$> vehicles s) then
    let others := filter (λ v, Vehicle.id v ≠ Some vid) (vehicles s) in
    let row := {|
      Vehicle.id := Some vid;
      Vehicle.name := Vehicle.name new;
      Vehicle.model := Vehicle.model new;
      Vehicle.manufacturer := Vehicle.manufacturer new;
      Vehicle.cost_in_credits := Vehicle.cost_in_credits new;
      Vehicle.length := Vehicle.length new;
      Vehicle.max_atmosphering_speed := Vehicle.max_atmosphering_speed new;
      Vehicle.crew := Vehicle.crew new;
      Vehicle.passengers := Vehicle.passengers new;
      Vehicle.cargo_capacity := Vehicle.cargo_capacity new;
      Vehicle.consumables := Vehicle.consumables new;
      Vehicle.vehicle_class := Vehicle.vehicle_class new;
    |} in
    check_column Vehicle.columns.name "vehicles.name"
      Vehicle.name others (Vehicle.name row);;
    check_column Vehicle.columns.model "vehicles.model"
      Vehicle.model others (Vehicle.model row);;
    check_column Vehicle.columns.manufacturer "vehicles.manufacturer"
      Vehicle.manufacturer others (Vehicle.manufacturer row);;
    check_column Vehicle.columns.cost_in_credits "vehicles.cost_in_credits"
      Vehicle.cost_in_credits others (Vehicle.cost_in_credits row);;
    check_column Vehicle.columns.length "vehicles.length"
      Vehicle.length others (Vehicle.length row);;
    check_column Vehicle.columns.max_atmosphering_speed
      "vehicles.max_atmosphering_speed"
      Vehicle.max_atmosphering_speed others
      (Vehicle.max_atmosphering_speed row);;
    check_column Vehicle.columns.crew "vehicles.crew"
      Vehicle.crew others (Vehicle.crew row);;
    check_column Vehicle.columns.passengers "vehicles.passengers"
      Vehicle.passengers others (Vehicle.passengers row);;
    check_column Vehicle.columns.cargo_capacity "vehicles.cargo_capacity"
      Vehicle.cargo_capacity others (Vehicle.cargo_capacity row);;
    check_column Vehicle.columns.consumables "vehicles.consumables"
      Vehicle.consumables others (Vehicle.consumables row);;
    check_column Vehicle.columns.vehicle_class "vehicles.vehicle_class"
      Vehicle.vehicle_class others (Vehicle.vehicle_class row);;
    Ok ((), mk_Store (users s) (planets s) (people s)
              ((λ v, if decide (Vehicle.id v = Some vid) then row else v)
                 <$> vehicles s)
              (favorite_planets s) (favorite_people s) (favorite_vehicles s))
  else Err UnmappedInstanceError.

(** ** Reachable stores *)

(** One committed unit of work on the store. *)
Inductive operation : Type :=
  | AddUser (now : datetime) (u : User.t)
  | AddPlanet (p : Planet.t)
  | AddPerson (p : Person.t)
  | AddVehicle (v : Vehicle.t)
  | AddFavoritePlanet (f : FavoritePlanet.t)
  | AddFavoritePerson (f : FavoritePerson.t)
  | AddFavoriteVehicle (f : FavoriteVehicle.t)
  | UpdateUser (uid : Z) (new : User.t)
  | UpdatePlanet (pid : Z) (new : Planet.t)
  | UpdatePerson (pid : Z) (new : Person.t)
  | UpdateVehicle (vid : Z) (new : Vehicle.t)
  | DeleteUser (uid : Z)
  | DeletePlanet (pid : Z)
  | DeletePerson (pid : Z)
  | DeleteVehicle (vid : Z)
  | DeleteFavoritePlanet (f : FavoritePlanet.t)
  | DeleteFavoritePerson (f : FavoritePerson.t)
  | DeleteFavoriteVehicle (f : FavoriteVehicle.t).

(** Forget the object a transaction returns. *)
Definition void {A : Type} (tx : Tx A) : Tx () := λ s,
  '(_, s') ← tx s; Ok ((), s').

Definition run (be : Backend) (o : operation) : Tx () :=
  match o with
  | AddUser now u => void (add_user be now u)
  | AddPlanet p => void (add_planet be p)
  | AddPerson p => void (add_person be p)
  | AddVehicle v => void (add_vehicle be v)
  | AddFavoritePlanet f => void (add_favorite_planet be f)
  | AddFavoritePerson f => void (add_favorite_person be f)
  | AddFavoriteVehicle f => void (add_favorite_vehicle be f)
  | UpdateUser uid new => update_user be uid new
  | UpdatePlanet pid new => update_planet be pid new
  | UpdatePerson pid new => update_person be pid new
  | UpdateVehicle vid new => update_vehicle be vid new
  | DeleteUser uid => delete_user be uid
  | DeletePlanet pid => delete_planet be pid
  | DeletePerson pid => delete_person be pid
  | DeleteVehicle vid => delete_vehicle be vid
  | DeleteFavoritePlanet f => delete_favorite_planet be f
  | DeleteFavoritePerson f => delete_favorite_person be f
  | DeleteFavoriteVehicle f => delete_favorite_vehicle be f
  end.

(** The store after the operations [ops], committed one after the other,
    a failed one leaving the store as it was. *)
Definition execute (be : Backend) (ops : list operation) (s : Store) : Store :=
  foldl (λ s o, (commit (run be o) s).2) s ops.

(** The stores the operations lead to from the empty store. *)
Inductive reachable (be : Backend) : Store → Prop :=
  | reachable_empty : reachable be empty_store
  | reachable_commit s o :
      reachable be s → reachable be (commit (run be o) s).2.

(** What the constraints of the association tables keep true: no NULL in
    a key column and no row twice. *)
Definition favorites_ok (s : Store) : Prop :=
  (Forall (λ f, is_Some (FavoritePlanet.user_id f)
                ∧ is_Some (FavoritePlanet.planet_id f)) (favorite_planets s)
   ∧ NoDup (favorite_planets s))
  ∧ (Forall (λ f, is_Some (FavoritePerson.user_id f)
                  ∧ is_Some (FavoritePerson.person_id f)) (favorite_people s)
     ∧ NoDup (favorite_people s))
  ∧ (Forall (λ f, is_Some (FavoriteVehicle.user_id f)
                  ∧ is_Some (FavoriteVehicle.vehicle_id f))
       (favorite_vehicles s)
     ∧ NoDup (favorite_vehicles s)).

(** The integers of the association tables are integers of 64 bits. *)
Definition favorites_bound (s : Store) : Prop :=
  Forall (λ f, binds (FavoritePlanet.user_id f)
               ∧ binds (FavoritePlanet.planet_id f)) (favorite_planets s)
  ∧ Forall (λ f, binds (FavoritePerson.user_id f)
                 ∧ binds (FavoritePerson.person_id f)) (favorite_people s)
  ∧ Forall (λ f, binds (FavoriteVehicle.user_id f)
                 ∧ binds (FavoriteVehicle.vehicle_id f))
      (favorite_vehicles s).

(** ** A small catalog, for the examples *)

(** SQLite as it is opened, and SQLite after [PRAGMA foreign_keys=ON].
    The catalog never comes near the largest key, so that no key is
    drawn. *)
Definition sqlite : Backend :=
  {| enforces_foreign_keys := false; random_rowid := λ _, 1 |}.
Definition sqlite_foreign_keys : Backend :=
  {| enforces_foreign_keys := true; random_rowid := λ _, 1 |}.

(** The clock of the store when the users of the catalog sign up. *)
Definition may_the_4th : datetime :=
  mk_datetime 2024 5 4 12 0 0 0 None.

(** [User(email="leia@rebellion.org", password="<hash>")]. *)
Definition leia : User.t :=
  User.mk None (Some "leia@rebellion.org") (Some "<hash>") None None None None.

Definition han : User.t :=
  User.mk None (Some "han@falcon.net") (Some "<hash>") (Some "Han")
    (Some "Solo") None None.

Definition tatooine : Planet.t :=
  Planet.mk None (Some "Tatooine") (Some "10465") None None None None
    (Some "arid") (Some "desert") None.

Definition alderaan : Planet.t :=
  Planet.mk None (Some "Alderaan") None None None None None None None None.

Definition luke : Person.t :=
  Person.mk None (Some "Luke Skywalker") (Some "172") None None None None
    (Some "19BBY") None (Some 1).

Definition anakin : Person.t :=
  Person.mk None (Some "Anakin Skywalker") None None None None None None
    None (Some 1).

Definition bail : Person.t :=
  Person.mk None (Some "Bail Organa") None None None None None None None
    (Some 2).

Definition snowspeeder : Vehicle.t :=
  Vehicle.mk None (Some "Snowspeeder") (Some "t-47 airspeeder")
    (Some "Incom corporation") None None None None None None None None.

(** Users 1 and 2, planets 1 and 2, people 1 to 3 (two of them residents
    of planet 1), vehicle 1, and favorites of both users. *)
Definition catalog_operations : list operation := [
  AddUser may_the_4th leia;
  AddUser may_the_4th han;
  AddPlanet tatooine;
  AddPlanet alderaan;
  AddPerson luke;
  AddPerson anakin;
  AddPerson bail;
  AddVehicle snowspeeder;
  AddFavoritePlanet (FavoritePlanet.mk (Some 1) (Some 2));
  AddFavoritePlanet (FavoritePlanet.mk (Some 1) (Some 1));
  AddFavoritePlanet (FavoritePlanet.mk (Some 2) (Some 1));
  AddFavoritePerson (FavoritePerson.mk (Some 1) (Some 1));
  AddFavoritePerson (FavoritePerson.mk (Some 2) (Some 3));
  AddFavoriteVehicle (FavoriteVehicle.mk (Some 1) (Some 1))
].

Definition catalog : Store :=
  execute sqlite_foreign_keys catalog_operations empty_store.

(** Rows of [catalog]: user 1 and planet 1 as the store holds them. *)
Definition leia_row : User.t :=
  User.mk (Some 1) (Some "leia@rebellion.org") (Some "<hash>") None None
    (Some may_the_4th) (Some true).

Definition tatooine_row : Planet.t :=
  Planet.mk (Some 1) (Some "Tatooine") (Some "10465") None None None None
    (Some "arid") (Some "desert") None.




(** ** [__repr__] *)

(** [str(x)], as an f-string formats an attribute that holds a string or
    [None], or an integer or [None]. *)
Definition str_of_str (o : option string) : string := default "None" o.
Definition str_of_int (o : option Z) : string := from_option pretty "None" o.

Definition User_repr (self : User.t) : string :=
  "<User " +:+ str_of_str (User.email self) +:+ ">".

Definition Planet_repr (self : Planet.t) : string :=
  "<Planet " +:+ str_of_str (Planet.name self) +:+ ">".

Definition Person_repr (self : Person.t) : string :=
  "<Person " +:+ str_of_str (Person.name self) +:+ ">".

Definition Vehicle_repr (self : Vehicle.t) : string :=
  "<Vehicle " +:+ str_of_str (Vehicle.name self) +:+ ">".

Definition FavoritePlanet_repr (self : FavoritePlanet.t) : string :=
  "<FavoritePlanet User " +:+ str_of_int (FavoritePlanet.user_id self)
  +:+ " -> Planet " +:+ str_of_int (FavoritePlanet.planet_id self) +:+ ">".

Definition FavoritePerson_repr (self : FavoritePerson.t) : string :=
  "<FavoritePerson User " +:+ str_of_int (FavoritePerson.user_id self)
  +:+ " -> Person " +:+ str_of_int (FavoritePerson.person_id self) +:+ ">".

Definition FavoriteVehicle_repr (self : FavoriteVehicle.t) : string :=
  "<FavoriteVehicle User " +:+ str_of_int (FavoriteVehicle.user_id self)
  +:+ " -> Vehicle " +:+ str_of_int (FavoriteVehicle.vehicle_id self) +:+ ">".

(** A character that is neither a space nor [N]: what the decimal
    notation of an integer is made of, and what tells it from [None]
    and from the text around it. *)
Definition plain (c : ascii) : Prop := c ≠ " "%char ∧ c ≠ "N"%char.

(** ** The many-to-one side of the relationships *)

(** The object a many-to-one relationship loads for the foreign key
    [fk]: the row of the parent table that joins, [None] where the
    foreign key is NULL or no row has it as its key. *)
Definition many_to_one {P : Type} (key : P → option Z) (fk : option Z)
    (rows : list P) : option P :=
  head (filter (λ p, joins fk (key p)) rows).

(** [Person.homeworld], the other side of [Planet.residents]. *)
Definition Person_homeworld (s : Store) (self : Person.t) : option Planet.t :=
  many_to_one Planet.id (Person.homeworld_id self) (planets s).

(** [user] and [planet], [person] or [vehicle] of an association object,
    the other sides of [User.favorite_...] and of [favorited_by]. *)
Definition FavoritePlanet_user (s : Store) (self : FavoritePlanet.t) :
    option User.t :=
  many_to_one User.id (FavoritePlanet.user_id self) (users s).

Definition FavoritePlanet_planet (s : Store) (self : FavoritePlanet.t) :
    option Planet.t :=
  many_to_one Planet.id (FavoritePlanet.planet_id self) (planets s).

Definition FavoritePerson_user (s : Store) (self : FavoritePerson.t) :
    option User.t :=
  many_to_one User.id (FavoritePerson.user_id self) (users s).

Definition FavoritePerson_person (s : Store) (self : FavoritePerson.t) :
    option Person.t :=
  many_to_one Person.id (FavoritePerson.person_id self) (people s).

Definition FavoriteVehicle_user (s : Store) (self : FavoriteVehicle.t) :
    option User.t :=
  many_to_one User.id (FavoriteVehicle.user_id self) (users s).

Definition FavoriteVehicle_vehicle (s : Store) (self : FavoriteVehicle.t) :
    option Vehicle.t :=
  many_to_one Vehicle.id (FavoriteVehicle.vehicle_id self) (vehicles s).

(** ** What the constraints keep true of the tables *)

(** A column that holds no NULL and no value twice. *)
Definition key_ok {R A : Type} (get : R → option A) (rows : list R) : Prop :=
  Forall (λ r, is_Some (get r)) rows ∧ NoDup (get <$> rows).

(** [users]: [id] is the primary key, [email] is unique and not
    nullable, [password] and [is_active] are not nullable. *)
Definition users_ok (s : Store) : Prop :=
  key_ok User.id (users s)
  ∧ key_ok User.email (users s)
  ∧ Forall (λ u, is_Some (User.password u) ∧ is_Some (User.is_active u))
      (users s).

Definition planets_ok (s : Store) : Prop :=
  key_ok Planet.id (planets s) ∧ key_ok Planet.name (planets s).

Definition people_ok (s : Store) : Prop :=
  key_ok Person.id (people s)
  ∧ Forall (λ p, is_Some (Person.name p)) (people s).

Definition vehicles_ok (s : Store) : Prop :=
  key_ok Vehicle.id (vehicles s)
  ∧ key_ok Vehicle.name (vehicles s)
  ∧ Forall (λ v, is_Some (Vehicle.model v) ∧ is_Some (Vehicle.manufacturer v))
      (vehicles s).

(** Referential integrity: every foreign key that is not NULL is a key
    of the table it refers to. *)
Definition references_ok (s : Store) : Prop :=
  (∀ f, f ∈ favorite_planets s →
        FavoritePlanet.user_id f ∈ User.id <$> users s
        ∧ FavoritePlanet.planet_id f ∈ Planet.id <$> planets s)
  ∧ (∀ f, f ∈ favorite_people s →
          FavoritePerson.user_id f ∈ User.id <$> users s
          ∧ FavoritePerson.person_id f ∈ Person.id <$> people s)
  ∧ (∀ f, f ∈ favorite_vehicles s →
          FavoriteVehicle.user_id f ∈ User.id <$> users s
          ∧ FavoriteVehicle.vehicle_id f ∈ Vehicle.id <$> vehicles s)
  ∧ (∀ p, p ∈ people s →
          Person.homeworld_id p = None
          ∨ Person.homeworld_id p ∈ Planet.id <$> planets s).

(** The table after an UPDATE that writes [row] over the row with key
    [k]. *)
Definition replace_row {R : Type} (key : R → option Z) (k : Z) (row : R)
    (rows : list R) : list R :=
  (λ r, if decide (key r = Some k) then row else r) <$> rows.

(** The four entity tables under their constraints. *)
Definition entities_ok (s : Store) : Prop :=
  users_ok s ∧ planets_ok s ∧ people_ok s ∧ vehicles_ok s.

(** More rows of [catalog], and objects for the examples. *)
Definition han_row : User.t :=
  User.mk (Some 2) (Some "han@falcon.net") (Some "<hash>") (Some "Han")
    (Some "Solo") (Some may_the_4th) (Some true).

Definition luke_row : Person.t :=
  Person.mk (Some 1) (Some "Luke Skywalker") (Some "172") None None None None
    (Some "19BBY") None (Some 1).

Definition snowspeeder_row : Vehicle.t :=
  Vehicle.mk (Some 1) (Some "Snowspeeder") (Some "t-47 airspeeder")
    (Some "Incom corporation") None None None None None None None None.

(** [Person(name="Luke Skywalker", homeworld_id=9)]: a second Luke,
    from a planet the catalog does not hold. *)
Definition luke_of_nowhere : Person.t :=
  Person.mk None (Some "Luke Skywalker") None None None None None None None
    (Some 9).

(** [Person(name="Luke Skywalker")]: a namesake without homeworld. *)
Definition luke_namesake : Person.t :=
  Person.mk None (Some "Luke Skywalker") None None None None None None None
    None.





(** [Person(id=k, name="Clone trooper", homeworld_id=1)]. *)
Definition clone (k : Z) : Person.t :=
  Person.mk (Some k) (Some "Clone trooper") None None None None None None
    None (Some 1).

(** The catalog after user 1 has taken planet 1 off her favorites. *)
Definition catalog_without_1_1 : Store :=
  execute sqlite_foreign_keys
    [DeleteFavoritePlanet (FavoritePlanet.mk (Some 1) (Some 1))] catalog.

(** A user who gives the date of his subscription, two hours east of
    UTC, and the row the store keeps of him. *)
Definition lando_of_bespin : User.t :=
  User.mk None (Some "lando@cloudcity.org") (Some "<hash>") None None
    (Some (mk_datetime 2024 5 4 14 30 0 0 (Some 7200000000))) None.

Definition lando_row : User.t :=
  User.mk (Some 3) (Some "lando@cloudcity.org") (Some "<hash>") None None
    (Some (mk_datetime 2024 5 4 14 30 0 0 None)) (Some true).


(** Person 1 moves to planet 2. *)
Definition luke_on_alderaan : Person.t :=
  Person.mk None (Some "Luke Skywalker") (Some "172") None None None None
    (Some "19BBY") None (Some 2).

Definition alderaan_row : Planet.t :=
  Planet.mk (Some 2) (Some "Alderaan") None None None None None None None None.

(** * Properties *)

(** ** The order of a collection *)

Lemma key_le_total (a b : option Z) : key_le a b ∨ key_le b a.
Proof. destruct a, b; simpl; auto; lia. Qed.

Lemma key_le_trans (a b c : option Z) : key_le a b → key_le b c → key_le a c.
Proof. destruct a, b, c; simpl; auto; try done; lia. Qed.

Section by_key.
Context {C : Type} (key : C → option Z).

Lemma by_key_cons (x : C) (rows : list C) :
  by_key key (x :: rows) = insert_by key x (by_key key rows).
Proof. reflexivity. Qed.

Lemma insert_by_Permutation (x : C) (rows : list C) :
  insert_by key x rows ≡ₚ x :: rows.
Proof.
  induction rows as [|y rows IH]; simpl; [done|].
  case_decide; [done|]. rewrite IH. apply Permutation_swap.
Qed.

Lemma by_key_Permutation (rows : list C) : by_key key rows ≡ₚ rows.
Proof.
  induction rows as [|x rows IH]; [done|].
  by rewrite by_key_cons, insert_by_Permutation, IH.
Qed.

Lemma elem_of_by_key (rows : list C) (x : C) : x ∈ by_key key rows ↔ x ∈ rows.
Proof. by rewrite by_key_Permutation. Qed.

Lemma Forall_by_key (P : C → Prop) (rows : list C) :
  Forall P (by_key key rows) ↔ Forall P rows.
Proof. by rewrite by_key_Permutation. Qed.

Lemma by_key_nil_inv (rows : list C) : by_key key rows = [] → rows = [].
Proof.
  intros Hnil. apply Permutation_nil_r. by rewrite <- Hnil, by_key_Permutation.
Qed.

Lemma insert_by_sorted (x : C) (rows : list C) :
  StronglySorted (key_order key) rows →
  StronglySorted (key_order key) (insert_by key x rows).
Proof.
  induction 1 as [|y rows Hsorted IH Hy]; simpl.
  { repeat constructor. }
  case_decide as Hxy.
  - constructor; [by constructor|]. constructor; [done|].
    eapply Forall_impl; [done|]. intros z Hz. by eapply key_le_trans.
  - constructor; [done|]. rewrite insert_by_Permutation.
    constructor; [|done]. by destruct (key_le_total (key x) (key y)).
Qed.

Lemma by_key_sorted (rows : list C) :
  StronglySorted (key_order key) (by_key key rows).
Proof.
  induction rows as [|x rows IH]; [constructor|].
  rewrite by_key_cons. by apply insert_by_sorted.
Qed.

Lemma filter_insert_by (P : C → Prop) `{∀ x, Decision (P x)} (x : C)
    (rows : list C) :
  StronglySorted (key_order key) rows →
  filter P (insert_by key x rows)
  = if decide (P x) then insert_by key x (filter P rows) else filter P rows.
Proof.
  induction 1 as [|y rows Hsorted IH Hy]; simpl.
  { rewrite filter_cons, filter_nil. by case_decide. }
  destruct (decide (key_le (key x) (key y))) as [Hxy|Hxy].
  - rewrite (filter_cons _ x). case_decide as Hx; [|done].
    assert (Forall (key_order key x) (filter P (y :: rows))) as Hfirst.
    { apply Forall_forall. intros z [_ Hz]%list_elem_of_filter.
      apply elem_of_cons in Hz as [->|Hz]; [done|].
      rewrite Forall_forall in Hy. eapply key_le_trans; [done|]. by apply Hy. }
    destruct (filter P (y :: rows)) as [|z rest]; [done|]. simpl.
    apply Forall_cons in Hfirst as [Hxz _]. by rewrite decide_True.
  - rewrite !(filter_cons _ y), IH.
    destruct (decide (P y)), (decide (P x)); simpl; try done.
    by rewrite decide_False.
Qed.

(** Reading in the order of the keys and leaving rows out commute. *)
Lemma filter_by_key (P : C → Prop) `{∀ x, Decision (P x)} (rows : list C) :
  filter P (by_key key rows) = by_key key (filter P rows).
Proof.
  induction rows as [|x rows IH]; [done|].
  rewrite by_key_cons, filter_insert_by by apply by_key_sorted.
  rewrite filter_cons, IH. by case_decide.
Qed.

End by_key.

(** ** [serialize] *)

(** [User.serialize] never reads the attribute of [None]: the conditional
    guards the call of [isoformat]. *)
Lemma User_serialize_eq (s : Store) (self : User.t) :
  User_serialize s self = Ok (dict [
    ("id", of_int (User.id self));
    ("email", of_str (User.email self));
    ("first_name", of_str (User.first_name self));
    ("last_name", of_str (User.last_name self));
    ("subscription_date",
      from_option (λ d, VStr (isoformat d)) VNone
        (User.subscription_date self));
    ("is_active", of_bool (User.is_active self));
    ("favorite_planet_ids",
      VList ((λ fav, of_int (FavoritePlanet.planet_id fav))
               <$> User_favorite_planets s self));
    ("favorite_person_ids",
      VList ((λ fav, of_int (FavoritePerson.person_id fav))
               <$> User_favorite_people s self));
    ("favorite_vehicle_ids",
      VList ((λ fav, of_int (FavoriteVehicle.vehicle_id fav))
               <$> User_favorite_vehicles s self))
  ]).
Proof.
  unfold User_serialize.
  destruct (User.subscription_date self); reflexivity.
Qed.

(** C1: the dictionary [User.serialize()] returns has no ["password"] key,
    whatever the attributes of the user and whatever the store holds as
    its favorites. *)
Theorem User_serialize_no_password (s : Store) (self : User.t) :
  ∃ d, User_serialize s self = Ok d
       ∧ d !! "password" = None
       ∧ "password" ∉ dom d.
Proof.
  eexists. split; [apply User_serialize_eq|].
  assert (∀ d : gmap string value, d !! "password" = None
            → d !! "password" = None ∧ "password" ∉ dom d) as Hdom.
  { intros d Hd. split; [done|]. by apply not_elem_of_dom. }
  apply Hdom. reflexivity.
Qed.

(** C9: for a user whose [subscription_date] is [None], [serialize()]
    raises nothing and the ["subscription_date"] entry of its result is
    [None]. *)
Theorem User_serialize_without_subscription_date (s : Store) (self : User.t) :
  User.subscription_date self = None →
  ∃ d, User_serialize s self = Ok d
       ∧ d !! "subscription_date" = Some VNone.
Proof.
  intros Hnone. eexists. split; [apply User_serialize_eq|].
  rewrite Hnone. reflexivity.
Qed.

(** C10: each of the three lists of [User.serialize()] has one element
    per object of the corresponding collection of the user, at the same
    position: the id the object at that position refers to. *)
Theorem User_serialize_favorites_in_order (s : Store) (self : User.t) :
  ∃ d planet_ids person_ids vehicle_ids,
    User_serialize s self = Ok d
    ∧ d !! "favorite_planet_ids" = Some (VList planet_ids)
    ∧ d !! "favorite_person_ids" = Some (VList person_ids)
    ∧ d !! "favorite_vehicle_ids" = Some (VList vehicle_ids)
    ∧ (length planet_ids = length (User_favorite_planets s self)
       ∧ ∀ i : nat,
           planet_ids !! i
           = (λ fav, of_int (FavoritePlanet.planet_id fav))
               <$> User_favorite_planets s self !! i)
    ∧ (length person_ids = length (User_favorite_people s self)
       ∧ ∀ i : nat,
           person_ids !! i
           = (λ fav, of_int (FavoritePerson.person_id fav))
               <$> User_favorite_people s self !! i)
    ∧ (length vehicle_ids = length (User_favorite_vehicles s self)
       ∧ ∀ i : nat,
           vehicle_ids !! i
           = (λ fav, of_int (FavoriteVehicle.vehicle_id fav))
               <$> User_favorite_vehicles s self !! i).
Proof.
  do 4 eexists. split; [apply User_serialize_eq|].
  repeat split; try reflexivity;
    first [apply length_fmap | intros i; apply list_lookup_fmap].
Qed.

(** C8: [Person.serialize()] returns the ten column attributes of the
    person and nothing else; the ["homeworld_id"] entry is the attribute
    itself (an integer or [None]), every entry is a scalar, and the
    result is the same in every store, so nothing of it comes from a
    [Planet]. *)
Theorem Person_serialize_flat (s : Store) (self : Person.t) :
  ∃ d, Person_serialize s self = Ok d
       ∧ dom d = {[ "id"; "name"; "height"; "mass"; "hair_color";
                    "skin_color"; "eye_color"; "birth_year"; "gender";
                    "homeworld_id" ]}
       ∧ d !! "id" = Some (of_int (Person.id self))
       ∧ d !! "name" = Some (of_str (Person.name self))
       ∧ d !! "height" = Some (of_str (Person.height self))
       ∧ d !! "mass" = Some (of_str (Person.mass self))
       ∧ d !! "hair_color" = Some (of_str (Person.hair_color self))
       ∧ d !! "skin_color" = Some (of_str (Person.skin_color self))
       ∧ d !! "eye_color" = Some (of_str (Person.eye_color self))
       ∧ d !! "birth_year" = Some (of_str (Person.birth_year self))
       ∧ d !! "gender" = Some (of_str (Person.gender self))
       ∧ d !! "homeworld_id"
         = Some (match Person.homeworld_id self with
                 | Some planet_id => VInt planet_id
                 | None => VNone
                 end)
       ∧ (∀ k v, d !! k = Some v → is_scalar v = true)
       ∧ (∀ s', Person_serialize s' self = Ok d).
Proof.
  eexists. split; [reflexivity|].
  assert (∀ A (f : A → value) (o : option A),
            (∀ a, is_scalar (f a) = true) →
            is_scalar (from_option f VNone o) = true) as Hscalar.
  { intros A f [a|] Hf; [apply Hf | reflexivity]. }
  split; [|repeat split; try (by destruct (Person.homeworld_id self))].
  - unfold dict; simpl. rewrite !dom_insert_L, dom_empty_L. set_solver.
  - intros k v. unfold dict; simpl. rewrite !lookup_insert.
    repeat case_decide; intros [= <-]; by apply Hscalar.
Qed.

(** C2: for a planet with key [pid], the ["resident_ids"] entry of
    [Planet.serialize()] lists the ids of the people whose [homeworld_id]
    is [pid], all of them and no other. *)
Theorem Planet_serialize_resident_ids (s : Store) (self : Planet.t) (pid : Z) :
  Planet.id self = Some pid →
  ∃ d resident_ids,
    Planet_serialize s self = Ok d
    ∧ d !! "resident_ids" = Some (VList resident_ids)
    ∧ ∀ v, v ∈ resident_ids
           ↔ ∃ person, person ∈ people s
                       ∧ Person.homeworld_id person = Some pid
                       ∧ v = of_int (Person.id person).
Proof.
  intros Hid. do 2 eexists. split; [reflexivity|]. split; [reflexivity|].
  intros v. unfold Planet_residents, one_to_many, joins.
  rewrite list_elem_of_fmap, Hid. split.
  - intros (person & -> & [[_ Hfk] Hin]%elem_of_by_key%list_elem_of_filter).
    eauto.
  - intros (person & Hin & Hfk & ->). exists person. split; [done|].
    apply elem_of_by_key, list_elem_of_filter. eauto.
Qed.

(** ** The constraint checks *)

Section checks.
Context {A R : Type} `{EqDecision A}.
Implicit Types (c : sqlalchemy.Column) (name : string) (v : option A)
  (get : R → option A) (rows : list R).

Lemma check_not_null_Ok c name v :
  check_not_null c name v = Ok ()
  ↔ (sqlalchemy.is_nullable c = false → is_Some v).
Proof.
  unfold check_not_null.
  destruct (sqlalchemy.is_nullable c), v; simpl; split; intros H;
    try done; try (by eexists); by destruct (H eq_refl) as [? [=]].
Qed.

Lemma check_not_null_Err c name v e :
  check_not_null c name v = Err e → e = IntegrityError (NotNull name).
Proof. unfold check_not_null. case_match; congruence. Qed.

Lemma check_unique_Ok c name get rows v :
  check_unique c name get rows v = Ok ()
  ↔ (sqlalchemy.is_unique c = true → is_Some v → v ∉ get <$> rows).
Proof.
  unfold check_unique.
  destruct (sqlalchemy.is_unique c); simpl; [|done].
  case_bool_decide as Hdup; split; try done.
  - intros Hfree. exfalso. destruct Hdup. by apply Hfree.
  - intros _ _ Hv Hin. by apply Hdup.
Qed.

Lemma check_unique_Err c name get rows v e :
  check_unique c name get rows v = Err e → e = IntegrityError (Unique name).
Proof. unfold check_unique. case_match; congruence. Qed.

Lemma check_column_Ok c name get rows v :
  check_column c name get rows v = Ok ()
  ↔ (sqlalchemy.is_nullable c = false → is_Some v)
    ∧ (sqlalchemy.is_unique c = true → is_Some v → v ∉ get <$> rows).
Proof.
  unfold check_column.
  rewrite <- (check_not_null_Ok c name), <- (check_unique_Ok c name).
  destruct (check_not_null c name v) as [[]|]; simpl.
  - tauto.
  - split; [done|by intros [? _]].
Qed.

Lemma check_column_Err c name get rows v e :
  check_column c name get rows v = Err e → ∃ k, e = IntegrityError k.
Proof.
  unfold check_column.
  destruct (check_not_null c name v) as [[]|] eqn:Hnn; simpl.
  - intros ->%check_unique_Err. eauto.
  - intros [= <-]. apply check_not_null_Err in Hnn. eauto.
Qed.
End checks.

Lemma check_primary_key_Ok {K : Type} `{EqDecision K} (table : string)
    (key : K) (keys : list K) :
  check_primary_key table key keys = Ok () ↔ key ∉ keys.
Proof. unfold check_primary_key. case_bool_decide; split; done. Qed.

Lemma check_primary_key_Err {K : Type} `{EqDecision K} (table : string)
    (key : K) (keys : list K) (e : error) :
  check_primary_key table key keys = Err e →
  e = IntegrityError (PrimaryKey table).
Proof. unfold check_primary_key. case_match; congruence. Qed.

Lemma check_foreign_key_Err (be : Backend) (c : sqlalchemy.Column)
    (name : string) (v : option Z) (s : Store) (e : error) :
  check_foreign_key be c name v s = Err e →
  e = IntegrityError (ForeignKeyViolation name).
Proof. unfold check_foreign_key. repeat case_match; congruence. Qed.

Lemma check_unreferenced_Ok (be : Backend) (name : string)
    (fks : list (option Z)) (key : option Z) :
  key ∉ fks → check_unreferenced be name fks key = Ok ().
Proof.
  intros Hnot. unfold check_unreferenced.
  destruct (enforces_foreign_keys be); [|done].
  simpl. case_bool_decide as Href; [|done]. by destruct Href.
Qed.

(** ** Generated keys *)

Lemma check_integer_Ok (v : option Z) : check_integer v = Ok () ↔ binds v.
Proof.
  unfold check_integer, binds. destruct v as [n|].
  - case_decide as Hn; split.
    + by intros _ ? [= <-].
    + done.
    + done.
    + intros Hv. destruct Hn. by apply Hv.
  - split; [by intros _ n|done].
Qed.


Lemma binds_Some (n : Z) : binds (Some n) ↔ int64 n.
Proof.
  split; [intros Hn; by apply Hn|]. by intros Hn ? [= <-].
Qed.

Lemma check_integer_Err (v : option Z) (e : error) :
  check_integer v = Err e → e = OverflowError.
Proof. unfold check_integer. repeat case_match; congruence. Qed.

Lemma generated_key_given (be : Backend) (c : sqlalchemy.Column)
    (keys : list (option Z)) (v : option Z) :
  sqlalchemy.autoincrement c = false → generated_key be c keys v = Ok v.
Proof. intros Hc. unfold generated_key. rewrite Hc. by destruct v. Qed.

Lemma foldr_max_ge (k : Z) (ks : list Z) :
  k ≤ foldr Z.max k ks ∧ ∀ x, x ∈ ks → x ≤ foldr Z.max k ks.
Proof.
  induction ks as [|y ks [IHk IHks]]; simpl.
  - split; [lia|]. by intros x ?%elem_of_nil.
  - split; [lia|]. intros x [->|Hx]%elem_of_cons; [lia|].
    specialize (IHks x Hx). lia.
Qed.


Lemma elem_of_omap_id (keys : list (option Z)) (k : Z) :
  k ∈ omap id keys ↔ Some k ∈ keys.
Proof.
  rewrite list_elem_of_omap. split.
  - by intros ([k'|] & Hin & [= <-]).
  - intros Hin. by exists (Some k).
Qed.

(** The key the store generates is the key of no row, and an integer of
    the column when the keys of the rows are. *)
Lemma next_key_Ok (be : Backend) (keys : list (option Z)) (k : Z) :
  next_key be keys = Ok k →
  (Some k ∉ keys) ∧ ((∀ n, Some n ∈ keys → int64 n) → int64 k).
Proof.
  unfold next_key. intros Hnext.
  pose proof (elem_of_omap_id keys) as Hkeys.
  destruct (omap id keys) as [|k0 ks].
  - injection Hnext as <-. split; [|by intros _].
    intros Hin%Hkeys. by apply elem_of_nil in Hin.
  - destruct (foldr_max_ge k0 ks) as [Hk0 Hks].
    cbv zeta in Hnext. case_decide as Hmax.
    + injection Hnext as <-. split.
      * intros [Heq|Hin]%Hkeys%elem_of_cons; [lia|].
        specialize (Hks _ Hin). lia.
      * intros Hrange. assert (int64 k0) as Hk by (apply Hrange, Hkeys; left).
        unfold int64, max_rowid in *. lia.
    + case_decide as Hr; [|done]. injection Hnext as <-.
      destruct Hr as [Hr Hnew]. split; [done|].
      intros _. unfold int64. lia.
Qed.


Lemma generated_key_Ok (be : Backend) (c : sqlalchemy.Column)
    (keys : list (option Z)) (v key : option Z) :
  generated_key be c keys v = Ok key →
  (is_Some v ∧ key = v)
  ∨ (v = None
     ∧ if sqlalchemy.autoincrement c
       then ∃ k, key = Some k ∧ (Some k ∉ keys)
                 ∧ ((∀ n, Some n ∈ keys → int64 n) → int64 k)
       else key = None).
Proof.
  unfold generated_key. destruct v as [k|].
  - intros [= <-]. left. by split; [eexists|].
  - intros Hkey. right. split; [done|].
    destruct (sqlalchemy.autoincrement c); [|by injection Hkey].
    destruct (next_key be keys) as [k|] eqn:Hnext; [|done].
    injection Hkey as <-. apply next_key_Ok in Hnext as [? ?]. by exists k.
Qed.



(** ** Case analysis of a transaction *)

(** Go through the statements of the transaction in [H : tx s = Ok _]
    from the first to the last; a statement that fails contradicts
    [H]. *)
Ltac tx_cases H :=
  cbv zeta in H;
  repeat match type of H with
  | context [mbind _ ?m] =>
      lazymatch m with
      | mbind _ _ => fail
      | _ => destruct m eqn:?; simpl in H; try discriminate H
      end
  end.

(** The same for [H : tx s = Err e], where every statement is a
    constraint check: the statement that fails gives the error. *)
Ltac integrity_error H :=
  cbv zeta in H;
  repeat match type of H with
  | context [mbind _ ?m] =>
      lazymatch m with
      | mbind _ _ => fail
      | _ =>
          let Hm := fresh "Hm" in
          destruct m as [[]|?] eqn:Hm; simpl in H;
          [|injection H as <-;
            first [ apply check_column_Err in Hm as [? ->]
                  | apply check_primary_key_Err in Hm as ->
                  | apply check_not_null_Err in Hm as ->
                  | apply check_foreign_key_Err in Hm as -> ];
            by eexists]
      end
  end;
  discriminate H.



(** ** Deleting a parent *)

Lemma joins_Some (fk : option Z) (k : Z) : joins fk (Some k) ↔ fk = Some k.
Proof.
  unfold joins. split; [by intros [_ ?]|].
  intros ->. split; [by eexists|done].
Qed.

Section on_parent_delete.
Context {C : Type} (rel : sqlalchemy.Relationship)
  (fk_column : sqlalchemy.Column) (name : string) (fk : C → option Z)
  (set_null : C → C) (key : option Z) (rows : list C).

(** With the delete cascade the children go. *)
Lemma on_parent_delete_cascade :
  sqlalchemy.cascade_delete rel = true →
  on_parent_delete rel fk_column name fk set_null key rows
  = Ok (filter (λ c, ¬ joins (fk c) key) rows).
Proof. unfold on_parent_delete. by intros ->. Qed.

(** Without it, and with a nullable foreign key outside the primary
    key, the children stay and lose their parent. *)
Lemma on_parent_delete_set_null :
  sqlalchemy.cascade_delete rel = false →
  sqlalchemy.is_primary_key fk_column = false →
  sqlalchemy.is_nullable fk_column = true →
  on_parent_delete rel fk_column name fk set_null key rows
  = Ok ((λ c, if decide (joins (fk c) key) then set_null c else c)
          <$> rows).
Proof.
  unfold on_parent_delete. intros -> -> ->.
  destruct (one_to_many fk key rows) eqn:Hnone; [|done].
  f_equal. rewrite <- (list_fmap_id rows) at 1.
  apply list_fmap_ext. intros i c Hc%list_elem_of_lookup_2. simpl.
  case_decide as Hjoin; [|done].
  by destruct (filter_nil_not_elem_of _ _ c Hnone Hjoin).
Qed.
End on_parent_delete.

Lemma cascade_leaves_no_child {C : Type} (fk : C → option Z) (k : Z)
    (rows : list C) (c : C) :
  c ∈ filter (λ c, ¬ joins (fk c) (Some k)) rows ↔ c ∈ rows ∧ fk c ≠ Some k.
Proof. rewrite list_elem_of_filter, joins_Some. tauto. Qed.

Lemma cascade_unreferenced {C : Type} (fk : C → option Z) (k : Z)
    (rows : list C) :
  Some k ∉ fk <$> filter (λ c, ¬ joins (fk c) (Some k)) rows.
Proof.
  intros (c & Hk & Hc)%list_elem_of_fmap.
  apply cascade_leaves_no_child in Hc as [_ Hne]. congruence.
Qed.

Lemma set_null_unreferenced (k : Z) (rows : list Person.t) :
  Some k ∉ Person.homeworld_id
           <$> ((λ c, if decide (joins (Person.homeworld_id c) (Some k))
                      then Person_set_homeworld_id None c else c) <$> rows).
Proof.
  intros (c' & Hk & (c & -> & Hc)%list_elem_of_fmap)%list_elem_of_fmap.
  case_decide as Hjoin; [done|]. by apply Hjoin, joins_Some.
Qed.

(** What the four deletions of a parent come to: the three collections
    of a user, the favorites of a planet, a person or a vehicle are
    deleted by their cascade, and the residents of a planet are kept
    with [homeworld_id] set to NULL. *)
Lemma delete_user_eq (be : Backend) (uid : Z) (s : Store) :
  delete_user be uid s
  = if bool_decide (Some uid ∈ User.id <$> users s)
    then Ok ((), mk_Store
                   (filter (λ u, User.id u ≠ Some uid) (users s))
                   (planets s) (people s) (vehicles s)
                   (filter (λ f, ¬ joins (FavoritePlanet.user_id f) (Some uid))
                      (favorite_planets s))
                   (filter (λ f, ¬ joins (FavoritePerson.user_id f) (Some uid))
                      (favorite_people s))
                   (filter
                      (λ f, ¬ joins (FavoriteVehicle.user_id f) (Some uid))
                      (favorite_vehicles s)))
    else Err UnmappedInstanceError.
Proof.
  unfold delete_user. case_bool_decide; [|done].
  rewrite !on_parent_delete_cascade by reflexivity. simpl.
  by rewrite !check_unreferenced_Ok by apply cascade_unreferenced.
Qed.

Lemma delete_planet_eq (be : Backend) (pid : Z) (s : Store) :
  delete_planet be pid s
  = if bool_decide (Some pid ∈ Planet.id <$> planets s)
    then Ok ((), mk_Store (users s)
                   (filter (λ p, Planet.id p ≠ Some pid) (planets s))
                   ((λ c, if decide (joins (Person.homeworld_id c) (Some pid))
                          then Person_set_homeworld_id None c else c)
                      <$> people s)
                   (vehicles s)
                   (filter
                      (λ f, ¬ joins (FavoritePlanet.planet_id f) (Some pid))
                      (favorite_planets s))
                   (favorite_people s) (favorite_vehicles s))
    else Err UnmappedInstanceError.
Proof.
  unfold delete_planet. case_bool_decide; [|done].
  rewrite (on_parent_delete_cascade Planet.relationships.favorited_by)
    by reflexivity.
  rewrite (on_parent_delete_set_null Planet.relationships.residents)
    by reflexivity.
  simpl.
  rewrite (check_unreferenced_Ok _ "favorite_planets.planet_id")
    by apply cascade_unreferenced.
  by rewrite (check_unreferenced_Ok _ "people.homeworld_id")
    by apply set_null_unreferenced.
Qed.

Lemma delete_person_eq (be : Backend) (pid : Z) (s : Store) :
  delete_person be pid s
  = if bool_decide (Some pid ∈ Person.id <$> people s)
    then Ok ((), mk_Store (users s) (planets s)
                   (filter (λ p, Person.id p ≠ Some pid) (people s))
                   (vehicles s) (favorite_planets s)
                   (filter
                      (λ f, ¬ joins (FavoritePerson.person_id f) (Some pid))
                      (favorite_people s))
                   (favorite_vehicles s))
    else Err UnmappedInstanceError.
Proof.
  unfold delete_person. case_bool_decide; [|done].
  rewrite !on_parent_delete_cascade by reflexivity. simpl.
  by rewrite !check_unreferenced_Ok by apply cascade_unreferenced.
Qed.

Lemma delete_vehicle_eq (be : Backend) (vid : Z) (s : Store) :
  delete_vehicle be vid s
  = if bool_decide (Some vid ∈ Vehicle.id <$> vehicles s)
    then Ok ((), mk_Store (users s) (planets s) (people s)
                   (filter (λ v, Vehicle.id v ≠ Some vid) (vehicles s))
                   (favorite_planets s) (favorite_people s)
                   (filter
                      (λ f, ¬ joins (FavoriteVehicle.vehicle_id f) (Some vid))
                      (favorite_vehicles s)))
    else Err UnmappedInstanceError.
Proof.
  unfold delete_vehicle. case_bool_decide; [|done].
  rewrite !on_parent_delete_cascade by reflexivity. simpl.
  by rewrite !check_unreferenced_Ok by apply cascade_unreferenced.
Qed.

(** C3: deleting a user of the store succeeds and removes, from each of
    the three association tables, the rows whose [user_id] is the key of
    the user: none of them remains.  The rows of other users, and the
    planets, people and vehicles, stay. *)
Theorem delete_user_cascades (be : Backend) (s : Store) (u : User.t)
    (uid : Z) :
  u ∈ users s →
  User.id u = Some uid →
  ∃ s',
    commit (delete_user be uid) s = (Ok (), s')
    ∧ (∀ f, f ∈ favorite_planets s'
            ↔ f ∈ favorite_planets s ∧ FavoritePlanet.user_id f ≠ Some uid)
    ∧ (∀ f, f ∈ favorite_people s'
            ↔ f ∈ favorite_people s ∧ FavoritePerson.user_id f ≠ Some uid)
    ∧ (∀ f, f ∈ favorite_vehicles s'
            ↔ f ∈ favorite_vehicles s ∧ FavoriteVehicle.user_id f ≠ Some uid)
    ∧ (∀ u', u' ∈ users s' ↔ u' ∈ users s ∧ User.id u' ≠ Some uid)
    ∧ planets s' = planets s
    ∧ people s' = people s
    ∧ vehicles s' = vehicles s.
Proof.
  intros Hin Hid. unfold commit. rewrite delete_user_eq.
  rewrite bool_decide_eq_true_2
    by (rewrite <- Hid; by apply list_elem_of_fmap_2).
  eexists. split; [reflexivity|]. simpl.
  split; [intros f; apply cascade_leaves_no_child|].
  split; [intros f; apply cascade_leaves_no_child|].
  split; [intros f; apply cascade_leaves_no_child|].
  split; [|done]. intros u'. rewrite list_elem_of_filter. tauto.
Qed.

(** C5: deleting a planet of the store succeeds and removes the rows of
    [favorite_planets] whose [planet_id] is the key of the planet, and
    no row of [people] is removed: the table keeps its keys, a person of
    another homeworld is kept as it is, and a resident of the planet is
    kept with every attribute but [homeworld_id], which becomes NULL. *)
Theorem delete_planet_keeps_people (be : Backend) (s : Store) (p : Planet.t)
    (pid : Z) :
  p ∈ planets s →
  Planet.id p = Some pid →
  ∃ s',
    commit (delete_planet be pid) s = (Ok (), s')
    ∧ (∀ f, f ∈ favorite_planets s'
            ↔ f ∈ favorite_planets s ∧ FavoritePlanet.planet_id f ≠ Some pid)
    ∧ Person.id <$> people s' = Person.id <$> people s
    ∧ (∀ x, x ∈ people s → Person.homeworld_id x ≠ Some pid → x ∈ people s')
    ∧ (∀ x, x ∈ people s → Person.homeworld_id x = Some pid →
            Person_set_homeworld_id None x ∈ people s').
Proof.
  intros Hin Hid. unfold commit. rewrite delete_planet_eq.
  rewrite bool_decide_eq_true_2
    by (rewrite <- Hid; by apply list_elem_of_fmap_2).
  eexists. split; [reflexivity|]. simpl.
  split; [intros f; apply cascade_leaves_no_child|].
  split; [|split].
  - rewrite <- list_fmap_compose. apply list_fmap_ext.
    intros i x _. simpl. by case_decide.
  - intros x Hx Hfk. apply list_elem_of_fmap. exists x. split; [|done].
    rewrite decide_False; [done|]. by rewrite joins_Some.
  - intros x Hx Hfk. apply list_elem_of_fmap. exists x. split; [|done].
    rewrite decide_True; [done|]. by rewrite joins_Some.
Qed.

(** ** The association tables in reachable stores *)

(** A row the store accepts in an association table has both keys and
    is new. *)
Ltac favorite_checks :=
  repeat match goal with
         | H : check_column _ _ _ _ _ = Ok ?a |- _ =>
             destruct a; apply check_column_Ok in H as [H _];
             specialize (H eq_refl)
         | H : check_primary_key _ _ _ = Ok ?a |- _ =>
             destruct a; apply check_primary_key_Ok in H
         end.

Lemma add_favorite_planet_Ok (be : Backend) (f row : FavoritePlanet.t)
    (s s' : Store) :
  add_favorite_planet be f s = Ok (row, s') →
  row = f
  ∧ (is_Some (FavoritePlanet.user_id f) ∧ is_Some (FavoritePlanet.planet_id f))
  ∧ (f ∉ favorite_planets s)
  ∧ s' = mk_Store (users s) (planets s) (people s) (vehicles s)
           (favorite_planets s ++ [f]) (favorite_people s)
           (favorite_vehicles s).
Proof.
  unfold add_favorite_planet. rewrite !generated_key_given by reflexivity.
  simpl. destruct f as [user_id planet_id]. intros H. tx_cases H.
  injection H as <- <-. favorite_checks. done.
Qed.

Lemma add_favorite_person_Ok (be : Backend) (f row : FavoritePerson.t)
    (s s' : Store) :
  add_favorite_person be f s = Ok (row, s') →
  row = f
  ∧ (is_Some (FavoritePerson.user_id f) ∧ is_Some (FavoritePerson.person_id f))
  ∧ (f ∉ favorite_people s)
  ∧ s' = mk_Store (users s) (planets s) (people s) (vehicles s)
           (favorite_planets s) (favorite_people s ++ [f])
           (favorite_vehicles s).
Proof.
  unfold add_favorite_person. rewrite !generated_key_given by reflexivity.
  simpl. destruct f as [user_id person_id]. intros H. tx_cases H.
  injection H as <- <-. favorite_checks. done.
Qed.

Lemma add_favorite_vehicle_Ok (be : Backend) (f row : FavoriteVehicle.t)
    (s s' : Store) :
  add_favorite_vehicle be f s = Ok (row, s') →
  row = f
  ∧ (is_Some (FavoriteVehicle.user_id f)
     ∧ is_Some (FavoriteVehicle.vehicle_id f))
  ∧ (f ∉ favorite_vehicles s)
  ∧ s' = mk_Store (users s) (planets s) (people s) (vehicles s)
           (favorite_planets s) (favorite_people s)
           (favorite_vehicles s ++ [f]).
Proof.
  unfold add_favorite_vehicle. rewrite !generated_key_given by reflexivity.
  simpl. destruct f as [user_id vehicle_id]. intros H. tx_cases H.
  injection H as <- <-. favorite_checks. done.
Qed.

Lemma table_ok_snoc {R : Type} (P : R → Prop) (rows : list R) (row : R) :
  P row → row ∉ rows → Forall P rows ∧ NoDup rows →
  Forall P (rows ++ [row]) ∧ NoDup (rows ++ [row]).
Proof.
  intros HP Hnew [Hall Hnodup]. split.
  - apply Forall_app. split; [done|]. by apply Forall_singleton.
  - apply NoDup_app. split; [done|]. split; [|apply NoDup_singleton].
    intros x Hx ->%list_elem_of_singleton. done.
Qed.

Lemma table_ok_filter {R : Type} (P Q : R → Prop) `{∀ x, Decision (Q x)}
    (rows : list R) :
  Forall P rows ∧ NoDup rows →
  Forall P (filter Q rows) ∧ NoDup (filter Q rows).
Proof.
  intros [Hall Hnodup]. split; [|by apply NoDup_filter].
  apply Forall_forall. intros x [_ Hx]%list_elem_of_filter.
  by eapply Forall_forall in Hall.
Qed.

(** An INSERT or an UPDATE of a user, a planet, a person or a vehicle
    leaves the association tables as they are. *)
Ltac same_favorites H :=
  try match type of H with
      | (if bool_decide ?P then _ else _) = _ =>
          destruct (bool_decide P); [|discriminate H]
      end;
  tx_cases H;
  try match type of H with
      | (let '(_, _) := ?p in _) = _ => destruct p
      end;
  injection H as <-; done.

Lemma run_favorites_ok (be : Backend) (o : operation) (s s' : Store) :
  run be o s = Ok ((), s') → favorites_ok s → favorites_ok s'.
Proof.
  unfold favorites_ok. intros Hrun (Hplanets & Hpeople & Hvehicles).
  destruct o; simpl in Hrun; unfold void in Hrun.
  - unfold add_user in Hrun. same_favorites Hrun.
  - unfold add_planet in Hrun. same_favorites Hrun.
  - unfold add_person in Hrun. same_favorites Hrun.
  - unfold add_vehicle in Hrun. same_favorites Hrun.
  - destruct (add_favorite_planet be f s) as [[row s'']|] eqn:Hadd; [|done].
    injection Hrun as <-.
    apply add_favorite_planet_Ok in Hadd as (_ & Hkey & Hnew & ->). simpl.
    split; [|done]. by apply table_ok_snoc.
  - destruct (add_favorite_person be f s) as [[row s'']|] eqn:Hadd; [|done].
    injection Hrun as <-.
    apply add_favorite_person_Ok in Hadd as (_ & Hkey & Hnew & ->). simpl.
    split; [done|]. split; [|done]. by apply table_ok_snoc.
  - destruct (add_favorite_vehicle be f s) as [[row s'']|] eqn:Hadd; [|done].
    injection Hrun as <-.
    apply add_favorite_vehicle_Ok in Hadd as (_ & Hkey & Hnew & ->). simpl.
    split; [done|]. split; [done|]. by apply table_ok_snoc.
  - unfold update_user in Hrun. same_favorites Hrun.
  - unfold update_planet in Hrun. same_favorites Hrun.
  - unfold update_person in Hrun. same_favorites Hrun.
  - unfold update_vehicle in Hrun. same_favorites Hrun.
  - rewrite delete_user_eq in Hrun. case_bool_decide; [|done].
    injection Hrun as <-. simpl.
    split; [|split]; by apply table_ok_filter.
  - rewrite delete_planet_eq in Hrun. case_bool_decide; [|done].
    injection Hrun as <-. simpl.
    split; [|split]; try done; by apply table_ok_filter.
  - rewrite delete_person_eq in Hrun. case_bool_decide; [|done].
    injection Hrun as <-. simpl.
    split; [|split]; try done; by apply table_ok_filter.
  - rewrite delete_vehicle_eq in Hrun. case_bool_decide; [|done].
    injection Hrun as <-. simpl.
    split; [|split]; try done; by apply table_ok_filter.
  - unfold delete_favorite_planet in Hrun. case_bool_decide; [|done].
    injection Hrun as <-. simpl.
    split; [|split]; try done; by apply table_ok_filter.
  - unfold delete_favorite_person in Hrun. case_bool_decide; [|done].
    injection Hrun as <-. simpl.
    split; [|split]; try done; by apply table_ok_filter.
  - unfold delete_favorite_vehicle in Hrun. case_bool_decide; [|done].
    injection Hrun as <-. simpl.
    split; [|split]; try done; by apply table_ok_filter.
Qed.

Lemma reachable_favorites_ok (be : Backend) (s : Store) :
  reachable be s → favorites_ok s.
Proof.
  induction 1 as [|s o _ IH].
  - unfold favorites_ok. simpl. split; [|split]; split; constructor.
  - unfold commit. destruct (run be o s) as [[[] s']|] eqn:Hrun; [|done].
    simpl. by eapply run_favorites_ok.
Qed.

(** The keys of a row the store accepts in an association table were
    bound by the driver. *)
Lemma add_favorite_planet_binds (be : Backend) (f row : FavoritePlanet.t)
    (s s' : Store) :
  add_favorite_planet be f s = Ok (row, s') →
  binds (FavoritePlanet.user_id f) ∧ binds (FavoritePlanet.planet_id f).
Proof.
  unfold add_favorite_planet. intros H.
  destruct (check_integer (FavoritePlanet.user_id f)) as [[]|] eqn:Hu;
    [|done].
  destruct (check_integer (FavoritePlanet.planet_id f)) as [[]|] eqn:Hp;
    [|done].
  by rewrite <- !check_integer_Ok.
Qed.

Lemma add_favorite_person_binds (be : Backend) (f row : FavoritePerson.t)
    (s s' : Store) :
  add_favorite_person be f s = Ok (row, s') →
  binds (FavoritePerson.user_id f) ∧ binds (FavoritePerson.person_id f).
Proof.
  unfold add_favorite_person. intros H.
  destruct (check_integer (FavoritePerson.user_id f)) as [[]|] eqn:Hu;
    [|done].
  destruct (check_integer (FavoritePerson.person_id f)) as [[]|] eqn:Hp;
    [|done].
  by rewrite <- !check_integer_Ok.
Qed.

Lemma add_favorite_vehicle_binds (be : Backend) (f row : FavoriteVehicle.t)
    (s s' : Store) :
  add_favorite_vehicle be f s = Ok (row, s') →
  binds (FavoriteVehicle.user_id f) ∧ binds (FavoriteVehicle.vehicle_id f).
Proof.
  unfold add_favorite_vehicle. intros H.
  destruct (check_integer (FavoriteVehicle.user_id f)) as [[]|] eqn:Hu;
    [|done].
  destruct (check_integer (FavoriteVehicle.vehicle_id f)) as [[]|] eqn:Hp;
    [|done].
  by rewrite <- !check_integer_Ok.
Qed.

Lemma Forall_filter_weaken {R : Type} (P Q : R → Prop) `{∀ x, Decision (Q x)}
    (rows : list R) :
  Forall P rows → Forall P (filter Q rows).
Proof.
  rewrite !Forall_forall. intros Hall x [_ Hx]%list_elem_of_filter. auto.
Qed.

Lemma Forall_snoc_intro {R : Type} (P : R → Prop) (rows : list R) (row : R) :
  Forall P rows → P row → Forall P (rows ++ [row]).
Proof. intros. apply Forall_app. split; [done|]. by apply Forall_singleton. Qed.

Lemma run_favorites_bound (be : Backend) (o : operation) (s s' : Store) :
  run be o s = Ok ((), s') → favorites_bound s → favorites_bound s'.
Proof.
  unfold favorites_bound. intros Hrun (Hplanets & Hpeople & Hvehicles).
  destruct o; simpl in Hrun; unfold void in Hrun.
  - unfold add_user in Hrun. same_favorites Hrun.
  - unfold add_planet in Hrun. same_favorites Hrun.
  - unfold add_person in Hrun. same_favorites Hrun.
  - unfold add_vehicle in Hrun. same_favorites Hrun.
  - destruct (add_favorite_planet be f s) as [[row s'']|] eqn:Hadd; [|done].
    injection Hrun as <-. pose proof Hadd as Hbinds%add_favorite_planet_binds.
    apply add_favorite_planet_Ok in Hadd as (_ & _ & _ & ->). simpl.
    split; [|done]. by apply Forall_snoc_intro.
  - destruct (add_favorite_person be f s) as [[row s'']|] eqn:Hadd; [|done].
    injection Hrun as <-. pose proof Hadd as Hbinds%add_favorite_person_binds.
    apply add_favorite_person_Ok in Hadd as (_ & _ & _ & ->). simpl.
    split; [done|]. split; [|done]. by apply Forall_snoc_intro.
  - destruct (add_favorite_vehicle be f s) as [[row s'']|] eqn:Hadd; [|done].
    injection Hrun as <-. pose proof Hadd as Hbinds%add_favorite_vehicle_binds.
    apply add_favorite_vehicle_Ok in Hadd as (_ & _ & _ & ->). simpl.
    split; [done|]. split; [done|]. by apply Forall_snoc_intro.
  - unfold update_user in Hrun. same_favorites Hrun.
  - unfold update_planet in Hrun. same_favorites Hrun.
  - unfold update_person in Hrun. same_favorites Hrun.
  - unfold update_vehicle in Hrun. same_favorites Hrun.
  - rewrite delete_user_eq in Hrun. case_bool_decide; [|done].
    injection Hrun as <-. simpl.
    split; [|split]; by apply Forall_filter_weaken.
  - rewrite delete_planet_eq in Hrun. case_bool_decide; [|done].
    injection Hrun as <-. simpl.
    split; [|split]; try done; by apply Forall_filter_weaken.
  - rewrite delete_person_eq in Hrun. case_bool_decide; [|done].
    injection Hrun as <-. simpl.
    split; [|split]; try done; by apply Forall_filter_weaken.
  - rewrite delete_vehicle_eq in Hrun. case_bool_decide; [|done].
    injection Hrun as <-. simpl.
    split; [|split]; try done; by apply Forall_filter_weaken.
  - unfold delete_favorite_planet in Hrun. case_bool_decide; [|done].
    injection Hrun as <-. simpl.
    split; [|split]; try done; by apply Forall_filter_weaken.
  - unfold delete_favorite_person in Hrun. case_bool_decide; [|done].
    injection Hrun as <-. simpl.
    split; [|split]; try done; by apply Forall_filter_weaken.
  - unfold delete_favorite_vehicle in Hrun. case_bool_decide; [|done].
    injection Hrun as <-. simpl.
    split; [|split]; try done; by apply Forall_filter_weaken.
Qed.

Lemma reachable_favorites_bound (be : Backend) (s : Store) :
  reachable be s → favorites_bound s.
Proof.
  induction 1 as [|s o _ IH].
  - unfold favorites_bound. simpl. split; [|split]; constructor.
  - unfold commit. destruct (run be o s) as [[[] s']|] eqn:Hrun; [|done].
    simpl. by eapply run_favorites_bound.
Qed.

Lemma execute_reachable (be : Backend) (ops : list operation) (s : Store) :
  reachable be s → reachable be (execute be ops s).
Proof.
  revert s. induction ops as [|o ops IH]; intros s Hs; [done|].
  simpl. apply IH. by constructor.
Qed.

Lemma FavoritePlanet_pair_inj :
  Inj (=) (=) (λ f, (FavoritePlanet.user_id f, FavoritePlanet.planet_id f)).
Proof. intros [] [] [= -> ->]. done. Qed.

Lemma FavoritePerson_pair_inj :
  Inj (=) (=) (λ f, (FavoritePerson.user_id f, FavoritePerson.person_id f)).
Proof. intros [] [] [= -> ->]. done. Qed.

Lemma FavoriteVehicle_pair_inj :
  Inj (=) (=) (λ f, (FavoriteVehicle.user_id f, FavoriteVehicle.vehicle_id f)).
Proof. intros [] [] [= -> ->]. done. Qed.

(** C4: in a reachable store, adding a [FavoritePlanet] whose
    [(user_id, planet_id)] pair a row of [favorite_planets] already
    holds fails with the primary key violation and leaves the store as
    it was; and in each of the three association tables no pair of keys
    occurs twice. *)
Theorem favorite_pair_at_most_once (be : Backend) (s : Store) :
  reachable be s →
  (∀ f, f ∈ favorite_planets s →
        commit (add_favorite_planet be f) s
        = (Err (IntegrityError (PrimaryKey "favorite_planets")), s))
  ∧ NoDup ((λ f, (FavoritePlanet.user_id f, FavoritePlanet.planet_id f))
             <$> favorite_planets s)
  ∧ NoDup ((λ f, (FavoritePerson.user_id f, FavoritePerson.person_id f))
             <$> favorite_people s)
  ∧ NoDup ((λ f, (FavoriteVehicle.user_id f, FavoriteVehicle.vehicle_id f))
             <$> favorite_vehicles s).
Proof.
  intros Hreach.
  destruct (reachable_favorites_bound be s Hreach) as (Hbound & _ & _).
  destruct (reachable_favorites_ok be s Hreach)
    as ((Hplanets & Hnodup) & (_ & Hpeople) & (_ & Hvehicles)).
  split.
  - intros f Hf. rewrite Forall_forall in Hplanets, Hbound.
    destruct (Hplanets f Hf) as [[uid Huid] [pid Hpid]].
    destruct (Hbound f Hf) as [Hu Hp].
    unfold commit, add_favorite_planet.
    rewrite (proj2 (check_integer_Ok _) Hu), (proj2 (check_integer_Ok _) Hp).
    rewrite !generated_key_given by reflexivity.
    destruct f as [? ?]; simpl in *; subst.
    unfold check_primary_key. simpl.
    by rewrite bool_decide_eq_true_2.
  - split; [|split].
    + by apply (NoDup_fmap_2 _ (Inj0 := FavoritePlanet_pair_inj)).
    + by apply (NoDup_fmap_2 _ (Inj0 := FavoritePerson_pair_inj)).
    + by apply (NoDup_fmap_2 _ (Inj0 := FavoriteVehicle_pair_inj)).
Qed.

Lemma keys_not_null {C : Type} (get : C → option Z) (rows : list C) :
  Forall (λ c, is_Some (get c)) rows →
  ∃ keys : list Z,
    get <$> rows = Some <$> keys
    ∧ (λ c, of_int (get c)) <$> rows = VInt <$> keys.
Proof.
  induction 1 as [|c rows [k Hk] _ (keys & IH1 & IH2)].
  - by exists [].
  - exists (k :: keys). by rewrite !fmap_cons, Hk, IH1, IH2.
Qed.

Lemma Forall_one_to_many {C : Type} (P : C → Prop) (fk : C → option Z)
    (key : option Z) (rows : list C) :
  Forall P rows → Forall P (one_to_many fk key rows).
Proof.
  rewrite !Forall_forall. intros Hall c [_ Hc]%list_elem_of_filter. auto.
Qed.

(** C7: for a user of a reachable store, [User.serialize()] returns a
    dictionary with exactly the nine keys of the contract; each column
    entry is the attribute, ["subscription_date"] is the [isoformat()]
    string of the attribute or [None], and each of the three favorite
    entries is a list of integers, the ids the rows of the corresponding
    collection of the user refer to, in the order of the collection. *)
Theorem User_serialize_contract (be : Backend) (s : Store) (self : User.t) :
  reachable be s →
  ∃ d planet_ids person_ids vehicle_ids,
    User_serialize s self = Ok d
    ∧ dom d = {[ "id"; "email"; "first_name"; "last_name";
                 "subscription_date"; "is_active"; "favorite_planet_ids";
                 "favorite_person_ids"; "favorite_vehicle_ids" ]}
    ∧ d !! "id" = Some (of_int (User.id self))
    ∧ d !! "email" = Some (of_str (User.email self))
    ∧ d !! "first_name" = Some (of_str (User.first_name self))
    ∧ d !! "last_name" = Some (of_str (User.last_name self))
    ∧ d !! "subscription_date"
      = Some (match User.subscription_date self with
              | Some date => VStr (isoformat date)
              | None => VNone
              end)
    ∧ d !! "is_active" = Some (of_bool (User.is_active self))
    ∧ (d !! "favorite_planet_ids" = Some (VList (VInt <$> planet_ids))
       ∧ FavoritePlanet.planet_id <$> User_favorite_planets s self
         = Some <$> planet_ids)
    ∧ (d !! "favorite_person_ids" = Some (VList (VInt <$> person_ids))
       ∧ FavoritePerson.person_id <$> User_favorite_people s self
         = Some <$> person_ids)
    ∧ (d !! "favorite_vehicle_ids" = Some (VList (VInt <$> vehicle_ids))
       ∧ FavoriteVehicle.vehicle_id <$> User_favorite_vehicles s self
         = Some <$> vehicle_ids).
Proof.
  intros ((Hplanets & _) & (Hpeople & _) & (Hvehicles & _))
    %reachable_favorites_ok.
  destruct (keys_not_null FavoritePlanet.planet_id
              (User_favorite_planets s self)) as (planet_ids & Hp1 & Hp2).
  { apply Forall_by_key, Forall_one_to_many.
    eapply Forall_impl; [done|]. by intros f [_ ?]. }
  destruct (keys_not_null FavoritePerson.person_id
              (User_favorite_people s self)) as (person_ids & Hq1 & Hq2).
  { apply Forall_by_key, Forall_one_to_many.
    eapply Forall_impl; [done|]. by intros f [_ ?]. }
  destruct (keys_not_null FavoriteVehicle.vehicle_id
              (User_favorite_vehicles s self)) as (vehicle_ids & Hv1 & Hv2).
  { apply Forall_by_key, Forall_one_to_many.
    eapply Forall_impl; [done|]. by intros f [_ ?]. }
  exists (dict [
    ("id", of_int (User.id self));
    ("email", of_str (User.email self));
    ("first_name", of_str (User.first_name self));
    ("last_name", of_str (User.last_name self));
    ("subscription_date",
      from_option (λ d, VStr (isoformat d)) VNone
        (User.subscription_date self));
    ("is_active", of_bool (User.is_active self));
    ("favorite_planet_ids", VList (VInt <$> planet_ids));
    ("favorite_person_ids", VList (VInt <$> person_ids));
    ("favorite_vehicle_ids", VList (VInt <$> vehicle_ids))
  ]), planet_ids, person_ids, vehicle_ids.
  split; [by rewrite User_serialize_eq, Hp2, Hq2, Hv2|].
  split.
  { unfold dict; simpl. rewrite !dom_insert_L, dom_empty_L. set_solver. }
  repeat split; done.
Qed.

(** ** Creating a user *)


(** * The properties on the catalog *)

Lemma catalog_reachable : reachable sqlite_foreign_keys catalog.
Proof. apply execute_reachable. constructor. Qed.






(** [Planet.serialize()] of planet 1, the homeworld of people 1 and 2. *)
Lemma Planet_serialize_resident_ids_catalog :
  Planet.id tatooine_row = Some 1
  ∧ ∃ d resident_ids,
      Planet_serialize catalog tatooine_row = Ok d
      ∧ d !! "resident_ids" = Some (VList resident_ids)
      ∧ ∀ v, v ∈ resident_ids
             ↔ ∃ person, person ∈ people catalog
                         ∧ Person.homeworld_id person = Some 1
                         ∧ v = of_int (Person.id person).
Proof.
  split; [reflexivity|].
  apply (Planet_serialize_resident_ids catalog tatooine_row 1). reflexivity.
Defined.

(** Deleting user 1, who has four favorites. *)
Lemma delete_user_cascades_catalog :
  leia_row ∈ users catalog
  ∧ ∃ s',
      commit (delete_user sqlite_foreign_keys 1) catalog = (Ok (), s')
      ∧ (∀ f, f ∈ favorite_planets s'
              ↔ f ∈ favorite_planets catalog
                ∧ FavoritePlanet.user_id f ≠ Some 1)
      ∧ (∀ f, f ∈ favorite_people s'
              ↔ f ∈ favorite_people catalog
                ∧ FavoritePerson.user_id f ≠ Some 1)
      ∧ (∀ f, f ∈ favorite_vehicles s'
              ↔ f ∈ favorite_vehicles catalog
                ∧ FavoriteVehicle.user_id f ≠ Some 1)
      ∧ (∀ u', u' ∈ users s' ↔ u' ∈ users catalog ∧ User.id u' ≠ Some 1)
      ∧ planets s' = planets catalog
      ∧ people s' = people catalog
      ∧ vehicles s' = vehicles catalog.
Proof.
  assert (leia_row ∈ users catalog) as Hin by (vm_compute; left).
  split; [exact Hin|].
  apply (delete_user_cascades sqlite_foreign_keys catalog leia_row 1 Hin).
  reflexivity.
Defined.

(** The association tables of the catalog. *)
Lemma favorite_pair_at_most_once_catalog :
  (∀ f, f ∈ favorite_planets catalog →
        commit (add_favorite_planet sqlite_foreign_keys f) catalog
        = (Err (IntegrityError (PrimaryKey "favorite_planets")), catalog))
  ∧ NoDup ((λ f, (FavoritePlanet.user_id f, FavoritePlanet.planet_id f))
             <$> favorite_planets catalog)
  ∧ NoDup ((λ f, (FavoritePerson.user_id f, FavoritePerson.person_id f))
             <$> favorite_people catalog)
  ∧ NoDup ((λ f, (FavoriteVehicle.user_id f, FavoriteVehicle.vehicle_id f))
             <$> favorite_vehicles catalog).
Proof.
  apply (favorite_pair_at_most_once sqlite_foreign_keys catalog).
  apply catalog_reachable.
Defined.

(** Deleting planet 1, the homeworld of two people and a favorite of
    both users. *)
Lemma delete_planet_keeps_people_catalog :
  tatooine_row ∈ planets catalog
  ∧ ∃ s',
      commit (delete_planet sqlite 1) catalog = (Ok (), s')
      ∧ (∀ f, f ∈ favorite_planets s'
              ↔ f ∈ favorite_planets catalog
                ∧ FavoritePlanet.planet_id f ≠ Some 1)
      ∧ Person.id <$> people s' = Person.id <$> people catalog
      ∧ (∀ x, x ∈ people catalog → Person.homeworld_id x ≠ Some 1 →
              x ∈ people s')
      ∧ (∀ x, x ∈ people catalog → Person.homeworld_id x = Some 1 →
              Person_set_homeworld_id None x ∈ people s').
Proof.
  assert (tatooine_row ∈ planets catalog) as Hin by (vm_compute; left).
  split; [exact Hin|].
  apply (delete_planet_keeps_people sqlite catalog tatooine_row 1 Hin).
  reflexivity.
Defined.



(** [User.serialize()] of user 1 in the catalog. *)
Lemma User_serialize_contract_catalog :
  ∃ d planet_ids person_ids vehicle_ids,
    User_serialize catalog leia_row = Ok d
    ∧ dom d = {[ "id"; "email"; "first_name"; "last_name";
                 "subscription_date"; "is_active"; "favorite_planet_ids";
                 "favorite_person_ids"; "favorite_vehicle_ids" ]}
    ∧ d !! "id" = Some (of_int (User.id leia_row))
    ∧ d !! "email" = Some (of_str (User.email leia_row))
    ∧ d !! "first_name" = Some (of_str (User.first_name leia_row))
    ∧ d !! "last_name" = Some (of_str (User.last_name leia_row))
    ∧ d !! "subscription_date"
      = Some (match User.subscription_date leia_row with
              | Some date => VStr (isoformat date)
              | None => VNone
              end)
    ∧ d !! "is_active" = Some (of_bool (User.is_active leia_row))
    ∧ (d !! "favorite_planet_ids" = Some (VList (VInt <$> planet_ids))
       ∧ FavoritePlanet.planet_id <$> User_favorite_planets catalog leia_row
         = Some <$> planet_ids)
    ∧ (d !! "favorite_person_ids" = Some (VList (VInt <$> person_ids))
       ∧ FavoritePerson.person_id <$> User_favorite_people catalog leia_row
         = Some <$> person_ids)
    ∧ (d !! "favorite_vehicle_ids" = Some (VList (VInt <$> vehicle_ids))
       ∧ FavoriteVehicle.vehicle_id
           <$> User_favorite_vehicles catalog leia_row
         = Some <$> vehicle_ids).
Proof.
  apply (User_serialize_contract sqlite_foreign_keys catalog leia_row).
  apply catalog_reachable.
Defined.

(** [User.serialize()] of [leia] before she is added: no
    [subscription_date] yet. *)
Lemma User_serialize_without_subscription_date_leia :
  User.subscription_date leia = None
  ∧ ∃ d, User_serialize catalog leia = Ok d
         ∧ d !! "subscription_date" = Some VNone.
Proof.
  split; [reflexivity|].
  apply (User_serialize_without_subscription_date catalog leia). reflexivity.
Defined.

(** ** The model on the catalog *)

Example isoformat_aware :
  isoformat (mk_datetime 2024 5 4 12 0 0 0 (Some 0))
  = "2024-05-04T12:00:00+00:00".
Proof. vm_compute. reflexivity. Qed.

Example isoformat_naive_microsecond :
  isoformat (mk_datetime 1977 5 25 9 5 0 120 None)
  = "1977-05-25T09:05:00.000120".
Proof. vm_compute. reflexivity. Qed.

Example isoformat_negative_offset :
  isoformat (mk_datetime 1980 5 21 0 0 7 0 (Some (-19800000000)))
  = "1980-05-21T00:00:07-05:30".
Proof. vm_compute. reflexivity. Qed.

(** The favorites in the order of insertion, and those of user 1 as the
    store returns them: in the order of the index, planet 1 first. *)
Example catalog_favorite_planets :
  favorite_planets catalog
  = [FavoritePlanet.mk (Some 1) (Some 2);
     FavoritePlanet.mk (Some 1) (Some 1);
     FavoritePlanet.mk (Some 2) (Some 1)]
  ∧ User_favorite_planets catalog leia_row
    = [FavoritePlanet.mk (Some 1) (Some 1);
       FavoritePlanet.mk (Some 1) (Some 2)]
  ∧ Planet_favorited_by catalog tatooine_row
    = [FavoritePlanet.mk (Some 1) (Some 1);
       FavoritePlanet.mk (Some 2) (Some 1)].
Proof. vm_compute. repeat split; reflexivity. Qed.

Example User_serialize_leia_row :
  User_serialize catalog leia_row
  = Ok (dict [
      ("id", VInt 1);
      ("email", VStr "leia@rebellion.org");
      ("first_name", VNone);
      ("last_name", VNone);
      ("subscription_date", VStr "2024-05-04T12:00:00");
      ("is_active", VBool true);
      ("favorite_planet_ids", VList [VInt 1; VInt 2]);
      ("favorite_person_ids", VList [VInt 1]);
      ("favorite_vehicle_ids", VList [VInt 1])
    ]).
Proof. vm_compute. reflexivity. Qed.

Example Planet_serialize_tatooine_residents :
  (λ d, d !! "resident_ids") <$> Planet_serialize catalog tatooine_row
  = Ok (Some (VList [VInt 1; VInt 2])).
Proof. vm_compute. reflexivity. Qed.

(** After planet 1 is deleted its two residents are still there, without
    a homeworld, and only the favorite of planet 2 is left. *)
Example delete_tatooine :
  let s' := (commit (delete_planet sqlite_foreign_keys 1) catalog).2 in
  (λ p, (Person.id p, Person.name p, Person.homeworld_id p)) <$> people s'
  = [(Some 1, Some "Luke Skywalker", None);
     (Some 2, Some "Anakin Skywalker", None);
     (Some 3, Some "Bail Organa", Some 2)]
  ∧ favorite_planets s' = [FavoritePlanet.mk (Some 1) (Some 2)].
Proof. vm_compute. split; reflexivity. Qed.

(** After user 1 is deleted the favorites of user 2 are left. *)
Example delete_leia :
  let s' := (commit (delete_user sqlite 1) catalog).2 in
  favorite_planets s' = [FavoritePlanet.mk (Some 2) (Some 1)]
  ∧ favorite_people s' = [FavoritePerson.mk (Some 2) (Some 3)]
  ∧ favorite_vehicles s' = [].
Proof. vm_compute. repeat split; reflexivity. Qed.

(** A favorite of a planet that does not exist is refused where foreign
    keys are enforced, and accepted where they are not. *)
Example add_favorite_of_unknown_planet :
  (commit (add_favorite_planet sqlite_foreign_keys
             (FavoritePlanet.mk (Some 1) (Some 7))) catalog).1
  = Err (IntegrityError (ForeignKeyViolation "favorite_planets.planet_id"))
  ∧ (commit (add_favorite_planet sqlite (FavoritePlanet.mk (Some 1) (Some 7)))
       catalog).1
    = Ok (FavoritePlanet.mk (Some 1) (Some 7)).
Proof. vm_compute. split; reflexivity. Qed.

(** People stored with the ids 5 and 2, in that order, are read in the
    order of their ids. *)
Example residents_in_key_order :
  let s :=
    execute sqlite [AddPlanet tatooine; AddPerson (clone 5);
                    AddPerson (clone 2)] empty_store in
  people s = [clone 5; clone 2]
  ∧ Planet_residents s tatooine_row = [clone 2; clone 5]
  ∧ (λ d, d !! "resident_ids") <$> Planet_serialize s tatooine_row
    = Ok (Some (VList [VInt 2; VInt 5])).
Proof. vm_compute. repeat split; reflexivity. Qed.

(** An id of 64 bits is stored; the next integer is refused by the
    driver, before the store looks at the row. *)
Example add_person_overflow :
  (commit (add_person sqlite (clone (2 ^ 63 - 1))) catalog).1
  = Ok (clone (2 ^ 63 - 1))
  ∧ commit (add_person sqlite (clone (2 ^ 63))) catalog
    = (Err OverflowError, catalog)
  ∧ commit (add_person sqlite (clone (- 2 ^ 63 - 1))) catalog
    = (Err OverflowError, catalog).
Proof. vm_compute. repeat split; reflexivity. Qed.

(** The keys the store generates: 1, then the largest key plus one,
    also below zero; once the largest key is taken, what it draws, if
    that is a key no row has. *)
Example next_key_examples :
  next_key sqlite [] = Ok 1
  ∧ next_key sqlite [Some 3; Some 9; Some 4] = Ok 10
  ∧ next_key sqlite [Some (-5)] = Ok (-4)
  ∧ next_key (mk_Backend false (λ _, 2 ^ 62)) [Some 7; Some max_rowid]
    = Ok (2 ^ 62)
  ∧ next_key (mk_Backend false (λ _, 7)) [Some 7; Some max_rowid]
    = Err OperationalError.
Proof. vm_compute. repeat split; reflexivity. Qed.

(** * Further properties *)

(** ** The other [serialize] methods *)

Lemma of_str_inj : Inj (=) (=) of_str.
Proof. intros [?|] [?|] [=]; by subst. Qed.

Lemma of_int_inj : Inj (=) (=) of_int.
Proof. intros [?|] [?|] [=]; by subst. Qed.

(** X1: [Vehicle.serialize()] returns the twelve column attributes of the
    vehicle and nothing else: every entry is a scalar, and the result is
    the same in every store, so it holds no derived collection. *)
Theorem Vehicle_serialize_flat (s : Store) (self : Vehicle.t) :
  ∃ d, Vehicle_serialize s self = Ok d
       ∧ dom d = {[ "id"; "name"; "model"; "manufacturer"; "cost_in_credits";
                    "length"; "max_atmosphering_speed"; "crew"; "passengers";
                    "cargo_capacity"; "consumables"; "vehicle_class" ]}
       ∧ (∀ k v, d !! k = Some v → is_scalar v = true)
       ∧ (∀ s', Vehicle_serialize s' self = Ok d).
Proof.
  eexists. split; [reflexivity|].
  assert (∀ A (f : A → value) (o : option A),
            (∀ a, is_scalar (f a) = true) →
            is_scalar (from_option f VNone o) = true) as Hscalar.
  { intros A f [a|] Hf; [apply Hf | reflexivity]. }
  split; [|split; [|done]].
  - unfold dict; simpl. rewrite !dom_insert_L, dom_empty_L. set_solver.
  - intros k v. unfold dict; simpl. rewrite !lookup_insert.
    repeat case_decide; intros [= <-]; by apply Hscalar.
Qed.

Lemma serialize_lookup_eq (r1 r2 : result (gmap string value))
    (d1 d2 : gmap string value) (k : string) :
  r1 = Ok d1 → r2 = Ok d2 → r1 = r2 → d1 !! k = d2 !! k.
Proof. intros -> -> Heq. by simplify_eq. Qed.

(** Read the entry [key] of two equal serializations. *)
Ltac same_entry Hk key f x y :=
  let H := fresh in
  pose proof (Hk key) as H;
  change (Some (f x) = Some (f y)) in H;
  injection H as H; first [apply of_str_inj in H | apply of_int_inj in H];
  subst x.

Lemma Vehicle_serialize_inj (s1 s2 : Store) (v1 v2 : Vehicle.t) :
  Vehicle_serialize s1 v1 = Vehicle_serialize s2 v2 → v1 = v2.
Proof.
  intros Heq.
  destruct v1 as [i1 n1 m1 f1 c1 l1 a1 w1 p1 g1 o1 k1],
           v2 as [i2 n2 m2 f2 c2 l2 a2 w2 p2 g2 o2 k2].
  pose proof (λ k, serialize_lookup_eq _ _ _ _ k eq_refl eq_refl Heq) as Hk.
  same_entry Hk "id" of_int i1 i2.
  same_entry Hk "name" of_str n1 n2.
  same_entry Hk "model" of_str m1 m2.
  same_entry Hk "manufacturer" of_str f1 f2.
  same_entry Hk "cost_in_credits" of_str c1 c2.
  same_entry Hk "length" of_str l1 l2.
  same_entry Hk "max_atmosphering_speed" of_str a1 a2.
  same_entry Hk "crew" of_str w1 w2.
  same_entry Hk "passengers" of_str p1 p2.
  same_entry Hk "cargo_capacity" of_str g1 g2.
  same_entry Hk "consumables" of_str o1 o2.
  same_entry Hk "vehicle_class" of_str k1 k2.
  reflexivity.
Qed.

Lemma Person_serialize_inj (s1 s2 : Store) (p1 p2 : Person.t) :
  Person_serialize s1 p1 = Person_serialize s2 p2 → p1 = p2.
Proof.
  intros Heq.
  destruct p1 as [i1 n1 h1 m1 c1 k1 e1 b1 g1 w1],
           p2 as [i2 n2 h2 m2 c2 k2 e2 b2 g2 w2].
  pose proof (λ k, serialize_lookup_eq _ _ _ _ k eq_refl eq_refl Heq) as Hk.
  same_entry Hk "id" of_int i1 i2.
  same_entry Hk "name" of_str n1 n2.
  same_entry Hk "height" of_str h1 h2.
  same_entry Hk "mass" of_str m1 m2.
  same_entry Hk "hair_color" of_str c1 c2.
  same_entry Hk "skin_color" of_str k1 k2.
  same_entry Hk "eye_color" of_str e1 e2.
  same_entry Hk "birth_year" of_str b1 b2.
  same_entry Hk "gender" of_str g1 g2.
  same_entry Hk "homeworld_id" of_int w1 w2.
  reflexivity.
Qed.

Lemma Planet_serialize_inj (s1 s2 : Store) (p1 p2 : Planet.t) :
  Planet_serialize s1 p1 = Planet_serialize s2 p2 → p1 = p2.
Proof.
  intros Heq.
  destruct p1 as [i1 n1 d1 r1 o1 g1 q1 c1 t1 w1],
           p2 as [i2 n2 d2 r2 o2 g2 q2 c2 t2 w2].
  pose proof (λ k, serialize_lookup_eq _ _ _ _ k eq_refl eq_refl Heq) as Hk.
  same_entry Hk "id" of_int i1 i2.
  same_entry Hk "name" of_str n1 n2.
  same_entry Hk "diameter" of_str d1 d2.
  same_entry Hk "rotation_period" of_str r1 r2.
  same_entry Hk "orbital_period" of_str o1 o2.
  same_entry Hk "gravity" of_str g1 g2.
  same_entry Hk "population" of_str q1 q2.
  same_entry Hk "climate" of_str c1 c2.
  same_entry Hk "terrain" of_str t1 t2.
  same_entry Hk "surface_water" of_str w1 w2.
  reflexivity.
Qed.

(** X2: the serializations of [Planet], [Person] and [Vehicle] lose no
    column: two objects of the class with the same serialization have
    the same attributes. *)
Theorem entity_serialize_lossless (s1 s2 : Store) :
  (∀ p1 p2, Planet_serialize s1 p1 = Planet_serialize s2 p2 → p1 = p2)
  ∧ (∀ p1 p2, Person_serialize s1 p1 = Person_serialize s2 p2 → p1 = p2)
  ∧ (∀ v1 v2, Vehicle_serialize s1 v1 = Vehicle_serialize s2 v2 → v1 = v2).
Proof.
  split; [|split].
  - apply Planet_serialize_inj.
  - apply Person_serialize_inj.
  - apply Vehicle_serialize_inj.
Qed.

(** X3: the serialization of an association object has exactly the two
    keys of its class and determines the object: two objects with the
    same serialization are the same pair of keys. *)
Theorem association_serialize_lossless (s1 s2 : Store) :
  (∀ f1, ∃ d, FavoritePlanet_serialize s1 f1 = Ok d
              ∧ dom d = {[ "user_id"; "planet_id" ]}
              ∧ ∀ f2, FavoritePlanet_serialize s2 f2 = Ok d → f1 = f2)
  ∧ (∀ f1, ∃ d, FavoritePerson_serialize s1 f1 = Ok d
                ∧ dom d = {[ "user_id"; "person_id" ]}
                ∧ ∀ f2, FavoritePerson_serialize s2 f2 = Ok d → f1 = f2)
  ∧ (∀ f1, ∃ d, FavoriteVehicle_serialize s1 f1 = Ok d
                ∧ dom d = {[ "user_id"; "vehicle_id" ]}
                ∧ ∀ f2, FavoriteVehicle_serialize s2 f2 = Ok d → f1 = f2).
Proof.
  split; [|split]; intros [u1 e1]; eexists; (split; [reflexivity|]);
    (split; [unfold dict; simpl; rewrite !dom_insert_L, dom_empty_L;
             set_solver|]);
    intros [u2 e2] Heq;
    pose proof (λ k, serialize_lookup_eq _ _ _ _ k eq_refl eq_refl Heq) as Hk.
  - same_entry Hk "user_id" of_int u2 u1.
    same_entry Hk "planet_id" of_int e2 e1. reflexivity.
  - same_entry Hk "user_id" of_int u2 u1.
    same_entry Hk "person_id" of_int e2 e1. reflexivity.
  - same_entry Hk "user_id" of_int u2 u1.
    same_entry Hk "vehicle_id" of_int e2 e1. reflexivity.
Qed.

(** X4: [User.serialize()] does not depend on the password: two users
    that differ in nothing but [password] have the same serialization,
    so no entry is derived from it. *)
Theorem User_serialize_ignores_password (s : Store) (id : option Z)
    (email password1 password2 first_name last_name : option string)
    (subscription_date : option datetime) (is_active : option bool) :
  User_serialize s
    (User.mk id email password1 first_name last_name subscription_date
       is_active)
  = User_serialize s
      (User.mk id email password2 first_name last_name subscription_date
         is_active).
Proof. by rewrite !User_serialize_eq. Qed.

(** ** Tables under the constraints *)

Section key_ok.
Context {R A : Type} (get : R → option A).

Lemma key_ok_nil : key_ok get [].
Proof. split; constructor. Qed.

Lemma key_ok_snoc (rows : list R) (row : R) :
  is_Some (get row) → get row ∉ get <$> rows →
  key_ok get rows → key_ok get (rows ++ [row]).
Proof.
  intros Hsome Hnew [Hall Hnodup]. split.
  - apply Forall_app. split; [done|]. by apply Forall_singleton.
  - rewrite fmap_app. apply NoDup_app. split; [done|].
    split; [|apply NoDup_singleton].
    intros x Hx ->%list_elem_of_singleton. done.
Qed.

Lemma key_ok_filter (P : R → Prop) `{∀ x, Decision (P x)} (rows : list R) :
  key_ok get rows → key_ok get (filter P rows).
Proof.
  intros [Hall Hnodup]. split.
  - apply Forall_forall. intros x [_ Hx]%list_elem_of_filter.
    by eapply Forall_forall in Hall.
  - apply (sublist_NoDup (get <$> filter P rows) (get <$> rows)); [done|].
    apply fmap_sublist, sublist_filter.
Qed.

(** Rows with the same value in the column are the same row. *)
Lemma key_ok_inj (rows : list R) (r1 r2 : R) :
  key_ok get rows → r1 ∈ rows → r2 ∈ rows → get r1 = get r2 → r1 = r2.
Proof.
  intros [_ Hnodup]. induction rows as [|r rows IH]; [by intros ?%elem_of_nil|].
  rewrite fmap_cons in Hnodup. apply NoDup_cons in Hnodup as [Hr Hnodup].
  intros [->|H1]%elem_of_cons [->|H2]%elem_of_cons Heq; [done| | |by apply IH].
  - destruct Hr. rewrite Heq. by apply list_elem_of_fmap_2.
  - destruct Hr. rewrite <- Heq. by apply list_elem_of_fmap_2.
Qed.
End key_ok.

(** An UPDATE of the row with key [k]: the key column is as it was, and a
    unique column stays unique when the new value is the value of no
    other row. *)
Section replace.
Context {R : Type} (key : R → option Z) (k : Z) (row : R).

Lemma replace_row_key (rows : list R) :
  key row = Some k → key <$> replace_row key k row rows = key <$> rows.
Proof.
  intros Hrow. unfold replace_row. rewrite <- list_fmap_compose.
  apply list_fmap_ext. intros i r _. simpl. case_decide; congruence.
Qed.

Lemma replace_row_Forall (P : R → Prop) (rows : list R) :
  P row → Forall P rows → Forall P (replace_row key k row rows).
Proof.
  intros Hrow Hall. apply Forall_fmap. eapply Forall_impl; [done|].
  intros r Hr. simpl. by case_decide.
Qed.

Lemma replace_row_absent (rows : list R) :
  Some k ∉ key <$> rows → replace_row key k row rows = rows.
Proof.
  intros Hk. unfold replace_row. rewrite <- (list_fmap_id rows) at 2.
  apply list_fmap_ext. intros i r Hr%list_elem_of_lookup_2. simpl.
  case_decide as Hrk; [|done]. destruct Hk. rewrite <- Hrk.
  by apply list_elem_of_fmap_2.
Qed.

Lemma replace_row_key_ok {A : Type} (get : R → option A) (rows : list R) :
  NoDup (key <$> rows) →
  is_Some (get row) →
  get row ∉ get <$> filter (λ r, key r ≠ Some k) rows →
  key_ok get rows → key_ok get (replace_row key k row rows).
Proof.
  intros Hkeys Hsome Hnew [Hall Hnodup].
  split; [by apply replace_row_Forall|]. clear Hall.
  assert (∀ r, r ∈ rows → key r ≠ Some k → get r ≠ get row) as Hother.
  { intros r Hr Hrk Heq. apply Hnew. rewrite <- Heq.
    apply list_elem_of_fmap_2, list_elem_of_filter. done. }
  clear Hnew. induction rows as [|r rows IH]; [constructor|].
  rewrite fmap_cons in Hkeys. rewrite fmap_cons in Hnodup.
  apply NoDup_cons in Hkeys as [Hk Hkeys].
  apply NoDup_cons in Hnodup as [Hr Hnodup].
  unfold replace_row. rewrite !fmap_cons. fold (replace_row key k row rows).
  apply NoDup_cons. case_decide as Hrk.
  - rewrite Hrk in Hk. rewrite replace_row_absent by done. split; [|done].
    intros (r' & Heq & Hr')%list_elem_of_fmap.
    apply (Hother r'); [by right| |done].
    intros Hr'k. apply Hk. rewrite <- Hr'k. by apply list_elem_of_fmap_2.
  - split.
    + intros (x & Heq & [r' [-> Hr']]%list_elem_of_fmap)%list_elem_of_fmap.
      case_decide.
      * by apply (Hother r); [left| |].
      * apply Hr. rewrite Heq. by apply list_elem_of_fmap_2.
    + apply IH; [done..|]. intros r' Hr'. apply Hother. by right.
Qed.
End replace.

(** ** What a successful INSERT or UPDATE has checked *)

Lemma check_foreign_key_Ok (be : Backend) (c : sqlalchemy.Column)
    (name target : string) (v : option Z) (s : Store) (a : ()) :
  check_foreign_key be c name v s = Ok a →
  sqlalchemy.foreign_key_of c = Some target →
  enforces_foreign_keys be = true →
  v = None ∨ v ∈ referenced s target.
Proof.
  unfold check_foreign_key. intros Hcheck Hfk Hbe.
  rewrite Hfk, Hbe in Hcheck. simpl in Hcheck.
  case_bool_decide as Href; [done|].
  destruct v as [k|]; [|by left]. right.
  destruct (decide (Some k ∈ referenced s target)); [done|].
  destruct Href. split; [by eexists|done].
Qed.

(** Turn the checks that passed into facts about the row. *)
Ltac passed_checks :=
  repeat match goal with
         | H : check_column _ _ _ _ _ = Ok ?a |- _ =>
             destruct a; apply check_column_Ok in H;
             let H1 := fresh "Hnotnull" in
             let H2 := fresh "Hunique" in
             destruct H as [H1 H2];
             first [specialize (H1 eq_refl) | clear H1];
             first [specialize (H2 eq_refl); try specialize (H2 H1) | clear H2]
         | H : check_not_null _ _ _ = Ok ?a |- _ =>
             destruct a; apply check_not_null_Ok in H; [|reflexivity]
         | H : check_primary_key _ _ _ = Ok ?a |- _ =>
             destruct a; apply check_primary_key_Ok in H
         end.

Lemma add_user_Ok (be : Backend) (now : datetime) (u row : User.t)
    (s s' : Store) :
  add_user be now u s = Ok (row, s') →
  s' = mk_Store (users s ++ [row]) (planets s) (people s) (vehicles s)
         (favorite_planets s) (favorite_people s) (favorite_vehicles s)
  ∧ (is_Some (User.id row) ∧ User.id row ∉ User.id <$> users s)
  ∧ (is_Some (User.email row) ∧ User.email row ∉ User.email <$> users s)
  ∧ is_Some (User.password row)
  ∧ is_Some (User.is_active row).
Proof.
  unfold add_user. intros H. tx_cases H. injection H as <- <-.
  passed_checks. done.
Qed.

Lemma add_planet_Ok (be : Backend) (p row : Planet.t) (s s' : Store) :
  add_planet be p s = Ok (row, s') →
  s' = mk_Store (users s) (planets s ++ [row]) (people s) (vehicles s)
         (favorite_planets s) (favorite_people s) (favorite_vehicles s)
  ∧ (is_Some (Planet.id row) ∧ Planet.id row ∉ Planet.id <$> planets s)
  ∧ (is_Some (Planet.name row) ∧ Planet.name row ∉ Planet.name <$> planets s)
  ∧ row = Planet.mk (Planet.id row) (Planet.name p) (Planet.diameter p)
            (Planet.rotation_period p) (Planet.orbital_period p)
            (Planet.gravity p) (Planet.population p) (Planet.climate p)
            (Planet.terrain p) (Planet.surface_water p).
Proof.
  unfold add_planet. intros H. tx_cases H. injection H as <- <-.
  passed_checks. done.
Qed.

Lemma add_person_Ok (be : Backend) (p row : Person.t) (s s' : Store) :
  add_person be p s = Ok (row, s') →
  s' = mk_Store (users s) (planets s) (people s ++ [row]) (vehicles s)
         (favorite_planets s) (favorite_people s) (favorite_vehicles s)
  ∧ (is_Some (Person.id row) ∧ Person.id row ∉ Person.id <$> people s)
  ∧ is_Some (Person.name row)
  ∧ Person.homeworld_id row = Person.homeworld_id p
  ∧ (enforces_foreign_keys be = true →
     Person.homeworld_id row = None
     ∨ Person.homeworld_id row ∈ Planet.id <$> planets s).
Proof.
  unfold add_person. intros H. tx_cases H. injection H as <- <-.
  passed_checks. simpl. repeat split; try done.
  intros Hbe. by eapply (check_foreign_key_Ok _ _ _ "planets.id").
Qed.

Lemma add_vehicle_Ok (be : Backend) (v row : Vehicle.t) (s s' : Store) :
  add_vehicle be v s = Ok (row, s') →
  s' = mk_Store (users s) (planets s) (people s) (vehicles s ++ [row])
         (favorite_planets s) (favorite_people s) (favorite_vehicles s)
  ∧ (is_Some (Vehicle.id row) ∧ Vehicle.id row ∉ Vehicle.id <$> vehicles s)
  ∧ (is_Some (Vehicle.name row)
     ∧ Vehicle.name row ∉ Vehicle.name <$> vehicles s)
  ∧ is_Some (Vehicle.model row)
  ∧ is_Some (Vehicle.manufacturer row).
Proof.
  unfold add_vehicle. intros H. tx_cases H. injection H as <- <-.
  passed_checks. done.
Qed.

(** The row an UPDATE writes, and what was checked of it. *)
Lemma update_user_Ok (be : Backend) (uid : Z) (new : User.t) (s s' : Store) :
  update_user be uid new s = Ok ((), s') →
  let row := User.mk (Some uid) (User.email new) (User.password new)
               (User.first_name new) (User.last_name new)
               (naive <$> User.subscription_date new) (User.is_active new) in
  Some uid ∈ User.id <$> users s
  ∧ s' = mk_Store (replace_row User.id uid row (users s))
           (planets s) (people s) (vehicles s)
           (favorite_planets s) (favorite_people s) (favorite_vehicles s)
  ∧ (is_Some (User.email new)
     ∧ User.email new
       ∉ User.email <$> filter (λ u, User.id u ≠ Some uid) (users s))
  ∧ is_Some (User.password new)
  ∧ is_Some (User.is_active new)
  ∧ is_Some (User.subscription_date new).
Proof.
  unfold update_user. intros H. case_bool_decide; [|done].
  tx_cases H. injection H as <-. passed_checks.
  repeat split; try done. by apply fmap_is_Some in Hnotnull0.
Qed.

Lemma update_planet_Ok (be : Backend) (pid : Z) (new : Planet.t)
    (s s' : Store) :
  update_planet be pid new s = Ok ((), s') →
  let row := Planet.mk (Some pid) (Planet.name new) (Planet.diameter new)
               (Planet.rotation_period new) (Planet.orbital_period new)
               (Planet.gravity new) (Planet.population new)
               (Planet.climate new) (Planet.terrain new)
               (Planet.surface_water new) in
  Some pid ∈ Planet.id <$> planets s
  ∧ s' = mk_Store (users s) (replace_row Planet.id pid row (planets s))
           (people s) (vehicles s)
           (favorite_planets s) (favorite_people s) (favorite_vehicles s)
  ∧ (is_Some (Planet.name new)
     ∧ Planet.name new
       ∉ Planet.name <$> filter (λ p, Planet.id p ≠ Some pid) (planets s)).
Proof.
  unfold update_planet. intros H. case_bool_decide; [|done].
  tx_cases H. injection H as <-. passed_checks. done.
Qed.

Lemma update_person_Ok (be : Backend) (pid : Z) (new : Person.t)
    (s s' : Store) :
  update_person be pid new s = Ok ((), s') →
  let row := Person.mk (Some pid) (Person.name new) (Person.height new)
               (Person.mass new) (Person.hair_color new)
               (Person.skin_color new) (Person.eye_color new)
               (Person.birth_year new) (Person.gender new)
               (Person.homeworld_id new) in
  Some pid ∈ Person.id <$> people s
  ∧ s' = mk_Store (users s) (planets s)
           (replace_row Person.id pid row (people s)) (vehicles s)
           (favorite_planets s) (favorite_people s) (favorite_vehicles s)
  ∧ is_Some (Person.name new)
  ∧ (enforces_foreign_keys be = true →
     Person.homeworld_id new = None
     ∨ Person.homeworld_id new ∈ Planet.id <$> planets s).
Proof.
  unfold update_person. intros H. case_bool_decide; [|done].
  tx_cases H. injection H as <-. passed_checks.
  repeat split; try done.
  intros Hbe. by eapply (check_foreign_key_Ok _ _ _ "planets.id").
Qed.

Lemma update_vehicle_Ok (be : Backend) (vid : Z) (new : Vehicle.t)
    (s s' : Store) :
  update_vehicle be vid new s = Ok ((), s') →
  let row := Vehicle.mk (Some vid) (Vehicle.name new) (Vehicle.model new)
               (Vehicle.manufacturer new) (Vehicle.cost_in_credits new)
               (Vehicle.length new) (Vehicle.max_atmosphering_speed new)
               (Vehicle.crew new) (Vehicle.passengers new)
               (Vehicle.cargo_capacity new) (Vehicle.consumables new)
               (Vehicle.vehicle_class new) in
  Some vid ∈ Vehicle.id <$> vehicles s
  ∧ s' = mk_Store (users s) (planets s) (people s)
           (replace_row Vehicle.id vid row (vehicles s))
           (favorite_planets s) (favorite_people s) (favorite_vehicles s)
  ∧ (is_Some (Vehicle.name new)
     ∧ Vehicle.name new
       ∉ Vehicle.name <$> filter (λ v, Vehicle.id v ≠ Some vid) (vehicles s))
  ∧ is_Some (Vehicle.model new)
  ∧ is_Some (Vehicle.manufacturer new).
Proof.
  unfold update_vehicle. intros H. case_bool_decide; [|done].
  tx_cases H. injection H as <-. passed_checks. done.
Qed.

Lemma add_favorite_planet_references (be : Backend) (f row : FavoritePlanet.t)
    (s s' : Store) :
  add_favorite_planet be f s = Ok (row, s') →
  enforces_foreign_keys be = true →
  FavoritePlanet.user_id f ∈ User.id <$> users s
  ∧ FavoritePlanet.planet_id f ∈ Planet.id <$> planets s.
Proof.
  intros Hadd Hbe.
  destruct (add_favorite_planet_Ok _ _ _ _ _ Hadd)
    as (_ & [[u Hu] [p Hp]] & _ & _).
  unfold add_favorite_planet in Hadd.
  rewrite !generated_key_given in Hadd by reflexivity.
  tx_cases Hadd.
  repeat match goal with
         | H : check_foreign_key _ _ _ _ _ = Ok _ |- _ =>
             eapply check_foreign_key_Ok in H; [|reflexivity|done];
             destruct H as [H|H]; [simpl in H; congruence|]
         end.
  done.
Qed.

Lemma add_favorite_person_references (be : Backend) (f row : FavoritePerson.t)
    (s s' : Store) :
  add_favorite_person be f s = Ok (row, s') →
  enforces_foreign_keys be = true →
  FavoritePerson.user_id f ∈ User.id <$> users s
  ∧ FavoritePerson.person_id f ∈ Person.id <$> people s.
Proof.
  intros Hadd Hbe.
  destruct (add_favorite_person_Ok _ _ _ _ _ Hadd)
    as (_ & [[u Hu] [p Hp]] & _ & _).
  unfold add_favorite_person in Hadd.
  rewrite !generated_key_given in Hadd by reflexivity.
  tx_cases Hadd.
  repeat match goal with
         | H : check_foreign_key _ _ _ _ _ = Ok _ |- _ =>
             eapply check_foreign_key_Ok in H; [|reflexivity|done];
             destruct H as [H|H]; [simpl in H; congruence|]
         end.
  done.
Qed.

Lemma add_favorite_vehicle_references (be : Backend)
    (f row : FavoriteVehicle.t) (s s' : Store) :
  add_favorite_vehicle be f s = Ok (row, s') →
  enforces_foreign_keys be = true →
  FavoriteVehicle.user_id f ∈ User.id <$> users s
  ∧ FavoriteVehicle.vehicle_id f ∈ Vehicle.id <$> vehicles s.
Proof.
  intros Hadd Hbe.
  destruct (add_favorite_vehicle_Ok _ _ _ _ _ Hadd)
    as (_ & [[u Hu] [p Hp]] & _ & _).
  unfold add_favorite_vehicle in Hadd.
  rewrite !generated_key_given in Hadd by reflexivity.
  tx_cases Hadd.
  repeat match goal with
         | H : check_foreign_key _ _ _ _ _ = Ok _ |- _ =>
             eapply check_foreign_key_Ok in H; [|reflexivity|done];
             destruct H as [H|H]; [simpl in H; congruence|]
         end.
  done.
Qed.

(** ** The entity tables in reachable stores *)

Lemma key_ok_fmap {R A : Type} (get : R → option A) (f : R → R)
    (rows : list R) :
  (∀ r, get (f r) = get r) → key_ok get rows → key_ok get (f <$> rows).
Proof.
  intros Hf [Hall Hnodup]. split.
  - apply Forall_fmap. eapply Forall_impl; [done|]. intros r. simpl.
    by rewrite Hf.
  - rewrite <- list_fmap_compose.
    by rewrite (list_fmap_ext (get ∘ f) get rows) by (intros; apply Hf).
Qed.

Lemma key_ok_NoDup {R A : Type} (get : R → option A) (rows : list R) :
  key_ok get rows → NoDup (get <$> rows).
Proof. by intros [_ ?]. Qed.

Lemma replace_row_pk_ok {R : Type} (key : R → option Z) (k : Z) (row : R)
    (rows : list R) :
  key row = Some k → key_ok key rows → key_ok key (replace_row key k row rows).
Proof.
  intros Hrow [Hall Hnodup]. split.
  - apply replace_row_Forall; [by eexists|done].
  - by rewrite replace_row_key.
Qed.

Lemma run_entities_ok (be : Backend) (o : operation) (s s' : Store) :
  run be o s = Ok ((), s') → entities_ok s → entities_ok s'.
Proof.
  unfold entities_ok, users_ok, planets_ok, people_ok, vehicles_ok.
  intros Hrun ((Huid & Hemail & Huser) & (Hpid & Hpname)
               & (Hqid & Hqname) & (Hvid & Hvname & Hvehicle)).
  destruct o; simpl in Hrun; unfold void in Hrun.
  - destruct (add_user be now u s) as [[row s'']|] eqn:Hadd; [|done].
    injection Hrun as <-.
    apply add_user_Ok in Hadd as (-> & [] & [] & ? & ?). simpl.
    split_and!; try done; try (by apply key_ok_snoc);
      by apply Forall_snoc_intro.
  - destruct (add_planet be p s) as [[row s'']|] eqn:Hadd; [|done].
    injection Hrun as <-.
    apply add_planet_Ok in Hadd as (-> & [] & [] & _). simpl.
    split_and!; try done; by apply key_ok_snoc.
  - destruct (add_person be p s) as [[row s'']|] eqn:Hadd; [|done].
    injection Hrun as <-.
    apply add_person_Ok in Hadd as (-> & [] & ? & _). simpl.
    split_and!; try done; try (by apply key_ok_snoc);
      by apply Forall_snoc_intro.
  - destruct (add_vehicle be v s) as [[row s'']|] eqn:Hadd; [|done].
    injection Hrun as <-.
    apply add_vehicle_Ok in Hadd as (-> & [] & [] & ? & ?). simpl.
    split_and!; try done; try (by apply key_ok_snoc);
      by apply Forall_snoc_intro.
  - destruct (add_favorite_planet be f s) as [[row s'']|] eqn:Hadd; [|done].
    injection Hrun as <-.
    by apply add_favorite_planet_Ok in Hadd as (_ & _ & _ & ->).
  - destruct (add_favorite_person be f s) as [[row s'']|] eqn:Hadd; [|done].
    injection Hrun as <-.
    by apply add_favorite_person_Ok in Hadd as (_ & _ & _ & ->).
  - destruct (add_favorite_vehicle be f s) as [[row s'']|] eqn:Hadd; [|done].
    injection Hrun as <-.
    by apply add_favorite_vehicle_Ok in Hadd as (_ & _ & _ & ->).
  - apply update_user_Ok in Hrun as (_ & -> & [] & ? & ? & ?). simpl.
    split_and!; try done.
    + by apply replace_row_pk_ok.
    + by apply replace_row_key_ok; [apply key_ok_NoDup|..].
    + by apply replace_row_Forall.
  - apply update_planet_Ok in Hrun as (_ & -> & []). simpl.
    split_and!; try done.
    + by apply replace_row_pk_ok.
    + by apply replace_row_key_ok; [apply key_ok_NoDup|..].
  - apply update_person_Ok in Hrun as (_ & -> & ? & _). simpl.
    split_and!; try done.
    + by apply replace_row_pk_ok.
    + by apply replace_row_Forall.
  - apply update_vehicle_Ok in Hrun as (_ & -> & [] & ? & ?). simpl.
    split_and!; try done.
    + by apply replace_row_pk_ok.
    + by apply replace_row_key_ok; [apply key_ok_NoDup|..].
    + by apply replace_row_Forall.
  - rewrite delete_user_eq in Hrun. case_bool_decide; [|done].
    injection Hrun as <-. simpl.
    split_and!; try done; try (by apply key_ok_filter);
      by apply Forall_filter_weaken.
  - rewrite delete_planet_eq in Hrun. case_bool_decide; [|done].
    injection Hrun as <-. simpl.
    split_and!; try done; try (by apply key_ok_filter).
    + apply key_ok_fmap; [|done]. intros r. by case_decide.
    + apply Forall_fmap. eapply Forall_impl; [done|]. intros r. simpl.
      by case_decide.
  - rewrite delete_person_eq in Hrun. case_bool_decide; [|done].
    injection Hrun as <-. simpl.
    split_and!; try done; try (by apply key_ok_filter);
      by apply Forall_filter_weaken.
  - rewrite delete_vehicle_eq in Hrun. case_bool_decide; [|done].
    injection Hrun as <-. simpl.
    split_and!; try done; try (by apply key_ok_filter);
      by apply Forall_filter_weaken.
  - unfold delete_favorite_planet in Hrun. case_bool_decide; [|done].
    by injection Hrun as <-.
  - unfold delete_favorite_person in Hrun. case_bool_decide; [|done].
    by injection Hrun as <-.
  - unfold delete_favorite_vehicle in Hrun. case_bool_decide; [|done].
    by injection Hrun as <-.
Qed.

Lemma reachable_entities_ok (be : Backend) (s : Store) :
  reachable be s → entities_ok s.
Proof.
  induction 1 as [|s o _ IH].
  - unfold entities_ok, users_ok, planets_ok, people_ok, vehicles_ok. simpl.
    split_and!; first [apply key_ok_nil | constructor].
  - unfold commit. destruct (run be o s) as [[[] s']|] eqn:Hrun; [|done].
    simpl. by eapply run_entities_ok.
Qed.

(** ** Referential integrity where foreign keys are enforced *)

Lemma elem_of_fmap_filter_ne {R : Type} (get : R → option Z) (k : Z)
    (rows : list R) (x : option Z) :
  x ∈ get <$> rows → x ≠ Some k →
  x ∈ get <$> filter (λ r, get r ≠ Some k) rows.
Proof.
  intros (r & -> & Hr)%list_elem_of_fmap Hne.
  apply list_elem_of_fmap_2, list_elem_of_filter. done.
Qed.

Lemma elem_of_replace_row {R : Type} (key : R → option Z) (k : Z) (row : R)
    (rows : list R) (r : R) :
  r ∈ replace_row key k row rows → r = row ∨ r ∈ rows.
Proof.
  intros (r' & -> & Hr')%list_elem_of_fmap. case_decide; [by left|by right].
Qed.

Lemma elem_of_snoc_l {A : Type} (l : list A) (x y : A) :
  x ∈ l → x ∈ l ++ [y].
Proof. intros. apply elem_of_app. by left. Qed.

Lemma not_joins_Some (fk : option Z) (k : Z) :
  ¬ joins fk (Some k) ↔ fk ≠ Some k.
Proof. by rewrite joins_Some. Qed.

(** Integrity is kept when no key goes away and each row of a child
    table either was there or refers to keys that are there. *)
Lemma references_ok_mono (s s' : Store) :
  (∀ x, x ∈ User.id <$> users s → x ∈ User.id <$> users s') →
  (∀ x, x ∈ Planet.id <$> planets s → x ∈ Planet.id <$> planets s') →
  (∀ x, x ∈ Person.id <$> people s → x ∈ Person.id <$> people s') →
  (∀ x, x ∈ Vehicle.id <$> vehicles s → x ∈ Vehicle.id <$> vehicles s') →
  (∀ f, f ∈ favorite_planets s' →
        f ∈ favorite_planets s
        ∨ (FavoritePlanet.user_id f ∈ User.id <$> users s'
           ∧ FavoritePlanet.planet_id f ∈ Planet.id <$> planets s')) →
  (∀ f, f ∈ favorite_people s' →
        f ∈ favorite_people s
        ∨ (FavoritePerson.user_id f ∈ User.id <$> users s'
           ∧ FavoritePerson.person_id f ∈ Person.id <$> people s')) →
  (∀ f, f ∈ favorite_vehicles s' →
        f ∈ favorite_vehicles s
        ∨ (FavoriteVehicle.user_id f ∈ User.id <$> users s'
           ∧ FavoriteVehicle.vehicle_id f ∈ Vehicle.id <$> vehicles s')) →
  (∀ p, p ∈ people s' →
        p ∈ people s
        ∨ Person.homeworld_id p = None
        ∨ Person.homeworld_id p ∈ Planet.id <$> planets s') →
  references_ok s → references_ok s'.
Proof.
  intros Hu Hp Hq Hv Hfp Hfq Hfv Hhw (Hplanets & Hpeople & Hvehicles & Hhome).
  split_and!.
  - intros f [Hf|Hf]%Hfp; [|done]. destruct (Hplanets f Hf). auto.
  - intros f [Hf|Hf]%Hfq; [|done]. destruct (Hpeople f Hf). auto.
  - intros f [Hf|Hf]%Hfv; [|done]. destruct (Hvehicles f Hf). auto.
  - intros p [Hin|Hin]%Hhw; [|done]. destruct (Hhome p Hin); auto.
Qed.

Lemma run_references_ok (be : Backend) (o : operation) (s s' : Store) :
  enforces_foreign_keys be = true →
  run be o s = Ok ((), s') → references_ok s → references_ok s'.
Proof.
  intros Hbe Hrun Hs.
  destruct o; simpl in Hrun; unfold void in Hrun.
  - destruct (add_user be now u s) as [[row s'']|] eqn:Hadd; [|done].
    injection Hrun as <-. apply add_user_Ok in Hadd as (-> & _).
    apply (references_ok_mono s); simpl; auto.
    intros x. rewrite fmap_app. apply elem_of_snoc_l.
  - destruct (add_planet be p s) as [[row s'']|] eqn:Hadd; [|done].
    injection Hrun as <-. apply add_planet_Ok in Hadd as (-> & _).
    apply (references_ok_mono s); simpl; auto.
    intros x. rewrite fmap_app. apply elem_of_snoc_l.
  - destruct (add_person be p s) as [[row s'']|] eqn:Hadd; [|done].
    injection Hrun as <-.
    apply add_person_Ok in Hadd as (-> & _ & _ & _ & Hfk).
    apply (references_ok_mono s); simpl; auto.
    + intros x. rewrite fmap_app. apply elem_of_snoc_l.
    + intros q [?|Hq%list_elem_of_singleton]%elem_of_app; subst; auto.
  - destruct (add_vehicle be v s) as [[row s'']|] eqn:Hadd; [|done].
    injection Hrun as <-. apply add_vehicle_Ok in Hadd as (-> & _).
    apply (references_ok_mono s); simpl; auto.
    intros x. rewrite fmap_app. apply elem_of_snoc_l.
  - destruct (add_favorite_planet be f s) as [[row s'']|] eqn:Hadd; [|done].
    injection Hrun as <-.
    pose proof (add_favorite_planet_references _ _ _ _ _ Hadd Hbe).
    apply add_favorite_planet_Ok in Hadd as (_ & _ & _ & ->).
    apply (references_ok_mono s); simpl; auto.
    intros f' [?|Hf'%list_elem_of_singleton]%elem_of_app; subst; auto.
  - destruct (add_favorite_person be f s) as [[row s'']|] eqn:Hadd; [|done].
    injection Hrun as <-.
    pose proof (add_favorite_person_references _ _ _ _ _ Hadd Hbe).
    apply add_favorite_person_Ok in Hadd as (_ & _ & _ & ->).
    apply (references_ok_mono s); simpl; auto.
    intros f' [?|Hf'%list_elem_of_singleton]%elem_of_app; subst; auto.
  - destruct (add_favorite_vehicle be f s) as [[row s'']|] eqn:Hadd; [|done].
    injection Hrun as <-.
    pose proof (add_favorite_vehicle_references _ _ _ _ _ Hadd Hbe).
    apply add_favorite_vehicle_Ok in Hadd as (_ & _ & _ & ->).
    apply (references_ok_mono s); simpl; auto.
    intros f' [?|Hf'%list_elem_of_singleton]%elem_of_app; subst; auto.
  - apply update_user_Ok in Hrun as (_ & -> & _).
    apply (references_ok_mono s); simpl; auto.
    intros x. by rewrite replace_row_key.
  - apply update_planet_Ok in Hrun as (_ & -> & _).
    apply (references_ok_mono s); simpl; auto.
    intros x. by rewrite replace_row_key.
  - apply update_person_Ok in Hrun as (_ & -> & _ & Hfk).
    apply (references_ok_mono s); simpl; auto.
    + intros x. by rewrite replace_row_key.
    + intros q [->|?]%elem_of_replace_row; auto.
  - apply update_vehicle_Ok in Hrun as (_ & -> & _).
    apply (references_ok_mono s); simpl; auto.
    intros x. by rewrite replace_row_key.
  - rewrite delete_user_eq in Hrun. case_bool_decide; [|done].
    injection Hrun as <-.
    destruct Hs as (Hplanets & Hpeople & Hvehicles & Hhome).
    unfold references_ok. simpl. split_and!; [| | |done].
    + intros f [Hf Hne]%cascade_leaves_no_child.
      destruct (Hplanets f Hf). split; [|done].
      by apply elem_of_fmap_filter_ne.
    + intros f [Hf Hne]%cascade_leaves_no_child.
      destruct (Hpeople f Hf). split; [|done].
      by apply elem_of_fmap_filter_ne.
    + intros f [Hf Hne]%cascade_leaves_no_child.
      destruct (Hvehicles f Hf). split; [|done].
      by apply elem_of_fmap_filter_ne.
  - rewrite delete_planet_eq in Hrun. case_bool_decide; [|done].
    injection Hrun as <-.
    destruct Hs as (Hplanets & Hpeople & Hvehicles & Hhome).
    unfold references_ok. simpl. split_and!; [| |done|].
    + intros f [Hf Hne]%cascade_leaves_no_child.
      destruct (Hplanets f Hf). split; [done|].
      by apply elem_of_fmap_filter_ne.
    + intros f Hf. destruct (Hpeople f Hf) as [? Hq]. split; [done|].
      rewrite <- list_fmap_compose.
      rewrite (list_fmap_ext _ Person.id (people s)); [done|].
      intros i q _. simpl. by case_decide.
    + intros q (q' & -> & Hq')%list_elem_of_fmap.
      case_decide as Hjoin; [by left|].
      destruct (Hhome q' Hq') as [?|?]; [by left|right].
      apply elem_of_fmap_filter_ne; [done|]. by apply not_joins_Some.
  - rewrite delete_person_eq in Hrun. case_bool_decide; [|done].
    injection Hrun as <-.
    destruct Hs as (Hplanets & Hpeople & Hvehicles & Hhome).
    unfold references_ok. simpl. split_and!; [done| |done|].
    + intros f [Hf Hne]%cascade_leaves_no_child.
      destruct (Hpeople f Hf). split; [done|].
      by apply elem_of_fmap_filter_ne.
    + intros q [_ Hq]%list_elem_of_filter. auto.
  - rewrite delete_vehicle_eq in Hrun. case_bool_decide; [|done].
    injection Hrun as <-.
    destruct Hs as (Hplanets & Hpeople & Hvehicles & Hhome).
    unfold references_ok. simpl. split_and!; [done|done| |done].
    intros f [Hf Hne]%cascade_leaves_no_child.
    destruct (Hvehicles f Hf). split; [done|].
    by apply elem_of_fmap_filter_ne.
  - unfold delete_favorite_planet in Hrun. case_bool_decide; [|done].
    injection Hrun as <-. apply (references_ok_mono s); simpl; auto.
    intros f' [_ ?]%list_elem_of_filter. auto.
  - unfold delete_favorite_person in Hrun. case_bool_decide; [|done].
    injection Hrun as <-. apply (references_ok_mono s); simpl; auto.
    intros f' [_ ?]%list_elem_of_filter. auto.
  - unfold delete_favorite_vehicle in Hrun. case_bool_decide; [|done].
    injection Hrun as <-. apply (references_ok_mono s); simpl; auto.
    intros f' [_ ?]%list_elem_of_filter. auto.
Qed.

Lemma reachable_references_ok (be : Backend) (s : Store) :
  enforces_foreign_keys be = true → reachable be s → references_ok s.
Proof.
  intros Hbe. induction 1 as [|s o _ IH].
  - unfold references_ok. simpl. split_and!; by intros ? ?%elem_of_nil.
  - unfold commit. destruct (run be o s) as [[[] s']|] eqn:Hrun; [|done].
    simpl. by eapply run_references_ok.
Qed.

(** ** More of [serialize] and of the deletions *)

(** X5: for a planet of a reachable store, [Planet.serialize()] returns
    a dictionary with exactly the ten column keys and ["resident_ids"];
    each column entry is the attribute, and ["resident_ids"] is a list
    of integers, the ids of the residents in the order of the
    collection. *)
Theorem Planet_serialize_contract (be : Backend) (s : Store)
    (self : Planet.t) :
  reachable be s →
  ∃ d resident_ids,
    Planet_serialize s self = Ok d
    ∧ dom d = {[ "id"; "name"; "diameter"; "rotation_period";
                 "orbital_period"; "gravity"; "population"; "climate";
                 "terrain"; "surface_water"; "resident_ids" ]}
    ∧ d !! "id" = Some (of_int (Planet.id self))
    ∧ d !! "name" = Some (of_str (Planet.name self))
    ∧ d !! "diameter" = Some (of_str (Planet.diameter self))
    ∧ d !! "rotation_period" = Some (of_str (Planet.rotation_period self))
    ∧ d !! "orbital_period" = Some (of_str (Planet.orbital_period self))
    ∧ d !! "gravity" = Some (of_str (Planet.gravity self))
    ∧ d !! "population" = Some (of_str (Planet.population self))
    ∧ d !! "climate" = Some (of_str (Planet.climate self))
    ∧ d !! "terrain" = Some (of_str (Planet.terrain self))
    ∧ d !! "surface_water" = Some (of_str (Planet.surface_water self))
    ∧ d !! "resident_ids" = Some (VList (VInt <$> resident_ids))
    ∧ Person.id <$> Planet_residents s self = Some <$> resident_ids.
Proof.
  intros (_ & _ & ([Hids _] & _) & _)%reachable_entities_ok.
  destruct (keys_not_null Person.id (Planet_residents s self))
    as (resident_ids & Hr1 & Hr2).
  { by apply Forall_by_key, Forall_one_to_many. }
  exists (dict [
    ("id", of_int (Planet.id self));
    ("name", of_str (Planet.name self));
    ("diameter", of_str (Planet.diameter self));
    ("rotation_period", of_str (Planet.rotation_period self));
    ("orbital_period", of_str (Planet.orbital_period self));
    ("gravity", of_str (Planet.gravity self));
    ("population", of_str (Planet.population self));
    ("climate", of_str (Planet.climate self));
    ("terrain", of_str (Planet.terrain self));
    ("surface_water", of_str (Planet.surface_water self));
    ("resident_ids", VList (VInt <$> resident_ids))
  ]), resident_ids.
  split; [unfold Planet_serialize; by rewrite Hr2|].
  split.
  { unfold dict; simpl. rewrite !dom_insert_L, dom_empty_L. set_solver. }
  repeat split; done.
Qed.

(** X6: deleting a person of the store succeeds and removes the rows of
    [favorite_people] whose [person_id] is the key of the person, and no
    other row of any table but the person. *)
Theorem delete_person_cascades (be : Backend) (s : Store) (p : Person.t)
    (pid : Z) :
  p ∈ people s →
  Person.id p = Some pid →
  ∃ s',
    commit (delete_person be pid) s = (Ok (), s')
    ∧ (∀ f, f ∈ favorite_people s'
            ↔ f ∈ favorite_people s ∧ FavoritePerson.person_id f ≠ Some pid)
    ∧ (∀ p', p' ∈ people s' ↔ p' ∈ people s ∧ Person.id p' ≠ Some pid)
    ∧ users s' = users s
    ∧ planets s' = planets s
    ∧ vehicles s' = vehicles s
    ∧ favorite_planets s' = favorite_planets s
    ∧ favorite_vehicles s' = favorite_vehicles s.
Proof.
  intros Hin Hid. unfold commit. rewrite delete_person_eq.
  rewrite bool_decide_eq_true_2
    by (rewrite <- Hid; by apply list_elem_of_fmap_2).
  eexists. split; [reflexivity|]. simpl.
  split; [intros f; apply cascade_leaves_no_child|].
  split; [|done]. intros p'. rewrite list_elem_of_filter. tauto.
Qed.

(** X7: deleting a vehicle of the store succeeds and removes the rows of
    [favorite_vehicles] whose [vehicle_id] is the key of the vehicle,
    and no other row of any table but the vehicle. *)
Theorem delete_vehicle_cascades (be : Backend) (s : Store) (v : Vehicle.t)
    (vid : Z) :
  v ∈ vehicles s →
  Vehicle.id v = Some vid →
  ∃ s',
    commit (delete_vehicle be vid) s = (Ok (), s')
    ∧ (∀ f, f ∈ favorite_vehicles s'
            ↔ f ∈ favorite_vehicles s
              ∧ FavoriteVehicle.vehicle_id f ≠ Some vid)
    ∧ (∀ v', v' ∈ vehicles s' ↔ v' ∈ vehicles s ∧ Vehicle.id v' ≠ Some vid)
    ∧ users s' = users s
    ∧ planets s' = planets s
    ∧ people s' = people s
    ∧ favorite_planets s' = favorite_planets s
    ∧ favorite_people s' = favorite_people s.
Proof.
  intros Hin Hid. unfold commit. rewrite delete_vehicle_eq.
  rewrite bool_decide_eq_true_2
    by (rewrite <- Hid; by apply list_elem_of_fmap_2).
  eexists. split; [reflexivity|]. simpl.
  split; [intros f; apply cascade_leaves_no_child|].
  split; [|done]. intros v'. rewrite list_elem_of_filter. tauto.
Qed.

Lemma filter_ne_snoc {A : Type} `{EqDecision A} (l : list A) (x : A) :
  x ∉ l → filter (λ y, y ≠ x) (l ++ [x]) = l.
Proof.
  intros Hx. rewrite filter_app.
  rewrite (filter_singleton_False _ x l) by (intros Hne; by apply Hne).
  rewrite app_nil_r. induction l as [|y l IH]; [done|].
  apply not_elem_of_cons in Hx as [Hxy Hx].
  rewrite filter_cons_True by done. by rewrite IH.
Qed.

(** X8: a favorite that was added can be taken back: deleting the row
    that [session.add] has just inserted gives the store as it was
    before, for each of the three association classes.  (The
    relationships of an association to its user and its entity have no
    cascade, so nothing else is deleted.) *)
Theorem add_then_delete_favorite (be : Backend) (s : Store) :
  (∀ f row s1, commit (add_favorite_planet be f) s = (Ok row, s1) →
               commit (delete_favorite_planet be row) s1 = (Ok (), s))
  ∧ (∀ f row s1, commit (add_favorite_person be f) s = (Ok row, s1) →
                 commit (delete_favorite_person be row) s1 = (Ok (), s))
  ∧ (∀ f row s1, commit (add_favorite_vehicle be f) s = (Ok row, s1) →
                 commit (delete_favorite_vehicle be row) s1 = (Ok (), s)).
Proof.
  unfold commit. split; [|split]; intros f row s1 Hadd.
  - destruct (add_favorite_planet be f s) as [[row' s1']|] eqn:Hf; [|done].
    injection Hadd as -> ->.
    apply add_favorite_planet_Ok in Hf as (-> & _ & Hnew & ->).
    unfold delete_favorite_planet. simpl.
    rewrite bool_decide_eq_true_2
      by (apply elem_of_app; right; by apply list_elem_of_singleton).
    rewrite filter_ne_snoc by done. by destruct s.
  - destruct (add_favorite_person be f s) as [[row' s1']|] eqn:Hf; [|done].
    injection Hadd as -> ->.
    apply add_favorite_person_Ok in Hf as (-> & _ & Hnew & ->).
    unfold delete_favorite_person. simpl.
    rewrite bool_decide_eq_true_2
      by (apply elem_of_app; right; by apply list_elem_of_singleton).
    rewrite filter_ne_snoc by done. by destruct s.
  - destruct (add_favorite_vehicle be f s) as [[row' s1']|] eqn:Hf; [|done].
    injection Hadd as -> ->.
    apply add_favorite_vehicle_Ok in Hf as (-> & _ & Hnew & ->).
    unfold delete_favorite_vehicle. simpl.
    rewrite bool_decide_eq_true_2
      by (apply elem_of_app; right; by apply list_elem_of_singleton).
    rewrite filter_ne_snoc by done. by destruct s.
Qed.

(** ** Adding a favorite and reading it back *)

Lemma one_to_many_snoc {C : Type} (fk : C → option Z) (key : option Z)
    (rows : list C) (row : C) :
  one_to_many fk key (rows ++ [row])
  = one_to_many fk key rows ++ (if decide (joins (fk row) key) then [row] else []).
Proof.
  unfold one_to_many. rewrite filter_app. f_equal.
Qed.

Lemma sorted_keys {C : Type} (key : C → option Z) (rows : list C)
    (ids : list Z) :
  key <$> rows = Some <$> ids →
  StronglySorted (key_order key) rows → StronglySorted Z.le ids.
Proof.
  intros Hkeys Hsorted. revert ids Hkeys.
  induction Hsorted as [|x rows Hsorted IH Hx]; intros [|i ids] Hkeys;
    try done; [constructor|].
  rewrite !fmap_cons in Hkeys. injection Hkeys as Hi Hkeys.
  constructor; [by apply IH|].
  apply Forall_forall. intros j Hj.
  assert (Some j ∈ key <$> rows) as (y & Hy & Hin)%list_elem_of_fmap
    by (rewrite Hkeys; by apply list_elem_of_fmap_2).
  rewrite Forall_forall in Hx. specialize (Hx y Hin).
  unfold key_order in Hx. by rewrite Hi, <- Hy in Hx.
Qed.

Lemma sorted_NoDup_lt (ids : list Z) :
  StronglySorted Z.le ids → NoDup ids → Sorted Z.lt ids.
Proof.
  intros Hsorted Hnodup. apply StronglySorted_Sorted.
  induction Hsorted as [|i ids Hsorted IH Hi]; [constructor|].
  apply NoDup_cons in Hnodup as [Hnew Hnodup].
  constructor; [by apply IH|].
  rewrite Forall_forall in Hi. apply Forall_forall. intros j Hj.
  specialize (Hi j Hj). assert (i ≠ j) by (by intros ->). lia.
Qed.

(** The favorite planets of a user of a reachable store come with their
    ids in increasing order, none twice. *)
Lemma User_favorite_planets_sorted (be : Backend) (s : Store)
    (self : User.t) :
  reachable be s →
  ∃ ids : list Z,
    FavoritePlanet.planet_id <$> User_favorite_planets s self = Some <$> ids
    ∧ (λ fav, of_int (FavoritePlanet.planet_id fav))
        <$> User_favorite_planets s self = VInt <$> ids
    ∧ Sorted Z.lt ids.
Proof.
  intros ((Hkeys & Hnodup) & _)%reachable_favorites_ok.
  destruct (keys_not_null FavoritePlanet.planet_id
              (User_favorite_planets s self)) as (ids & Hids & Hvalues).
  { apply Forall_by_key, Forall_one_to_many.
    eapply Forall_impl; [done|]. by intros f [_ ?]. }
  exists ids. split; [done|]. split; [done|]. apply sorted_NoDup_lt.
  - eapply sorted_keys; [done|apply by_key_sorted].
  - apply (NoDup_fmap_1 Some). rewrite <- Hids.
    unfold User_favorite_planets, one_to_many.
    apply NoDup_fmap_2_strong.
    + intros [u1 p1] [u2 p2] [[_ Hu1] _]%elem_of_by_key%list_elem_of_filter
        [[_ Hu2] _]%elem_of_by_key%list_elem_of_filter Hp.
      simpl in *. congruence.
    + rewrite by_key_Permutation. by apply NoDup_filter.
Qed.

Lemma add_favorite_planet_reachable (be : Backend) (s s1 : Store)
    (f row : FavoritePlanet.t) :
  commit (add_favorite_planet be f) s = (Ok row, s1) →
  reachable be s → reachable be s1.
Proof.
  intros Hadd Hreach.
  assert (s1 = (commit (run be (AddFavoritePlanet f)) s).2) as ->;
    [|by constructor].
  unfold commit in *. simpl. unfold void.
  destruct (add_favorite_planet be f s) as [[row' s1']|]; [|done].
  by injection Hadd as _ ->.
Qed.

(** X9: in a reachable store, after a [FavoritePlanet] of a user and
    the planet [pid] is added, the ["favorite_planet_ids"] of
    [User.serialize()] for that user holds the ids it held and [pid], in
    increasing order as before, and every other entry is as it was; the
    serialization of a user with another key does not change. *)
Theorem add_favorite_planet_then_serialize (be : Backend) (s s1 : Store)
    (f row : FavoritePlanet.t) (self : User.t) :
  reachable be s →
  commit (add_favorite_planet be f) s = (Ok row, s1) →
  (User.id self = FavoritePlanet.user_id f →
   ∃ d d1 pid planet_ids planet_ids1,
     FavoritePlanet.planet_id f = Some pid
     ∧ User_serialize s self = Ok d
     ∧ User_serialize s1 self = Ok d1
     ∧ d !! "favorite_planet_ids" = Some (VList (VInt <$> planet_ids))
     ∧ d1 !! "favorite_planet_ids" = Some (VList (VInt <$> planet_ids1))
     ∧ Sorted Z.lt planet_ids
     ∧ Sorted Z.lt planet_ids1
     ∧ planet_ids1 ≡ₚ pid :: planet_ids
     ∧ ∀ k, k ≠ "favorite_planet_ids" → d1 !! k = d !! k)
  ∧ (User.id self ≠ FavoritePlanet.user_id f →
     User_serialize s1 self = User_serialize s self).
Proof.
  intros Hreach Hadd.
  pose proof (add_favorite_planet_reachable _ _ _ _ _ Hadd Hreach) as Hreach1.
  destruct (User_favorite_planets_sorted be s self Hreach)
    as (ids & Hids & Hvalues & Hsorted).
  destruct (User_favorite_planets_sorted be s1 self Hreach1)
    as (ids1 & Hids1 & Hvalues1 & Hsorted1).
  unfold commit in Hadd.
  destruct (add_favorite_planet be f s) as [[row' s1']|] eqn:Hf; [|done].
  injection Hadd as -> ->.
  apply add_favorite_planet_Ok in Hf as (-> & [Huser [pid Hpid]] & _ & ->).
  assert (one_to_many FavoritePlanet.user_id (User.id self)
            (favorite_planets s ++ [f])
          = one_to_many FavoritePlanet.user_id (User.id self)
              (favorite_planets s)
            ++ (if decide (User.id self = FavoritePlanet.user_id f)
                then [f] else [])) as Hcollection.
  { rewrite one_to_many_snoc. f_equal.
    destruct (decide (joins (FavoritePlanet.user_id f) (User.id self)))
      as [[_ Hfk]|Hnot],
      (decide (User.id self = FavoritePlanet.user_id f)) as [Hid|Hid];
      try done.
    destruct Hnot. split; [by rewrite Hid|done]. }
  unfold User_favorite_planets in Hids1, Hvalues1. simpl in Hids1, Hvalues1.
  rewrite Hcollection in Hids1, Hvalues1.
  split.
  - intros Hid. rewrite decide_True in Hids1, Hvalues1 by done.
    exists (dict [
      ("id", of_int (User.id self));
      ("email", of_str (User.email self));
      ("first_name", of_str (User.first_name self));
      ("last_name", of_str (User.last_name self));
      ("subscription_date",
        from_option (λ d, VStr (isoformat d)) VNone
          (User.subscription_date self));
      ("is_active", of_bool (User.is_active self));
      ("favorite_planet_ids", VList (VInt <$> ids));
      ("favorite_person_ids",
        VList ((λ fav, of_int (FavoritePerson.person_id fav))
                 <$> User_favorite_people s self));
      ("favorite_vehicle_ids",
        VList ((λ fav, of_int (FavoriteVehicle.vehicle_id fav))
                 <$> User_favorite_vehicles s self))
    ]), (dict [
      ("id", of_int (User.id self));
      ("email", of_str (User.email self));
      ("first_name", of_str (User.first_name self));
      ("last_name", of_str (User.last_name self));
      ("subscription_date",
        from_option (λ d, VStr (isoformat d)) VNone
          (User.subscription_date self));
      ("is_active", of_bool (User.is_active self));
      ("favorite_planet_ids", VList (VInt <$> ids1));
      ("favorite_person_ids",
        VList ((λ fav, of_int (FavoritePerson.person_id fav))
                 <$> User_favorite_people s self));
      ("favorite_vehicle_ids",
        VList ((λ fav, of_int (FavoriteVehicle.vehicle_id fav))
                 <$> User_favorite_vehicles s self))
    ]), pid, ids, ids1.
    split; [done|]. split; [by rewrite User_serialize_eq, Hvalues|].
    split.
    { rewrite User_serialize_eq. unfold User_favorite_planets at 1. simpl.
      by rewrite Hcollection, decide_True, Hvalues1 by done. }
    split; [reflexivity|]. split; [reflexivity|].
    split; [done|]. split; [done|]. split.
    + assert (∀ l : list Z, from_option id 0 <$> (Some <$> l) = l) as Hinv.
      { intros l. rewrite <- list_fmap_compose. apply list_fmap_id. }
      rewrite <- (Hinv ids1), <- (Hinv (pid :: ids)).
      apply fmap_Permutation.
      rewrite <- Hids1, fmap_cons, <- Hids, <- Hpid.
      unfold User_favorite_planets.
      rewrite !by_key_Permutation, fmap_app. simpl.
      by rewrite <- Permutation_cons_append.
    + intros k Hk. unfold dict; simpl. rewrite !lookup_insert.
      by repeat case_decide.
  - intros Hid. rewrite !User_serialize_eq.
    unfold User_favorite_planets at 1. simpl.
    by rewrite Hcollection, decide_False, app_nil_r by done.
Qed.

(** ** What holds of every reachable store *)

(** X10: in a reachable store no user has a NULL [id], [email],
    [password] or [is_active], and two rows of [users] with the same
    [id] or with the same [email] are the same row. *)
Theorem reachable_users (be : Backend) (s : Store) :
  reachable be s →
  (∀ u, u ∈ users s →
        is_Some (User.id u) ∧ is_Some (User.email u)
        ∧ is_Some (User.password u) ∧ is_Some (User.is_active u))
  ∧ (∀ u1 u2, u1 ∈ users s → u2 ∈ users s →
              User.id u1 = User.id u2 → u1 = u2)
  ∧ (∀ u1 u2, u1 ∈ users s → u2 ∈ users s →
              User.email u1 = User.email u2 → u1 = u2).
Proof.
  intros ((Hid & Hemail & Hrest) & _)%reachable_entities_ok.
  split_and!.
  - intros u Hu. destruct Hid as [Hid _], Hemail as [Hemail _].
    rewrite Forall_forall in Hid, Hemail, Hrest.
    destruct (Hrest u Hu). auto.
  - intros u1 u2. by apply key_ok_inj.
  - intros u1 u2. by apply key_ok_inj.
Qed.

(** X11: in a reachable store the rows of [planets] and of [vehicles]
    have an [id] and a [name], both held by no other row of the table,
    a vehicle has a [model] and a [manufacturer], and a person has an
    [id], held by no other person, and a [name]. *)
Theorem reachable_reference_entities (be : Backend) (s : Store) :
  reachable be s →
  ((∀ p, p ∈ planets s → is_Some (Planet.id p) ∧ is_Some (Planet.name p))
   ∧ (∀ p1 p2, p1 ∈ planets s → p2 ∈ planets s →
               Planet.id p1 = Planet.id p2 ∨ Planet.name p1 = Planet.name p2 →
               p1 = p2))
  ∧ ((∀ v, v ∈ vehicles s →
           is_Some (Vehicle.id v) ∧ is_Some (Vehicle.name v)
           ∧ is_Some (Vehicle.model v) ∧ is_Some (Vehicle.manufacturer v))
     ∧ (∀ v1 v2, v1 ∈ vehicles s → v2 ∈ vehicles s →
                 Vehicle.id v1 = Vehicle.id v2
                 ∨ Vehicle.name v1 = Vehicle.name v2 →
                 v1 = v2))
  ∧ ((∀ p, p ∈ people s → is_Some (Person.id p) ∧ is_Some (Person.name p))
     ∧ (∀ p1 p2, p1 ∈ people s → p2 ∈ people s →
                 Person.id p1 = Person.id p2 → p1 = p2)).
Proof.
  intros (_ & (Hpid & Hpname) & (Hqid & Hqname)
          & (Hvid & Hvname & Hvrest))%reachable_entities_ok.
  split_and!.
  - intros p Hp. destruct Hpid as [Hpid _], Hpname as [Hpname _].
    rewrite Forall_forall in Hpid, Hpname. auto.
  - intros p1 p2 H1 H2 [?|?];
      [by apply (key_ok_inj Planet.id (planets s))
      |by apply (key_ok_inj Planet.name (planets s))].
  - intros v Hv. destruct Hvid as [Hvid _], Hvname as [Hvname _].
    rewrite Forall_forall in Hvid, Hvname, Hvrest.
    destruct (Hvrest v Hv). auto.
  - intros v1 v2 H1 H2 [?|?];
      [by apply (key_ok_inj Vehicle.id (vehicles s))
      |by apply (key_ok_inj Vehicle.name (vehicles s))].
  - intros p Hp. destruct Hqid as [Hqid _].
    rewrite Forall_forall in Hqid, Hqname. auto.
  - intros p1 p2. by apply key_ok_inj.
Qed.

(** X12: where the store enforces foreign keys, every reachable store
    has referential integrity: the [user_id] of an association row is
    the key of a user and its other key is the key of a planet, a
    person or a vehicle, and the [homeworld_id] of a person is NULL or
    the key of a planet. *)
Theorem reachable_references (be : Backend) (s : Store) :
  enforces_foreign_keys be = true →
  reachable be s →
  (∀ f, f ∈ favorite_planets s →
        (∃ u, u ∈ users s ∧ User.id u = FavoritePlanet.user_id f)
        ∧ ∃ p, p ∈ planets s ∧ Planet.id p = FavoritePlanet.planet_id f)
  ∧ (∀ f, f ∈ favorite_people s →
          (∃ u, u ∈ users s ∧ User.id u = FavoritePerson.user_id f)
          ∧ ∃ p, p ∈ people s ∧ Person.id p = FavoritePerson.person_id f)
  ∧ (∀ f, f ∈ favorite_vehicles s →
          (∃ u, u ∈ users s ∧ User.id u = FavoriteVehicle.user_id f)
          ∧ ∃ v, v ∈ vehicles s
                 ∧ Vehicle.id v = FavoriteVehicle.vehicle_id f)
  ∧ (∀ q, q ∈ people s →
          Person.homeworld_id q = None
          ∨ ∃ p, p ∈ planets s ∧ Planet.id p = Person.homeworld_id q).
Proof.
  intros Hbe Hs.
  destruct (reachable_references_ok be s Hbe Hs)
    as (Hplanets & Hpeople & Hvehicles & Hhome).
  assert (∀ R (get : R → option Z) (rows : list R) x,
            x ∈ get <$> rows → ∃ r, r ∈ rows ∧ get r = x) as Hrow.
  { intros R get rows x (r & -> & Hr)%list_elem_of_fmap. eauto. }
  split_and!.
  - intros f [??]%Hplanets. auto.
  - intros f [??]%Hpeople. auto.
  - intros f [??]%Hvehicles. auto.
  - intros q [?|?]%Hhome; auto.
Qed.

(** ** A new user, and a resident after its planet is gone *)

Lemma filter_none {A : Type} (P : A → Prop) `{∀ x, Decision (P x)}
    (l : list A) :
  (∀ x, x ∈ l → ¬ P x) → filter P l = [].
Proof.
  intros Hnone. induction l as [|x l IH]; [done|].
  rewrite filter_cons_False by (apply Hnone; by left).
  apply IH. intros y Hy. apply Hnone. by right.
Qed.

Lemma one_to_many_fresh {C : Type} (fk : C → option Z) (key : option Z)
    (rows : list C) (keys : list (option Z)) :
  (∀ c, c ∈ rows → fk c ∈ keys) → key ∉ keys → one_to_many fk key rows = [].
Proof.
  intros Href Hfresh. apply filter_none. intros c Hc [_ Hfk].
  apply Hfresh. rewrite <- Hfk. by apply Href.
Qed.

(** X13: where foreign keys are enforced, a user created in a reachable
    store starts without favorites: the three lists of its
    serialization are empty.  Its [is_active] is the value given, [True]
    when none was given.  Its [subscription_date] is the value given
    without its offset from UTC, and when none was given the clock of
    the store, to the second; it is naive in both cases. *)
Theorem new_user_serialize (be : Backend) (now : datetime) (s s1 : Store)
    (u row : User.t) :
  enforces_foreign_keys be = true →
  reachable be s →
  commit (add_user be now u) s = (Ok row, s1) →
  User.is_active row = Some (default true (User.is_active u))
  ∧ User.subscription_date row
    = Some (from_option naive (current_timestamp now)
              (User.subscription_date u))
  ∧ (∃ date, User.subscription_date row = Some date ∧ utcoffset date = None)
  ∧ ∃ d, User_serialize s1 row = Ok d
         ∧ d !! "favorite_planet_ids" = Some (VList [])
         ∧ d !! "favorite_person_ids" = Some (VList [])
         ∧ d !! "favorite_vehicle_ids" = Some (VList []).
Proof.
  intros Hbe Hs Hadd. unfold commit in Hadd.
  destruct (add_user be now u s) as [[row' s1']|] eqn:Hu; [|done].
  injection Hadd as -> ->.
  destruct (reachable_references_ok be s Hbe Hs)
    as (Hplanets & Hpeople & Hvehicles & _).
  pose proof (add_user_Ok _ _ _ _ _ _ Hu) as (-> & [_ Hnew] & _).
  assert (User.is_active row = Some (default true (User.is_active u))
          ∧ User.subscription_date row
            = Some (from_option naive (current_timestamp now)
                      (User.subscription_date u))) as [Hactive Hdate].
  { unfold add_user in Hu. tx_cases Hu. injection Hu as <-. simpl.
    by destruct (User.is_active u), (User.subscription_date u). }
  split; [done|]. split; [done|].
  split.
  { eexists. split; [done|]. by destruct (User.subscription_date u). }
  eexists. split; [apply User_serialize_eq|].
  unfold User_favorite_planets, User_favorite_people, User_favorite_vehicles.
  simpl.
  rewrite (one_to_many_fresh FavoritePlanet.user_id _ _ (User.id <$> users s))
    by (done || by intros f [? _]%Hplanets).
  rewrite (one_to_many_fresh FavoritePerson.user_id _ _ (User.id <$> users s))
    by (done || by intros f [? _]%Hpeople).
  rewrite (one_to_many_fresh FavoriteVehicle.user_id _ _ (User.id <$> users s))
    by (done || by intros f [? _]%Hvehicles).
  done.
Qed.

(** X14: after its homeworld is deleted a resident is still in [people],
    and its serialization is what it was with ["homeworld_id"] set to
    [None]. *)
Theorem delete_planet_then_serialize_resident (be : Backend) (s : Store)
    (p : Planet.t) (q : Person.t) (pid : Z) :
  p ∈ planets s →
  Planet.id p = Some pid →
  q ∈ people s →
  Person.homeworld_id q = Some pid →
  ∃ s' q' d d',
    commit (delete_planet be pid) s = (Ok (), s')
    ∧ q' ∈ people s'
    ∧ Person_serialize s q = Ok d
    ∧ Person_serialize s' q' = Ok d'
    ∧ d' !! "homeworld_id" = Some VNone
    ∧ ∀ k, k ≠ "homeworld_id" → d' !! k = d !! k.
Proof.
  intros Hp Hpid Hq Hhome. unfold commit. rewrite delete_planet_eq.
  rewrite bool_decide_eq_true_2
    by (rewrite <- Hpid; by apply list_elem_of_fmap_2).
  exists (mk_Store (users s)
            (filter (λ p, Planet.id p ≠ Some pid) (planets s))
            ((λ c, if decide (joins (Person.homeworld_id c) (Some pid))
                   then Person_set_homeworld_id None c else c)
               <$> people s)
            (vehicles s)
            (filter (λ f, ¬ joins (FavoritePlanet.planet_id f) (Some pid))
               (favorite_planets s))
            (favorite_people s) (favorite_vehicles s)),
    (Person_set_homeworld_id None q).
  do 2 eexists. split; [reflexivity|]. simpl.
  split.
  { apply list_elem_of_fmap. exists q. split; [|done].
    rewrite decide_True; [done|]. by apply joins_Some. }
  split; [reflexivity|]. split; [reflexivity|]. split; [reflexivity|].
  intros k Hk. unfold dict; simpl. rewrite !lookup_insert.
  by repeat case_decide.
Qed.

(** ** What the store refuses *)

(** The integers of [H : tx s = Err e] are bound. *)
Ltac bound H :=
  repeat match goal with
         | Hb : binds ?v |- _ =>
             match type of H with
             | context [check_integer v] =>
                 rewrite (proj2 (check_integer_Ok v) Hb) in H; simpl in H
             end
         end.




Lemma add_favorite_planet_Err (be : Backend) (f : FavoritePlanet.t)
    (s : Store) (e : error) :
  add_favorite_planet be f s = Err e →
  binds (FavoritePlanet.user_id f) →
  binds (FavoritePlanet.planet_id f) →
  ∃ c, e = IntegrityError c.
Proof.
  unfold add_favorite_planet. intros H Hu Hp. bound H.
  rewrite !generated_key_given in H by reflexivity. simpl in H.
  integrity_error H.
Qed.

Lemma add_favorite_person_Err (be : Backend) (f : FavoritePerson.t)
    (s : Store) (e : error) :
  add_favorite_person be f s = Err e →
  binds (FavoritePerson.user_id f) →
  binds (FavoritePerson.person_id f) →
  ∃ c, e = IntegrityError c.
Proof.
  unfold add_favorite_person. intros H Hu Hp. bound H.
  rewrite !generated_key_given in H by reflexivity. simpl in H.
  integrity_error H.
Qed.

Lemma add_favorite_vehicle_Err (be : Backend) (f : FavoriteVehicle.t)
    (s : Store) (e : error) :
  add_favorite_vehicle be f s = Err e →
  binds (FavoriteVehicle.user_id f) →
  binds (FavoriteVehicle.vehicle_id f) →
  ∃ c, e = IntegrityError c.
Proof.
  unfold add_favorite_vehicle. intros H Hu Hv. bound H.
  rewrite !generated_key_given in H by reflexivity. simpl in H.
  integrity_error H.
Qed.

(** The driver refuses a key that is no integer of 64 bits. *)
Lemma check_integer_overflow (v : option Z) :
  ¬ binds v → check_integer v = Err OverflowError.
Proof.
  intros Hv. destruct (check_integer v) as [[]|e] eqn:Hcheck.
  - by apply check_integer_Ok in Hcheck.
  - by apply check_integer_Err in Hcheck as ->.
Qed.



(** X16: a favorite whose keys are integers of 64 bits or [None], of a
    user or of a planet, person or vehicle that the store does not hold,
    is refused with a constraint violation where foreign keys are
    enforced, and the store stays as it was.  A favorite with a key that
    is no integer of 64 bits is refused by the driver, whatever the
    store holds. *)
Theorem add_favorite_unknown_reference (be : Backend) (s : Store) :
  (enforces_foreign_keys be = true →
   (∀ f, binds (FavoritePlanet.user_id f) →
         binds (FavoritePlanet.planet_id f) →
         FavoritePlanet.user_id f ∉ User.id <$> users s
         ∨ FavoritePlanet.planet_id f ∉ Planet.id <$> planets s →
         ∃ c, commit (add_favorite_planet be f) s
              = (Err (IntegrityError c), s))
   ∧ (∀ f, binds (FavoritePerson.user_id f) →
           binds (FavoritePerson.person_id f) →
           FavoritePerson.user_id f ∉ User.id <$> users s
           ∨ FavoritePerson.person_id f ∉ Person.id <$> people s →
           ∃ c, commit (add_favorite_person be f) s
                = (Err (IntegrityError c), s))
   ∧ (∀ f, binds (FavoriteVehicle.user_id f) →
           binds (FavoriteVehicle.vehicle_id f) →
           FavoriteVehicle.user_id f ∉ User.id <$> users s
           ∨ FavoriteVehicle.vehicle_id f ∉ Vehicle.id <$> vehicles s →
           ∃ c, commit (add_favorite_vehicle be f) s
                = (Err (IntegrityError c), s)))
  ∧ (∀ f, ¬ binds (FavoritePlanet.user_id f)
          ∨ ¬ binds (FavoritePlanet.planet_id f) →
          commit (add_favorite_planet be f) s = (Err OverflowError, s))
  ∧ (∀ f, ¬ binds (FavoritePerson.user_id f)
          ∨ ¬ binds (FavoritePerson.person_id f) →
          commit (add_favorite_person be f) s = (Err OverflowError, s))
  ∧ (∀ f, ¬ binds (FavoriteVehicle.user_id f)
          ∨ ¬ binds (FavoriteVehicle.vehicle_id f) →
          commit (add_favorite_vehicle be f) s = (Err OverflowError, s)).
Proof.
  unfold commit. split_and!.
  - intros Hbe. split_and!; intros f Hu Hp Hmissing.
    + destruct (add_favorite_planet be f s) as [[row s']|e] eqn:Hadd.
      * destruct (add_favorite_planet_references _ _ _ _ _ Hadd Hbe).
        by destruct Hmissing.
      * apply add_favorite_planet_Err in Hadd as [c ->]; eauto.
    + destruct (add_favorite_person be f s) as [[row s']|e] eqn:Hadd.
      * destruct (add_favorite_person_references _ _ _ _ _ Hadd Hbe).
        by destruct Hmissing.
      * apply add_favorite_person_Err in Hadd as [c ->]; eauto.
    + destruct (add_favorite_vehicle be f s) as [[row s']|e] eqn:Hadd.
      * destruct (add_favorite_vehicle_references _ _ _ _ _ Hadd Hbe).
        by destruct Hmissing.
      * apply add_favorite_vehicle_Err in Hadd as [c ->]; eauto.
  - intros f Hover. unfold add_favorite_planet.
    destruct (check_integer (FavoritePlanet.user_id f)) as [[]|e] eqn:Hu.
    + apply check_integer_Ok in Hu. destruct Hover as [?|Hp]; [done|].
      by rewrite (check_integer_overflow _ Hp).
    + by apply check_integer_Err in Hu as ->.
  - intros f Hover. unfold add_favorite_person.
    destruct (check_integer (FavoritePerson.user_id f)) as [[]|e] eqn:Hu.
    + apply check_integer_Ok in Hu. destruct Hover as [?|Hp]; [done|].
      by rewrite (check_integer_overflow _ Hp).
    + by apply check_integer_Err in Hu as ->.
  - intros f Hover. unfold add_favorite_vehicle.
    destruct (check_integer (FavoriteVehicle.user_id f)) as [[]|e] eqn:Hu.
    + apply check_integer_Ok in Hu. destruct Hover as [?|Hp]; [done|].
      by rewrite (check_integer_overflow _ Hp).
    + by apply check_integer_Err in Hu as ->.
Qed.


(** ** [__repr__] *)

Lemma chars_app (a b : string) :
  String.list_ascii_of_string (a +:+ b)
  = String.list_ascii_of_string a ++ String.list_ascii_of_string b.
Proof. induction a as [|c a IH]; simpl; [done|]. by rewrite IH. Qed.

Lemma chars_inj (a b : string) :
  String.list_ascii_of_string a = String.list_ascii_of_string b → a = b.
Proof.
  intros Heq. rewrite <- (String.string_of_list_ascii_of_string a),
    <- (String.string_of_list_ascii_of_string b). by rewrite Heq.
Qed.

Lemma string_app_inv_tail (a b c : string) : a +:+ c = b +:+ c → a = b.
Proof.
  intros Heq%(f_equal String.list_ascii_of_string). rewrite !chars_app in Heq.
  by apply app_inv_tail, chars_inj in Heq.
Qed.

(** [f'<Class {x}>'] tells the values of [x] apart. *)
Lemma repr_inj (prefix a b : string) :
  prefix +:+ a +:+ ">" = prefix +:+ b +:+ ">" → a = b.
Proof. by intros Heq%(inj (String.app prefix))%string_app_inv_tail. Qed.

(** X18: in a reachable store [__repr__] tells the rows of [users], of
    [planets] and of [vehicles] apart: two rows of the table with the
    same representation are the same row (the email of a user and the
    name of a planet or a vehicle are unique and not NULL). *)
Theorem repr_identifies_row (be : Backend) (s : Store) :
  reachable be s →
  (∀ u1 u2, u1 ∈ users s → u2 ∈ users s →
            User_repr u1 = User_repr u2 → u1 = u2)
  ∧ (∀ p1 p2, p1 ∈ planets s → p2 ∈ planets s →
              Planet_repr p1 = Planet_repr p2 → p1 = p2)
  ∧ (∀ v1 v2, v1 ∈ vehicles s → v2 ∈ vehicles s →
              Vehicle_repr v1 = Vehicle_repr v2 → v1 = v2).
Proof.
  intros ((_ & Hemail & _) & (_ & Hpname) & _
          & (_ & Hvname & _))%reachable_entities_ok.
  assert (∀ R (get : R → option string) (rows : list R) r1 r2,
            key_ok get rows → r1 ∈ rows → r2 ∈ rows →
            str_of_str (get r1) = str_of_str (get r2) → r1 = r2) as Hkey.
  { intros R get rows r1 r2 Hok H1 H2 Heq.
    apply (key_ok_inj get rows); [done..|].
    destruct Hok as [Hall _]. rewrite Forall_forall in Hall.
    destruct (Hall r1 H1) as [x1 Hx1], (Hall r2 H2) as [x2 Hx2].
    rewrite Hx1, Hx2 in *. simpl in Heq. by subst. }
  split_and!.
  - intros u1 u2 H1 H2 Heq%repr_inj. by apply (Hkey _ User.email (users s)).
  - intros p1 p2 H1 H2 Heq%repr_inj. by apply (Hkey _ Planet.name (planets s)).
  - intros v1 v2 H1 H2 Heq%repr_inj.
    by apply (Hkey _ Vehicle.name (vehicles s)).
Qed.

Lemma pretty_N_go_plain (x : N) (s : string) :
  Forall plain (String.list_ascii_of_string s) →
  Forall plain (String.list_ascii_of_string (pretty_N_go x s)).
Proof.
  revert s. induction (N.lt_wf_0 x) as [x _ IH]; intros s Hs.
  assert (x = 0 ∨ 0 < x)%N as [->|?] by lia.
  - by rewrite pretty_N_go_0.
  - rewrite pretty_N_go_step by done. apply IH; [by apply N.div_lt|].
    simpl. constructor; [|done].
    unfold pretty_N_char. by repeat case_match.
Qed.

Lemma pretty_Z_plain (z : Z) : Forall plain (String.list_ascii_of_string (pretty z)).
Proof.
  assert (∀ x : N, Forall plain (String.list_ascii_of_string (pretty x))) as HN.
  { intros x. unfold pretty, pretty_N. case_decide.
    - by repeat constructor.
    - apply pretty_N_go_plain. constructor. }
  destruct z as [|p|p]; unfold pretty, pretty_Z.
  - by repeat constructor.
  - apply HN.
  - simpl. constructor; [done|]. apply HN.
Qed.

Lemma str_of_int_plain (o : option Z) :
  Forall (λ c, c ≠ " "%char) (String.list_ascii_of_string (str_of_int o)).
Proof.
  destruct o as [z|]; simpl; [|by repeat constructor].
  eapply Forall_impl; [apply pretty_Z_plain|]. by intros c [? _].
Qed.

Lemma str_of_int_inj : Inj (=) (=) str_of_int.
Proof.
  intros [z1|] [z2|] Heq; simpl in Heq; [|exfalso..|done].
  - by apply (inj pretty) in Heq as ->.
  - pose proof (pretty_Z_plain z1) as Hplain. rewrite Heq in Hplain.
    apply Forall_cons in Hplain as [[_ HN] _]. done.
  - pose proof (pretty_Z_plain z2) as Hplain. rewrite <- Heq in Hplain.
    apply Forall_cons in Hplain as [[_ HN] _]. done.
Qed.

(** Two texts without a space, each followed by a space: the first space
    tells where the first text ends. *)
Lemma split_at_space (l1 l2 r1 r2 : list ascii) :
  Forall (λ c, c ≠ " "%char) l1 → Forall (λ c, c ≠ " "%char) l2 →
  l1 ++ " "%char :: r1 = l2 ++ " "%char :: r2 → l1 = l2 ∧ r1 = r2.
Proof.
  intros H1. revert l2. induction H1 as [|c l1 Hc H1 IH]; intros l2 H2 Heq.
  - destruct H2 as [|c' l2 Hc' H2]; simpl in Heq; [by simplify_eq|].
    by simplify_eq.
  - destruct H2 as [|c' l2 Hc' H2]; simpl in Heq; [by simplify_eq|].
    injection Heq as -> Heq. by destruct (IH l2 H2 Heq) as [-> ->].
Qed.

Lemma association_repr_inj (prefix middle : string) (u1 u2 e1 e2 : option Z) :
  prefix +:+ str_of_int u1 +:+ " " +:+ middle +:+ str_of_int e1 +:+ ">"
  = prefix +:+ str_of_int u2 +:+ " " +:+ middle +:+ str_of_int e2 +:+ ">" →
  u1 = u2 ∧ e1 = e2.
Proof.
  intros Heq%(inj (String.app prefix))%(f_equal String.list_ascii_of_string).
  rewrite !chars_app in Heq. simpl in Heq.
  apply split_at_space in Heq as [Hu He]; [|apply str_of_int_plain..].
  apply chars_inj, str_of_int_inj in Hu as ->. split; [done|].
  apply app_inv_head, app_inv_tail, chars_inj in He.
  by apply str_of_int_inj.
Qed.

(** X19: the [__repr__] of an association object tells its pair of keys:
    two objects of the class with the same representation are equal. *)
Theorem association_repr_lossless :
  (∀ f1 f2, FavoritePlanet_repr f1 = FavoritePlanet_repr f2 → f1 = f2)
  ∧ (∀ f1 f2, FavoritePerson_repr f1 = FavoritePerson_repr f2 → f1 = f2)
  ∧ (∀ f1 f2, FavoriteVehicle_repr f1 = FavoriteVehicle_repr f2 → f1 = f2).
Proof.
  split_and!; intros [u1 e1] [u2 e2] Heq.
  - apply (association_repr_inj "<FavoritePlanet User " "-> Planet ")
      in Heq as [Hu He]. simpl in *. by subst.
  - apply (association_repr_inj "<FavoritePerson User " "-> Person ")
      in Heq as [Hu He]. simpl in *. by subst.
  - apply (association_repr_inj "<FavoriteVehicle User " "-> Vehicle ")
      in Heq as [Hu He]. simpl in *. by subst.
Qed.

(** ** Updating a user *)



(** ** Both sides of a relationship *)

Lemma elem_of_one_to_many {C : Type} (fk : C → option Z) (key : option Z)
    (rows : list C) (c : C) :
  c ∈ one_to_many fk key rows ↔ joins (fk c) key ∧ c ∈ rows.
Proof. apply (list_elem_of_filter (λ c, joins (fk c) key)). Qed.

Lemma many_to_one_Some_elem_of {P : Type} (key : P → option Z)
    (fk : option Z) (rows : list P) (p : P) :
  many_to_one key fk rows = Some p → joins fk (key p) ∧ p ∈ rows.
Proof.
  unfold many_to_one. intros Hhead%head_Some_elem_of.
  by apply list_elem_of_filter in Hhead.
Qed.

(** Where the key identifies the row, the relationship loads the row
    that joins. *)
Lemma many_to_one_Some {P : Type} (key : P → option Z) (fk : option Z)
    (rows : list P) (p : P) :
  key_ok key rows → p ∈ rows →
  many_to_one key fk rows = Some p ↔ joins fk (key p).
Proof.
  intros Hkey Hin. split; [by intros [? _]%many_to_one_Some_elem_of|].
  intros Hjoins. destruct (many_to_one key fk rows) as [p'|] eqn:Hload.
  - apply many_to_one_Some_elem_of in Hload as [[_ Hfk] Hin'].
    f_equal. apply (key_ok_inj key rows); [done..|].
    destruct Hjoins as [_ <-]. done.
  - unfold many_to_one in Hload. apply head_None in Hload.
    assert (p ∈ filter (λ p, joins fk (key p)) rows) as Hp
      by by apply list_elem_of_filter.
    rewrite Hload in Hp. by apply elem_of_nil in Hp.
Qed.

(** The relationship loads [None] for NULL and for a dangling key, and
    for nothing else. *)
Lemma many_to_one_None {P : Type} (key : P → option Z) (fk : option Z)
    (rows : list P) :
  many_to_one key fk rows = None ↔ fk = None ∨ fk ∉ key <$> rows.
Proof.
  unfold many_to_one. rewrite head_None. split.
  - intros Hnil. destruct fk as [k|]; [right|by left].
    intros (p & Hk & Hin)%list_elem_of_fmap.
    assert (p ∈ filter (λ p, joins (Some k) (key p)) rows) as Hp.
    { apply list_elem_of_filter. split; [|done].
      split; [by rewrite <- Hk|done]. }
    rewrite Hnil in Hp. by apply elem_of_nil in Hp.
  - intros Hfk. apply filter_none. intros p Hin [Hsome Hjoin].
    destruct Hfk as [->|Hnot].
    + rewrite <- Hjoin in Hsome. by destruct Hsome.
    + apply Hnot. rewrite Hjoin. by apply list_elem_of_fmap_2.
Qed.

Lemma many_to_one_is_Some {P : Type} (key : P → option Z) (fk : option Z)
    (rows : list P) :
  Forall (λ p, is_Some (key p)) rows → fk ∈ key <$> rows →
  ∃ p, many_to_one key fk rows = Some p ∧ p ∈ rows ∧ joins fk (key p).
Proof.
  intros Hsome Hfk.
  destruct (many_to_one key fk rows) as [p|] eqn:Hload.
  - apply many_to_one_Some_elem_of in Hload as [? ?]. by exists p.
  - apply many_to_one_None in Hload as [->|Hnot]; [|done].
    apply list_elem_of_fmap in Hfk as (p & Hk & Hin).
    rewrite Forall_forall in Hsome. apply Hsome in Hin.
    rewrite <- Hk in Hin. by destruct Hin.
Qed.

(** X21: [Person.homeworld] and [Planet.residents] are the two sides of
    one relationship ([back_populates]): in a reachable store a planet
    is the homeworld of a person exactly when the person is among the
    residents of the planet. *)
Theorem homeworld_back_populates_residents (be : Backend) (s : Store)
    (p : Planet.t) (q : Person.t) :
  reachable be s → p ∈ planets s → q ∈ people s →
  Person_homeworld s q = Some p ↔ q ∈ Planet_residents s p.
Proof.
  intros Hreach Hp Hq.
  destruct (reachable_entities_ok be s Hreach) as (_ & [Hid _] & _).
  unfold Person_homeworld, Planet_residents.
  rewrite many_to_one_Some, elem_of_by_key, elem_of_one_to_many by done.
  split; [done|by intros [? _]].
Qed.

(** X22: the association objects and the collections of favorites are
    the two sides of their relationships: in a reachable store, the
    [user] of a favorite is the user who has it among the favorites, and
    its [planet], [person] or [vehicle] is the row that has it in
    [favorited_by]. *)
Theorem favorite_back_populates (be : Backend) (s : Store) :
  reachable be s →
  (∀ f u, f ∈ favorite_planets s → u ∈ users s →
          FavoritePlanet_user s f = Some u ↔ f ∈ User_favorite_planets s u)
  ∧ (∀ f p, f ∈ favorite_planets s → p ∈ planets s →
            FavoritePlanet_planet s f = Some p
            ↔ f ∈ Planet_favorited_by s p)
  ∧ (∀ f u, f ∈ favorite_people s → u ∈ users s →
            FavoritePerson_user s f = Some u ↔ f ∈ User_favorite_people s u)
  ∧ (∀ f p, f ∈ favorite_people s → p ∈ people s →
            FavoritePerson_person s f = Some p
            ↔ f ∈ Person_favorited_by s p)
  ∧ (∀ f u, f ∈ favorite_vehicles s → u ∈ users s →
            FavoriteVehicle_user s f = Some u
            ↔ f ∈ User_favorite_vehicles s u)
  ∧ (∀ f v, f ∈ favorite_vehicles s → v ∈ vehicles s →
            FavoriteVehicle_vehicle s f = Some v
            ↔ f ∈ Vehicle_favorited_by s v).
Proof.
  intros Hreach.
  destruct (reachable_entities_ok be s Hreach)
    as ([Hu _] & [Hp _] & [Hq _] & [Hv _]).
  split_and!; intros f r Hf Hr;
    unfold FavoritePlanet_user, FavoritePlanet_planet, FavoritePerson_user,
      FavoritePerson_person, FavoriteVehicle_user, FavoriteVehicle_vehicle,
      User_favorite_planets, Planet_favorited_by, User_favorite_people,
      Person_favorited_by, User_favorite_vehicles, Vehicle_favorited_by;
    rewrite many_to_one_Some, ?elem_of_by_key, elem_of_one_to_many by done;
    (split; [done|by intros [? _]]).
Qed.

(** X23: where foreign keys are enforced, every favorite of a reachable
    store has a [user] and a [planet], [person] or [vehicle]: neither
    attribute is [None], and the objects are rows of the store with the
    keys the favorite holds. *)
Theorem favorite_resolves (be : Backend) (s : Store) :
  enforces_foreign_keys be = true →
  reachable be s →
  (∀ f, f ∈ favorite_planets s →
        ∃ u p, FavoritePlanet_user s f = Some u
               ∧ FavoritePlanet_planet s f = Some p
               ∧ u ∈ users s ∧ p ∈ planets s
               ∧ User.id u = FavoritePlanet.user_id f
               ∧ Planet.id p = FavoritePlanet.planet_id f)
  ∧ (∀ f, f ∈ favorite_people s →
          ∃ u p, FavoritePerson_user s f = Some u
                 ∧ FavoritePerson_person s f = Some p
                 ∧ u ∈ users s ∧ p ∈ people s
                 ∧ User.id u = FavoritePerson.user_id f
                 ∧ Person.id p = FavoritePerson.person_id f)
  ∧ (∀ f, f ∈ favorite_vehicles s →
          ∃ u v, FavoriteVehicle_user s f = Some u
                 ∧ FavoriteVehicle_vehicle s f = Some v
                 ∧ u ∈ users s ∧ v ∈ vehicles s
                 ∧ User.id u = FavoriteVehicle.user_id f
                 ∧ Vehicle.id v = FavoriteVehicle.vehicle_id f).
Proof.
  intros Hbe Hreach.
  destruct (reachable_entities_ok be s Hreach)
    as ([[Hu _] _] & [[Hp _] _] & [[Hq _] _] & [[Hv _] _]).
  destruct (reachable_references_ok be s Hbe Hreach)
    as (Hfp & Hfq & Hfv & _).
  split_and!; intros f Hf.
  - destruct (Hfp f Hf) as [Huser Hplanet].
    apply (many_to_one_is_Some _ _ _ Hu) in Huser as (u & ? & ? & _ & ?).
    apply (many_to_one_is_Some _ _ _ Hp) in Hplanet as (p & ? & ? & _ & ?).
    by exists u, p.
  - destruct (Hfq f Hf) as [Huser Hperson].
    apply (many_to_one_is_Some _ _ _ Hu) in Huser as (u & ? & ? & _ & ?).
    apply (many_to_one_is_Some _ _ _ Hq) in Hperson as (p & ? & ? & _ & ?).
    by exists u, p.
  - destruct (Hfv f Hf) as [Huser Hvehicle].
    apply (many_to_one_is_Some _ _ _ Hu) in Huser as (u & ? & ? & _ & ?).
    apply (many_to_one_is_Some _ _ _ Hv) in Hvehicle as (v & ? & ? & _ & ?).
    by exists u, v.
Qed.

(** X24: where foreign keys are enforced, the [homeworld] of a person of
    a reachable store is [None] exactly when [homeworld_id] is NULL.
    Where they are not, it is [None] also for an id that no planet
    has. *)
Theorem homeworld_None (be : Backend) (s : Store) (q : Person.t) :
  (Person_homeworld s q = None
   ↔ Person.homeworld_id q = None
     ∨ Person.homeworld_id q ∉ Planet.id <$> planets s)
  ∧ (enforces_foreign_keys be = true → reachable be s → q ∈ people s →
     Person_homeworld s q = None ↔ Person.homeworld_id q = None).
Proof.
  split; [apply many_to_one_None|].
  intros Hbe Hreach Hq. unfold Person_homeworld. rewrite many_to_one_None.
  destruct (reachable_references_ok be s Hbe Hreach) as (_ & _ & _ & Hhome).
  destruct (Hhome q Hq) as [Hnull|Hin]; [by split; [|left]|].
  split; [by intros [?|?]|by left].
Qed.

(** ** What an update and a delete do to the serializations *)

Lemma elem_of_replace_row_iff {R : Type} (key : R → option Z) (k : Z)
    (row : R) (rows : list R) (r : R) :
  r ∈ replace_row key k row rows
  ↔ (r ∈ rows ∧ key r ≠ Some k) ∨ (r = row ∧ Some k ∈ key <$> rows).
Proof.
  unfold replace_row. rewrite list_elem_of_fmap. split.
  - intros (x & -> & Hx). case_decide as Hk.
    + right. split; [done|]. rewrite <- Hk. by apply list_elem_of_fmap_2.
    + by left.
  - intros [[Hr Hk]|[-> (x & Hk & Hx)%list_elem_of_fmap]].
    + exists r. by rewrite decide_False.
    + exists x. by rewrite decide_True.
Qed.

Lemma fmap_filter_comm {A B : Type} (f : A → B) (P : A → Prop)
    (Q : B → Prop) `{!∀ x, Decision (P x), !∀ y, Decision (Q y)}
    (l : list A) :
  (∀ x, P x ↔ Q (f x)) → f <$> filter P l = filter Q (f <$> l).
Proof.
  intros Hiff. induction l as [|x l IH]; [done|].
  rewrite fmap_cons. destruct (decide (P x)) as [Hx|Hx].
  - rewrite !filter_cons_True by (done || by apply Hiff).
    by rewrite fmap_cons, IH.
  - rewrite !filter_cons_False by (done || by rewrite <- Hiff). done.
Qed.

(** X25: an UPDATE of a person moves it between the [residents]: after
    person [k] is updated, the residents of a planet are the residents
    it had, the old row of person [k] apart, and the new row where its
    [homeworld_id] is the [id] of the planet. *)
Theorem update_person_moves_resident (be : Backend) (s s' : Store) (k : Z)
    (new : Person.t) :
  commit (update_person be k new) s = (Ok (), s') →
  ∃ row,
    row ∈ people s'
    ∧ Person.id row = Some k
    ∧ Person.name row = Person.name new
    ∧ Person.homeworld_id row = Person.homeworld_id new
    ∧ ∀ p q, q ∈ Planet_residents s' p
             ↔ (q ∈ Planet_residents s p ∧ Person.id q ≠ Some k)
               ∨ (q = row ∧ joins (Person.homeworld_id new) (Planet.id p)).
Proof.
  unfold commit. intros Hupdate.
  destruct (update_person be k new s) as [[[] s1]|] eqn:Hu; [|done].
  injection Hupdate as ->.
  apply update_person_Ok in Hu as (Hk & -> & _).
  eexists. split.
  { simpl. apply elem_of_replace_row_iff. right. by split. }
  split; [reflexivity|]. split; [reflexivity|]. split; [reflexivity|].
  intros p q. unfold Planet_residents. simpl.
  rewrite !elem_of_by_key, !elem_of_one_to_many, elem_of_replace_row_iff. split.
  - intros [Hjoins [[Hq Hid]|[-> _]]]; [by left|by right].
  - intros [[[Hjoins Hq] Hid]|[-> Hjoins]]; (split; [done|]);
      [by left|by right].
Qed.

(** X26: deleting a planet takes its id out of the favorites every user
    serializes: [favorite_planet_ids] keeps the other ids in their order,
    and no other entry of [User.serialize()] changes. *)
Theorem delete_planet_then_serialize_user (be : Backend) (s s' : Store)
    (pid : Z) (u : User.t) :
  commit (delete_planet be pid) s = (Ok (), s') →
  ∃ d d' planet_ids,
    User_serialize s u = Ok d
    ∧ User_serialize s' u = Ok d'
    ∧ d !! "favorite_planet_ids" = Some (VList (of_int <$> planet_ids))
    ∧ d' !! "favorite_planet_ids"
      = Some (VList (of_int <$> filter (λ i, i ≠ Some pid) planet_ids))
    ∧ ∀ k, k ≠ "favorite_planet_ids" → d' !! k = d !! k.
Proof.
  unfold commit. intros Hdelete.
  destruct (delete_planet be pid s) as [[[] s1]|] eqn:Hd; [|done].
  injection Hdelete as ->. rewrite delete_planet_eq in Hd.
  case_bool_decide; [|done]. injection Hd as <-.
  set (s' := mk_Store _ _ _ _ _ _ _).
  assert (∀ l : list FavoritePlanet.t,
            (λ fav, of_int (FavoritePlanet.planet_id fav)) <$> l
            = of_int <$> (FavoritePlanet.planet_id <$> l)) as Hcompose
    by (intros l; apply (list_fmap_compose FavoritePlanet.planet_id of_int)).
  assert (FavoritePlanet.planet_id <$> User_favorite_planets s' u
          = filter (λ i, i ≠ Some pid)
              (FavoritePlanet.planet_id <$> User_favorite_planets s u))
    as Hcollection.
  { unfold User_favorite_planets, one_to_many, s'. simpl.
    rewrite <- (fmap_filter_comm FavoritePlanet.planet_id
                  (λ f, FavoritePlanet.planet_id f ≠ Some pid)
                  (λ i, i ≠ Some pid)) by done.
    f_equal. rewrite filter_by_key. f_equal.
    rewrite !list_filter_filter. apply list_filter_iff.
    intros f. rewrite not_joins_Some. split; intros [? ?]; by split. }
  do 2 eexists. exists (FavoritePlanet.planet_id <$> User_favorite_planets s u).
  split; [apply User_serialize_eq|]. split; [apply User_serialize_eq|].
  rewrite !Hcompose, Hcollection.
  split; [reflexivity|]. split; [reflexivity|].
  intros k Hk. unfold dict; simpl. rewrite !lookup_insert.
  by repeat case_decide.
Qed.

(** X27: deleting a user changes no serialization of what remains: every
    other user serializes as before, with the same three lists of
    favorites, and every planet with the same [resident_ids]. *)
Theorem delete_user_then_serialize_others (be : Backend) (s s' : Store)
    (uid : Z) :
  commit (delete_user be uid) s = (Ok (), s') →
  (∀ u, User.id u ≠ Some uid → User_serialize s' u = User_serialize s u)
  ∧ (∀ p, Planet_serialize s' p = Planet_serialize s p).
Proof.
  unfold commit. intros Hdelete.
  destruct (delete_user be uid s) as [[[] s1]|] eqn:Hd; [|done].
  injection Hdelete as ->. rewrite delete_user_eq in Hd.
  case_bool_decide; [|done]. injection Hd as <-.
  split; [|done].
  intros u Hu. rewrite !User_serialize_eq.
  assert (∀ (C : Type) (fk : C → option Z) (rows : list C),
            one_to_many fk (User.id u)
              (filter (λ f, ¬ joins (fk f) (Some uid)) rows)
            = one_to_many fk (User.id u) rows) as Hcollection.
  { intros C fk rows. unfold one_to_many. apply list_filter_filter_l.
    intros f [_ Hfk]. rewrite not_joins_Some. by rewrite Hfk. }
  unfold User_favorite_planets, User_favorite_people, User_favorite_vehicles.
  simpl. by rewrite !Hcollection.
Qed.

(** * The further properties on the catalog *)

Lemma Planet_serialize_contract_catalog :
  ∃ d resident_ids,
    Planet_serialize catalog tatooine_row = Ok d
    ∧ dom d = {[ "id"; "name"; "diameter"; "rotation_period";
                 "orbital_period"; "gravity"; "population"; "climate";
                 "terrain"; "surface_water"; "resident_ids" ]}
    ∧ d !! "id" = Some (of_int (Planet.id tatooine_row))
    ∧ d !! "name" = Some (of_str (Planet.name tatooine_row))
    ∧ d !! "diameter" = Some (of_str (Planet.diameter tatooine_row))
    ∧ d !! "rotation_period"
      = Some (of_str (Planet.rotation_period tatooine_row))
    ∧ d !! "orbital_period"
      = Some (of_str (Planet.orbital_period tatooine_row))
    ∧ d !! "gravity" = Some (of_str (Planet.gravity tatooine_row))
    ∧ d !! "population" = Some (of_str (Planet.population tatooine_row))
    ∧ d !! "climate" = Some (of_str (Planet.climate tatooine_row))
    ∧ d !! "terrain" = Some (of_str (Planet.terrain tatooine_row))
    ∧ d !! "surface_water" = Some (of_str (Planet.surface_water tatooine_row))
    ∧ d !! "resident_ids" = Some (VList (VInt <$> resident_ids))
    ∧ Person.id <$> Planet_residents catalog tatooine_row
      = Some <$> resident_ids.
Proof.
  apply (Planet_serialize_contract sqlite_foreign_keys catalog tatooine_row).
  apply catalog_reachable.
Defined.

Lemma delete_person_cascades_catalog :
  luke_row ∈ people catalog
  ∧ ∃ s',
      commit (delete_person sqlite_foreign_keys 1) catalog = (Ok (), s')
      ∧ (∀ f, f ∈ favorite_people s'
              ↔ f ∈ favorite_people catalog
                ∧ FavoritePerson.person_id f ≠ Some 1)
      ∧ (∀ p', p' ∈ people s' ↔ p' ∈ people catalog ∧ Person.id p' ≠ Some 1)
      ∧ users s' = users catalog
      ∧ planets s' = planets catalog
      ∧ vehicles s' = vehicles catalog
      ∧ favorite_planets s' = favorite_planets catalog
      ∧ favorite_vehicles s' = favorite_vehicles catalog.
Proof.
  assert (luke_row ∈ people catalog) as Hin by (vm_compute; left).
  split; [exact Hin|].
  apply (delete_person_cascades sqlite_foreign_keys catalog luke_row 1 Hin).
  reflexivity.
Defined.

Lemma delete_vehicle_cascades_catalog :
  snowspeeder_row ∈ vehicles catalog
  ∧ ∃ s',
      commit (delete_vehicle sqlite_foreign_keys 1) catalog = (Ok (), s')
      ∧ (∀ f, f ∈ favorite_vehicles s'
              ↔ f ∈ favorite_vehicles catalog
                ∧ FavoriteVehicle.vehicle_id f ≠ Some 1)
      ∧ (∀ v', v' ∈ vehicles s'
               ↔ v' ∈ vehicles catalog ∧ Vehicle.id v' ≠ Some 1)
      ∧ users s' = users catalog
      ∧ planets s' = planets catalog
      ∧ people s' = people catalog
      ∧ favorite_planets s' = favorite_planets catalog
      ∧ favorite_people s' = favorite_people catalog.
Proof.
  assert (snowspeeder_row ∈ vehicles catalog) as Hin by (vm_compute; left).
  split; [exact Hin|].
  apply (delete_vehicle_cascades sqlite_foreign_keys catalog snowspeeder_row 1
           Hin).
  reflexivity.
Defined.

(** User 2 adds planet 2 to his favorites and takes it back. *)
Lemma add_then_delete_favorite_catalog :
  let f := FavoritePlanet.mk (Some 2) (Some 2) in
  let s1 := (commit (add_favorite_planet sqlite_foreign_keys f) catalog).2 in
  commit (add_favorite_planet sqlite_foreign_keys f) catalog = (Ok f, s1)
  ∧ commit (delete_favorite_planet sqlite_foreign_keys f) s1 = (Ok (), catalog).
Proof.
  intros f s1.
  assert (commit (add_favorite_planet sqlite_foreign_keys f) catalog
          = (Ok f, s1)) as Hadd by (vm_compute; reflexivity).
  split; [exact Hadd|].
  exact (proj1 (add_then_delete_favorite sqlite_foreign_keys catalog) f f s1
           Hadd).
Defined.

(** User 1, whose favorite is planet 2, adds planet 1 again: its id
    comes first, though its row is the last of the table. *)
Lemma add_favorite_planet_then_serialize_catalog :
  let f := FavoritePlanet.mk (Some 1) (Some 1) in
  let s := catalog_without_1_1 in
  let s1 := (commit (add_favorite_planet sqlite_foreign_keys f) s).2 in
  commit (add_favorite_planet sqlite_foreign_keys f) s = (Ok f, s1)
  ∧ (∃ d d1 pid planet_ids planet_ids1,
       FavoritePlanet.planet_id f = Some pid
       ∧ User_serialize s leia_row = Ok d
       ∧ User_serialize s1 leia_row = Ok d1
       ∧ d !! "favorite_planet_ids" = Some (VList (VInt <$> planet_ids))
       ∧ d1 !! "favorite_planet_ids" = Some (VList (VInt <$> planet_ids1))
       ∧ Sorted Z.lt planet_ids
       ∧ Sorted Z.lt planet_ids1
       ∧ planet_ids1 ≡ₚ pid :: planet_ids
       ∧ ∀ k, k ≠ "favorite_planet_ids" → d1 !! k = d !! k)
  ∧ User_serialize s1 han_row = User_serialize s han_row.
Proof.
  intros f s s1.
  assert (commit (add_favorite_planet sqlite_foreign_keys f) s = (Ok f, s1))
    as Hadd by (vm_compute; reflexivity).
  assert (reachable sqlite_foreign_keys s) as Hreach
    by apply execute_reachable, catalog_reachable.
  split; [exact Hadd|]. split.
  - apply (add_favorite_planet_then_serialize sqlite_foreign_keys s s1 f f
             leia_row Hreach Hadd). reflexivity.
  - apply (add_favorite_planet_then_serialize sqlite_foreign_keys s s1 f f
             han_row Hreach Hadd). discriminate.
Defined.

Lemma reachable_users_catalog :
  (∀ u, u ∈ users catalog →
        is_Some (User.id u) ∧ is_Some (User.email u)
        ∧ is_Some (User.password u) ∧ is_Some (User.is_active u))
  ∧ (∀ u1 u2, u1 ∈ users catalog → u2 ∈ users catalog →
              User.id u1 = User.id u2 → u1 = u2)
  ∧ (∀ u1 u2, u1 ∈ users catalog → u2 ∈ users catalog →
              User.email u1 = User.email u2 → u1 = u2).
Proof.
  exact (reachable_users sqlite_foreign_keys catalog catalog_reachable).
Defined.

Lemma reachable_reference_entities_catalog :
  ((∀ p, p ∈ planets catalog →
         is_Some (Planet.id p) ∧ is_Some (Planet.name p))
   ∧ (∀ p1 p2, p1 ∈ planets catalog → p2 ∈ planets catalog →
               Planet.id p1 = Planet.id p2 ∨ Planet.name p1 = Planet.name p2 →
               p1 = p2))
  ∧ ((∀ v, v ∈ vehicles catalog →
           is_Some (Vehicle.id v) ∧ is_Some (Vehicle.name v)
           ∧ is_Some (Vehicle.model v) ∧ is_Some (Vehicle.manufacturer v))
     ∧ (∀ v1 v2, v1 ∈ vehicles catalog → v2 ∈ vehicles catalog →
                 Vehicle.id v1 = Vehicle.id v2
                 ∨ Vehicle.name v1 = Vehicle.name v2 →
                 v1 = v2))
  ∧ ((∀ p, p ∈ people catalog →
           is_Some (Person.id p) ∧ is_Some (Person.name p))
     ∧ (∀ p1 p2, p1 ∈ people catalog → p2 ∈ people catalog →
                 Person.id p1 = Person.id p2 → p1 = p2)).
Proof.
  exact (reachable_reference_entities sqlite_foreign_keys catalog
           catalog_reachable).
Defined.

Lemma reachable_references_catalog :
  enforces_foreign_keys sqlite_foreign_keys = true
  ∧ (∀ f, f ∈ favorite_planets catalog →
          (∃ u, u ∈ users catalog ∧ User.id u = FavoritePlanet.user_id f)
          ∧ ∃ p, p ∈ planets catalog
                 ∧ Planet.id p = FavoritePlanet.planet_id f)
  ∧ (∀ f, f ∈ favorite_people catalog →
          (∃ u, u ∈ users catalog ∧ User.id u = FavoritePerson.user_id f)
          ∧ ∃ p, p ∈ people catalog
                 ∧ Person.id p = FavoritePerson.person_id f)
  ∧ (∀ f, f ∈ favorite_vehicles catalog →
          (∃ u, u ∈ users catalog ∧ User.id u = FavoriteVehicle.user_id f)
          ∧ ∃ v, v ∈ vehicles catalog
                 ∧ Vehicle.id v = FavoriteVehicle.vehicle_id f)
  ∧ (∀ q, q ∈ people catalog →
          Person.homeworld_id q = None
          ∨ ∃ p, p ∈ planets catalog ∧ Planet.id p = Person.homeworld_id q).
Proof.
  split; [reflexivity|].
  exact (reachable_references sqlite_foreign_keys catalog eq_refl
           catalog_reachable).
Defined.

(** [lando_of_bespin] signs up with an aware [subscription_date] and no
    [is_active]. *)
Lemma new_user_serialize_catalog :
  let s1 :=
    (commit (add_user sqlite_foreign_keys may_the_4th lando_of_bespin)
       catalog).2 in
  commit (add_user sqlite_foreign_keys may_the_4th lando_of_bespin) catalog
  = (Ok lando_row, s1)
  ∧ User.is_active lando_row = Some true
  ∧ User.subscription_date lando_row
    = Some (mk_datetime 2024 5 4 14 30 0 0 None)
  ∧ (∃ date, User.subscription_date lando_row = Some date
             ∧ utcoffset date = None)
  ∧ ∃ d, User_serialize s1 lando_row = Ok d
         ∧ d !! "favorite_planet_ids" = Some (VList [])
         ∧ d !! "favorite_person_ids" = Some (VList [])
         ∧ d !! "favorite_vehicle_ids" = Some (VList []).
Proof.
  intros s1.
  assert (commit (add_user sqlite_foreign_keys may_the_4th lando_of_bespin)
            catalog = (Ok lando_row, s1)) as Hadd
    by (vm_compute; reflexivity).
  split; [exact Hadd|].
  exact (new_user_serialize sqlite_foreign_keys may_the_4th catalog s1
           lando_of_bespin lando_row eq_refl catalog_reachable Hadd).
Defined.

(** Planet 1 is deleted; person 1, born there, is serialized before and
    after. *)
Lemma delete_planet_then_serialize_resident_catalog :
  tatooine_row ∈ planets catalog
  ∧ luke_row ∈ people catalog
  ∧ ∃ s' q' d d',
      commit (delete_planet sqlite_foreign_keys 1) catalog = (Ok (), s')
      ∧ q' ∈ people s'
      ∧ Person_serialize catalog luke_row = Ok d
      ∧ Person_serialize s' q' = Ok d'
      ∧ d' !! "homeworld_id" = Some VNone
      ∧ ∀ k, k ≠ "homeworld_id" → d' !! k = d !! k.
Proof.
  assert (tatooine_row ∈ planets catalog) as Hp by (vm_compute; left).
  assert (luke_row ∈ people catalog) as Hq by (vm_compute; left).
  split; [exact Hp|]. split; [exact Hq|].
  exact (delete_planet_then_serialize_resident sqlite_foreign_keys catalog
           tatooine_row luke_row 1 Hp eq_refl Hq eq_refl).
Defined.


(** User 7 and vehicle 5 are not in the catalog, and [2 ^ 63] is no
    integer of 64 bits. *)
Lemma add_favorite_unknown_reference_catalog :
  enforces_foreign_keys sqlite_foreign_keys = true
  ∧ (∃ c, commit (add_favorite_planet sqlite_foreign_keys
                    (FavoritePlanet.mk (Some 7) (Some 1))) catalog
          = (Err (IntegrityError c), catalog))
  ∧ (∃ c, commit (add_favorite_vehicle sqlite_foreign_keys
                    (FavoriteVehicle.mk (Some 1) (Some 5))) catalog
          = (Err (IntegrityError c), catalog))
  ∧ commit (add_favorite_planet sqlite_foreign_keys
              (FavoritePlanet.mk (Some (2 ^ 63)) (Some 1))) catalog
    = (Err OverflowError, catalog).
Proof.
  split; [reflexivity|].
  destruct (add_favorite_unknown_reference sqlite_foreign_keys catalog)
    as (Hunknown & Hoverflow & _).
  destruct (Hunknown eq_refl) as (Hplanet & _ & Hvehicle).
  assert (∀ n, - 2 ^ 63 ≤ n < 2 ^ 63 → binds (Some n)) as Hbinds
    by (intros n Hn; by apply binds_Some).
  split; [|split].
  - apply Hplanet; [apply Hbinds; lia..|]. left. vm_compute.
    by intros [?|[?|?]%elem_of_cons]%elem_of_cons;
      try discriminate; eapply not_elem_of_nil.
  - apply Hvehicle; [apply Hbinds; lia..|]. right. vm_compute.
    by intros [?|?]%elem_of_cons; try discriminate; eapply not_elem_of_nil.
  - apply Hoverflow. left. simpl. rewrite binds_Some. unfold int64. lia.
Defined.


Lemma repr_identifies_row_catalog :
  (∀ u1 u2, u1 ∈ users catalog → u2 ∈ users catalog →
            User_repr u1 = User_repr u2 → u1 = u2)
  ∧ (∀ p1 p2, p1 ∈ planets catalog → p2 ∈ planets catalog →
              Planet_repr p1 = Planet_repr p2 → p1 = p2)
  ∧ (∀ v1 v2, v1 ∈ vehicles catalog → v2 ∈ vehicles catalog →
              Vehicle_repr v1 = Vehicle_repr v2 → v1 = v2).
Proof.
  exact (repr_identifies_row sqlite_foreign_keys catalog catalog_reachable).
Defined.


(** Person 1 and planet 1. *)
Lemma homeworld_back_populates_residents_catalog :
  tatooine_row ∈ planets catalog
  ∧ luke_row ∈ people catalog
  ∧ (Person_homeworld catalog luke_row = Some tatooine_row
     ↔ luke_row ∈ Planet_residents catalog tatooine_row).
Proof.
  assert (tatooine_row ∈ planets catalog) as Hp by (vm_compute; left).
  assert (luke_row ∈ people catalog) as Hq by (vm_compute; left).
  split; [exact Hp|]. split; [exact Hq|].
  exact (homeworld_back_populates_residents sqlite_foreign_keys catalog
           tatooine_row luke_row catalog_reachable Hp Hq).
Defined.

Lemma favorite_back_populates_catalog :
  (∀ f u, f ∈ favorite_planets catalog → u ∈ users catalog →
          FavoritePlanet_user catalog f = Some u
          ↔ f ∈ User_favorite_planets catalog u)
  ∧ (∀ f p, f ∈ favorite_planets catalog → p ∈ planets catalog →
            FavoritePlanet_planet catalog f = Some p
            ↔ f ∈ Planet_favorited_by catalog p)
  ∧ (∀ f u, f ∈ favorite_people catalog → u ∈ users catalog →
            FavoritePerson_user catalog f = Some u
            ↔ f ∈ User_favorite_people catalog u)
  ∧ (∀ f p, f ∈ favorite_people catalog → p ∈ people catalog →
            FavoritePerson_person catalog f = Some p
            ↔ f ∈ Person_favorited_by catalog p)
  ∧ (∀ f u, f ∈ favorite_vehicles catalog → u ∈ users catalog →
            FavoriteVehicle_user catalog f = Some u
            ↔ f ∈ User_favorite_vehicles catalog u)
  ∧ (∀ f v, f ∈ favorite_vehicles catalog → v ∈ vehicles catalog →
            FavoriteVehicle_vehicle catalog f = Some v
            ↔ f ∈ Vehicle_favorited_by catalog v).
Proof.
  exact (favorite_back_populates sqlite_foreign_keys catalog catalog_reachable).
Defined.

(** The favorite of user 2 for planet 1. *)
Lemma favorite_resolves_catalog :
  FavoritePlanet.mk (Some 2) (Some 1) ∈ favorite_planets catalog
  ∧ ∃ u p, FavoritePlanet_user catalog (FavoritePlanet.mk (Some 2) (Some 1))
           = Some u
           ∧ FavoritePlanet_planet catalog
               (FavoritePlanet.mk (Some 2) (Some 1)) = Some p
           ∧ u ∈ users catalog ∧ p ∈ planets catalog
           ∧ User.id u = Some 2 ∧ Planet.id p = Some 1.
Proof.
  assert (FavoritePlanet.mk (Some 2) (Some 1) ∈ favorite_planets catalog)
    as Hf by (vm_compute; do 2 right; left).
  split; [exact Hf|].
  exact (proj1 (favorite_resolves sqlite_foreign_keys catalog eq_refl
                  catalog_reachable) _ Hf).
Defined.

(** Person 1 has a homeworld in the catalog; a person of planet 9, stored
    where foreign keys are not enforced, has none. *)
Lemma homeworld_None_catalog :
  (Person_homeworld catalog luke_row = None
   ↔ Person.homeworld_id luke_row = None)
  ∧ Person_homeworld catalog luke_of_nowhere = None.
Proof.
  split.
  - apply (proj2 (homeworld_None sqlite_foreign_keys catalog luke_row));
      [reflexivity|apply catalog_reachable|vm_compute; left].
  - apply (proj1 (homeworld_None sqlite catalog luke_of_nowhere)).
    right. vm_compute.
    by intros [?|[?|?]%elem_of_cons]%elem_of_cons;
      try discriminate; eapply not_elem_of_nil.
Defined.

(** Person 1 moves from planet 1 to planet 2. *)
Lemma update_person_moves_resident_catalog :
  let s1 :=
    (commit (update_person sqlite_foreign_keys 1 luke_on_alderaan) catalog).2 in
  commit (update_person sqlite_foreign_keys 1 luke_on_alderaan) catalog
  = (Ok (), s1)
  ∧ ∃ row,
      row ∈ people s1
      ∧ Person.id row = Some 1
      ∧ Person.name row = Some "Luke Skywalker"
      ∧ Person.homeworld_id row = Some 2
      ∧ ∀ p q, q ∈ Planet_residents s1 p
               ↔ (q ∈ Planet_residents catalog p ∧ Person.id q ≠ Some 1)
                 ∨ (q = row ∧ joins (Some 2) (Planet.id p)).
Proof.
  intros s1.
  assert (commit (update_person sqlite_foreign_keys 1 luke_on_alderaan) catalog
          = (Ok (), s1)) as Hupdate by (vm_compute; reflexivity).
  split; [exact Hupdate|].
  exact (update_person_moves_resident sqlite_foreign_keys catalog s1 1
           luke_on_alderaan Hupdate).
Defined.

(** Planet 1 is deleted: user 1, who had planets 2 and 1 as favorites,
    keeps planet 2. *)
Lemma delete_planet_then_serialize_user_catalog :
  let s1 := (commit (delete_planet sqlite_foreign_keys 1) catalog).2 in
  commit (delete_planet sqlite_foreign_keys 1) catalog = (Ok (), s1)
  ∧ ∃ d d' planet_ids,
      User_serialize catalog leia_row = Ok d
      ∧ User_serialize s1 leia_row = Ok d'
      ∧ d !! "favorite_planet_ids" = Some (VList (of_int <$> planet_ids))
      ∧ d' !! "favorite_planet_ids"
        = Some (VList (of_int <$> filter (λ i, i ≠ Some 1) planet_ids))
      ∧ ∀ k, k ≠ "favorite_planet_ids" → d' !! k = d !! k.
Proof.
  intros s1.
  assert (commit (delete_planet sqlite_foreign_keys 1) catalog = (Ok (), s1))
    as Hdelete by (vm_compute; reflexivity).
  split; [exact Hdelete|].
  exact (delete_planet_then_serialize_user sqlite_foreign_keys catalog s1 1
           leia_row Hdelete).
Defined.

(** User 1 is deleted: user 2 and planet 1 serialize as before. *)
Lemma delete_user_then_serialize_others_catalog :
  let s1 := (commit (delete_user sqlite_foreign_keys 1) catalog).2 in
  commit (delete_user sqlite_foreign_keys 1) catalog = (Ok (), s1)
  ∧ User_serialize s1 han_row = User_serialize catalog han_row
  ∧ Planet_serialize s1 tatooine_row = Planet_serialize catalog tatooine_row.
Proof.
  intros s1.
  assert (commit (delete_user sqlite_foreign_keys 1) catalog = (Ok (), s1))
    as Hdelete by (vm_compute; reflexivity).
  split; [exact Hdelete|].
  destruct (delete_user_then_serialize_others sqlite_foreign_keys catalog s1 1
              Hdelete)
    as [Husers Hplanets].
  split; [by apply Husers|apply Hplanets].
Defined.

(** ** [__repr__] on the catalog *)

Example User_repr_leia : User_repr leia_row = "<User leia@rebellion.org>".
Proof. reflexivity. Qed.

(** An object constructed without a name prints [None]. *)
Example Planet_repr_unnamed :
  Planet_repr (Planet.mk (Some 1) None None None None None None None None None)
  = "<Planet None>".
Proof. reflexivity. Qed.

Example Person_repr_luke : Person_repr luke_row = "<Person Luke Skywalker>".
Proof. reflexivity. Qed.

Example Vehicle_repr_snowspeeder :
  Vehicle_repr snowspeeder_row = "<Vehicle Snowspeeder>".
Proof. reflexivity. Qed.

Example FavoritePlanet_repr_1_2 :
  FavoritePlanet_repr (FavoritePlanet.mk (Some 1) (Some 2))
  = "<FavoritePlanet User 1 -> Planet 2>".
Proof. reflexivity. Qed.

(** A pending favorite whose user is not yet set. *)
Example FavoriteVehicle_repr_pending :
  FavoriteVehicle_repr (FavoriteVehicle.mk None (Some 12))
  = "<FavoriteVehicle User None -> Vehicle 12>".
Proof. reflexivity. Qed.

(** Two people of the catalog may print alike: [name] is not unique. *)
Example Person_repr_not_unique :
  ∃ row s', commit (add_person sqlite_foreign_keys luke_namesake) catalog
            = (Ok row, s')
            ∧ row ∈ people s' ∧ luke_row ∈ people s'
            ∧ row ≠ luke_row
            ∧ Person_repr row = Person_repr luke_row.
Proof.
  eexists _, _. split; [vm_compute; reflexivity|].
  split_and!; [vm_compute; do 3 right; left|vm_compute; left|done|done].
Qed.

(** ** The many-to-one side on the catalog *)

Example Person_homeworld_luke :
  Person_homeworld catalog luke_row = Some tatooine_row.
Proof. reflexivity. Qed.

Example FavoritePlanet_planet_1_2 :
  FavoritePlanet_planet catalog (FavoritePlanet.mk (Some 1) (Some 2))
  = Some alderaan_row.
Proof. reflexivity. Qed.

(** After planet 1 is deleted, person 1 has no homeworld. *)
Example Person_homeworld_after_delete :
  (λ s, Person_homeworld s <$> people s)
    (commit (delete_planet sqlite_foreign_keys 1) catalog).2
  = [None; None; Some alderaan_row].
Proof. reflexivity. Qed.
